(** * Shikimaru runner: the job-lifecycle orchestrator

  A shallow embedding of the runner's core
  ([runner/state_machine.py], [runner/services/job_manager.py],
  [runner/services/cursor_invoker.py] and the phase handlers under
  [runner/routers/]) together with the properties its specification
  states about it.

  Conventions of the embedding:
  - Python [str] is [string]; an [int] is [Z]; a [datetime] is the reading
    of a clock, an integer.
  - A [dict] is an association list that keeps insertion order, as
    Python's does.
  - Code that raises or mutates runs in the monad [M] over a [World]:
    the one [JobManager] of the process, the disk, and the oracles that
    stand for the clock, [uuid.uuid4] and the external agent process.
  - A [Job] object lives in the registry under its [job_id]; a handler's
    [job.field = v] is an update of that registry entry.
  - Library functions whose text is not part of the runner ([repr],
    [str.strip], [json.loads], [json.dumps], the validation of a pydantic
    model, the prompt builders) are variables of the sections that use
    them; every property holds for whatever they are.
  - A handler is followed from its call to its end, one handler at a
    time: the event loop's interleaving of handlers at their [await]s is
    outside the embedding, and so is logging. *)

From Stdlib Require Import String Ascii List ZArith Bool Lia DecimalString Floats.
Set Warnings "-register-all".
Import ListNotations.
Open Scope string_scope.
Open Scope list_scope.

(* ================================================================= *)
(** ** Python values *)

Module Py.

(** The values [json.loads] can return. *)
Inductive value : Type :=
| VNone
| VBool (b : bool)
| VInt (n : Z)
| VFloat (f : float)
| VStr (s : string)
| VList (items : list value)
| VDict (entries : list (string * value)).

(** Truth value testing: [if v:]. *)
Definition truthy (v : value) : bool :=
  match v with
  | VNone => false
  | VBool b => b
  | VInt n => negb (Z.eqb n 0)
  | VFloat f => negb (PrimFloat.eqb f 0%float)
  | VStr s => negb (String.eqb s "")
  | VList items => match items with [] => false | _ => true end
  | VDict entries => match entries with [] => false | _ => true end
  end.

(** [a or b]. *)
Definition or_else (a b : value) : value := if truthy a then a else b.

(** [type(v).__name__]. *)
Definition type_name (v : value) : string :=
  match v with
  | VNone => "NoneType"
  | VBool _ => "bool"
  | VInt _ => "int"
  | VFloat _ => "float"
  | VStr _ => "str"
  | VList _ => "list"
  | VDict _ => "dict"
  end.

(** [str(n)] for an [int]. *)
Definition str_of_int (n : Z) : string := NilZero.string_of_int (Z.to_int n).

(** [s.startswith(prefix)]. *)
Definition startswith (s prefix : string) : bool := String.prefix prefix s.

(** [s[n:]]. *)
Fixpoint drop (n : nat) (s : string) : string :=
  match n, s with
  | O, _ => s
  | S _, EmptyString => EmptyString
  | S n', String _ rest => drop n' rest
  end.

(** [s[:n]]. *)
Fixpoint take (n : nat) (s : string) : string :=
  match n, s with
  | O, _ => EmptyString
  | S _, EmptyString => EmptyString
  | S n', String c rest => String c (take n' rest)
  end.

Definition LF : ascii := ascii_of_nat 10.
Definition CR : ascii := ascii_of_nat 13.

(** [s.rstrip("\n\r")]: drop every trailing line feed and carriage
    return. *)
Fixpoint rstrip_newlines (s : string) : string :=
  match s with
  | EmptyString => EmptyString
  | String c rest =>
      match rstrip_newlines rest with
      | EmptyString =>
          if (Ascii.eqb c LF || Ascii.eqb c CR)%bool then EmptyString
          else String c EmptyString
      | rest' => String c rest'
      end
  end.

(** [sep.join(parts)] is [String.concat sep parts]. *)
Definition join (sep : string) (parts : list string) : string :=
  String.concat sep parts.

(** *** Insertion-ordered dictionaries keyed by [str] *)
Section Dict.
Context {V : Type}.

Definition dict := list (string * V).

(** [d.get(k)], [None] when the key is absent. *)
Fixpoint get (d : dict) (k : string) : option V :=
  match d with
  | [] => None
  | (k', v) :: rest => if String.eqb k' k then Some v else get rest k
  end.

(** [k in d]. *)
Definition contains (d : dict) (k : string) : bool :=
  match get d k with Some _ => true | None => false end.

(** [d[k] = v]: an existing key keeps its position, a new one goes
    last. *)
Fixpoint set (d : dict) (k : string) (v : V) : dict :=
  match d with
  | [] => [(k, v)]
  | (k', v') :: rest =>
      if String.eqb k' k then (k, v) :: rest
      else (k', v') :: set rest k v
  end.

(** [d.values()], in insertion order. *)
Definition values (d : dict) : list V := map snd d.

Definition keys (d : dict) : list string := map fst d.
End Dict.
Arguments dict V : clear implicits.

(** [d.get(k, default)] on a decoded JSON object. *)
Definition get_default (d : dict value) (k : string) (default : value) : value :=
  match get d k with Some v => v | None => default end.

End Py.

(* ================================================================= *)
(** ** runner/models.py *)

Module models.

Inductive JobState : Type :=
| DRAFT | ASK_RUNNING | ASK_DONE | NEEDS_INPUT
| PLAN_RUNNING | PLAN_READY | PLAN_NEEDS_INPUT
| APPROVED | EXECUTING | COMPLETE | FAILED.

(** [state.value] of the [StrEnum]. *)
Definition JobState_value (s : JobState) : string :=
  match s with
  | DRAFT => "draft"
  | ASK_RUNNING => "ask_running"
  | ASK_DONE => "ask_done"
  | NEEDS_INPUT => "needs_input"
  | PLAN_RUNNING => "plan_running"
  | PLAN_READY => "plan_ready"
  | PLAN_NEEDS_INPUT => "plan_needs_input"
  | APPROVED => "approved"
  | EXECUTING => "executing"
  | COMPLETE => "complete"
  | FAILED => "failed"
  end.

Definition JobState_eqb (a b : JobState) : bool :=
  match a, b with
  | DRAFT, DRAFT | ASK_RUNNING, ASK_RUNNING | ASK_DONE, ASK_DONE
  | NEEDS_INPUT, NEEDS_INPUT | PLAN_RUNNING, PLAN_RUNNING
  | PLAN_READY, PLAN_READY | PLAN_NEEDS_INPUT, PLAN_NEEDS_INPUT
  | APPROVED, APPROVED | EXECUTING, EXECUTING | COMPLETE, COMPLETE
  | FAILED, FAILED => true
  | _, _ => false
  end.

Definition all_states : list JobState :=
  [DRAFT; ASK_RUNNING; ASK_DONE; NEEDS_INPUT; PLAN_RUNNING; PLAN_READY;
   PLAN_NEEDS_INPUT; APPROVED; EXECUTING; COMPLETE; FAILED].

Inductive EventType : Type := STEP | LOG | DONE | ERROR.

Definition EventType_value (t : EventType) : string :=
  match t with
  | STEP => "step" | LOG => "log" | DONE => "done" | ERROR => "error"
  end.

Definition datetime := Z.

(** A filesystem path, as its components from the root. *)
Definition Path := list string.

(** [p / name] for a single relative component [name]. *)
Definition path_join (p : Path) (name : string) : Path := p ++ [name].

Record JobEvent : Type := mkJobEvent {
  event_type : EventType;
  data : string;
  timestamp : datetime
}.

Record Job : Type := mkJob {
  job_id : string;
  project_path : string;
  state : JobState;
  session_id : string;
  plan_id : string;
  plan_markdown : string;
  artifacts_dir : Path;
  events : list JobEvent;
  created_at : datetime;
  updated_at : datetime
}.

(** Attribute assignments on a [Job]. *)
Definition set_state (j : Job) (s : JobState) : Job :=
  mkJob (job_id j) (project_path j) s (session_id j) (plan_id j)
        (plan_markdown j) (artifacts_dir j) (events j) (created_at j)
        (updated_at j).

Definition set_updated_at (j : Job) (t : datetime) : Job :=
  mkJob (job_id j) (project_path j) (state j) (session_id j) (plan_id j)
        (plan_markdown j) (artifacts_dir j) (events j) (created_at j) t.

Definition set_session_id (j : Job) (s : string) : Job :=
  mkJob (job_id j) (project_path j) (state j) s (plan_id j)
        (plan_markdown j) (artifacts_dir j) (events j) (created_at j)
        (updated_at j).

Definition set_plan_id (j : Job) (p : string) : Job :=
  mkJob (job_id j) (project_path j) (state j) (session_id j) p
        (plan_markdown j) (artifacts_dir j) (events j) (created_at j)
        (updated_at j).

Definition set_plan_markdown (j : Job) (p : string) : Job :=
  mkJob (job_id j) (project_path j) (state j) (session_id j) (plan_id j)
        p (artifacts_dir j) (events j) (created_at j) (updated_at j).

(** [job.events.append(e)]. *)
Definition append_event (j : Job) (e : JobEvent) : Job :=
  mkJob (job_id j) (project_path j) (state j) (session_id j) (plan_id j)
        (plan_markdown j) (artifacts_dir j) (events j ++ [e]) (created_at j)
        (updated_at j).

(** *** Request and response bodies *)

Record HistoryMessage : Type := mkHistoryMessage {
  role : string;
  content : string
}.

Module AskRequest.
Record t : Type := mk {
  project_path : string;
  message : string;
  recent_days : Z;                 (* context.recent_days *)
  history : list HistoryMessage;
  session_id : string
}.
End AskRequest.

Module AskResponse.
Record t : Type := mk {
  job_id : string;
  ask_text : string;
  session_id : string
}.
End AskResponse.

Module PlanRequest.
Record t : Type := mk {
  project_path : string;
  objective : string;
  constraints : list string;
  answers : list (string * string);
  history : list HistoryMessage;
  session_id : string
}.
End PlanRequest.

Module ApproveResponse.
Record t : Type := mk {
  job_id : string;
  status : string
}.
End ApproveResponse.

Module PlanResponse.
Record t : Type := mk {
  job_id : string;
  plan_id : string;
  plan_markdown : string;
  session_id : string
}.
End PlanResponse.

End models.

(* ================================================================= *)
(** ** Exceptions, the world and the monad of effects *)

Module Runtime.
Import models.

(** The exception classes the runner raises or handles.  [KeyError],
    [TimeoutError], ... carry the single argument they are built with;
    the classes the operating system raises carry their rendered text. *)
Inductive exn : Type :=
| KeyError (msg : string)
| InvalidTransitionError (current target : JobState)
| TimeoutError (msg : string)
| FileNotFoundError (msg : string)
| FileExistsError (msg : string)
| NotADirectoryError (msg : string)
| IsADirectoryError (msg : string)
| OSError (msg : string)
| AttributeError (msg : string)
| TypeError (msg : string)
| ValidationError (msg : string)
| HTTPException (status_code : Z) (detail : string)
| Exception (msg : string).

(** [isinstance(e, TimeoutError)]. *)
Definition is_TimeoutError (e : exn) : bool :=
  match e with TimeoutError _ => true | _ => false end.

(** [isinstance(e, (FileNotFoundError, OSError))]: [OSError] and its
    subclasses, [TimeoutError] among them. *)
Definition is_OSError (e : exn) : bool :=
  match e with
  | TimeoutError _ | FileNotFoundError _ | FileExistsError _
  | NotADirectoryError _ | IsADirectoryError _ | OSError _ => true
  | _ => false
  end.

Definition is_KeyError (e : exn) : bool :=
  match e with KeyError _ => true | _ => false end.

Definition is_InvalidTransitionError (e : exn) : bool :=
  match e with InvalidTransitionError _ _ => true | _ => false end.

(** ["'" + name + "' object has no attribute '" + attr + "'"]. *)
Definition no_attribute (v : Py.value) (attr : string) : exn :=
  AttributeError
    ("'" ++ Py.type_name v ++ "' object has no attribute '" ++ attr ++ "'").

(** How a call ends: it returns, it raises, or it never finishes. *)
Inductive outcome (A : Type) : Type :=
| Return (a : A)
| Raise (e : exn)
| Forever.
Arguments Return {A} a.
Arguments Raise {A} e.
Arguments Forever {A}.

(** *** The disk

    Directories and regular files by path.  An operation is refused
    where a name clashes; permissions and a full disk are left out. *)

Inductive node : Type := Dir | File (content : string).

Definition FileSystem := list (Path * node).

Fixpoint path_eqb (p q : Path) : bool :=
  match p, q with
  | [], [] => true
  | a :: p', b :: q' => String.eqb a b && path_eqb p' q'
  | _, _ => false
  end.

Fixpoint fs_get (fs : FileSystem) (p : Path) : option node :=
  match fs with
  | [] => None
  | (q, n) :: rest => if path_eqb q p then Some n else fs_get rest p
  end.

Fixpoint fs_set (fs : FileSystem) (p : Path) (n : node) : FileSystem :=
  match fs with
  | [] => [(p, n)]
  | (q, m) :: rest =>
      if path_eqb q p then (p, n) :: rest else (q, m) :: fs_set rest p n
  end.

Definition is_dir (fs : FileSystem) (p : Path) : bool :=
  match fs_get fs p with Some Dir => true | _ => false end.

Definition is_file (fs : FileSystem) (p : Path) : bool :=
  match fs_get fs p with Some (File _) => true | _ => false end.

(** [str(p)] with the platform's separator. *)
Definition path_str (sep : string) (p : Path) : string := Py.join sep p.

(** What the operating system refuses with. *)
Inductive errno : Type := EEXIST | ENOTDIR | EISDIR | ENOENT.

Inductive fs_result : Type :=
| FsOk (fs : FileSystem)
| FsError (code : errno) (p : Path).

(** [p.mkdir(parents=True, exist_ok=True)], walking down from [done]:
    a missing component is created, a directory is accepted as it is, a
    file in the way fails. *)
Fixpoint mkdir_parents (fs : FileSystem) (done : Path) (rest : list string)
  : fs_result :=
  match rest with
  | [] => FsOk fs
  | c :: rest' =>
      let p := done ++ [c] in
      match fs_get fs p with
      | Some Dir => mkdir_parents fs p rest'
      | Some (File _) =>
          match rest' with
          | [] => FsError EEXIST p
          | _ => FsError ENOTDIR (done ++ rest)
          end
      | None => mkdir_parents (fs_set fs p Dir) p rest'
      end
  end.

Definition mkdir (fs : FileSystem) (p : Path) : fs_result :=
  mkdir_parents fs [] p.

(** [p.parent]. *)
Definition parent (p : Path) : Path := removelast p.

(** [p.write_text(content)]: the parent must be a directory and [p] must
    not be one; an existing file is overwritten. *)
Definition write_text (fs : FileSystem) (p : Path) (content : string)
  : fs_result :=
  if is_dir fs p then FsError EISDIR p
  else if is_dir fs (parent p) then FsOk (fs_set fs p (File content))
  else if is_file fs (parent p) then FsError ENOTDIR p
  else FsError ENOENT p.

(** [p.read_text()]. *)
Definition read_text (fs : FileSystem) (p : Path) : option string :=
  match fs_get fs p with Some (File c) => Some c | _ => None end.

(** *** The job manager's fields *)

(** An [asyncio.Queue()] without a size limit holds the items put and not
    yet got, oldest first. *)
Definition Queue := list JobEvent.

Record JobManager : Type := mkJobManager {
  artifacts_root : Path;
  _jobs : Py.dict Job;
  _queues : Py.dict Queue
}.

(** *** The host: what the runner finds around it *)

(** What [subprocess.Popen] and the reading of its output end in: the
    lines printed and the return code, or the [OSError] of a process that
    cannot start. *)
Inductive popen_result : Type :=
| Started (lines : list string) (returncode : Z)
| CannotStart (msg : string).

(** What [subprocess.run] with a timeout ends in. *)
Inductive run_result : Type :=
| TimeoutExpired
| Completed (stdout : string) (returncode : Z)
| SpawnFailed (msg : string).

Record Host : Type := mkHost {
  which_agent : option string;   (* shutil.which("agent") *)
  _WINDOWS : bool;               (* sys.platform == "win32" *)
  home : Path;                   (* Path.home() *)
  cursor_timeout_seconds : Z;    (* RunnerSettings().cursor_timeout_seconds *)
  (* subprocess.run(args, cwd=..., timeout=...) *)
  subprocess_run : list string -> string -> Z -> run_result;
  (* subprocess.Popen(args, cwd=...): the lines of its output, each with
     its line ending, and its return code *)
  subprocess_Popen : list string -> string -> popen_result
}.

Record World : Type := mkWorld {
  manager : JobManager;
  disk : FileSystem;
  host : Host;
  clock : nat -> datetime;       (* the successive readings of the clock *)
  ticks : nat;                   (* readings taken so far *)
  uuid4_hex : nat -> string;     (* the successive uuid.uuid4().hex *)
  draws : nat                    (* uuids drawn so far *)
}.

Definition with_manager (w : World) (m : JobManager) : World :=
  mkWorld m (disk w) (host w) (clock w) (ticks w) (uuid4_hex w) (draws w).

Definition with_disk (w : World) (fs : FileSystem) : World :=
  mkWorld (manager w) fs (host w) (clock w) (ticks w) (uuid4_hex w) (draws w).

Definition with_jobs (m : JobManager) (jobs : Py.dict Job) : JobManager :=
  mkJobManager (artifacts_root m) jobs (_queues m).

Definition with_queues (m : JobManager) (queues : Py.dict Queue) : JobManager :=
  mkJobManager (artifacts_root m) (_jobs m) queues.

(** *** The monad *)

Definition M (A : Type) : Type := World -> outcome A * World.

Definition ret {A} (a : A) : M A := fun w => (Return a, w).

Definition raise {A} (e : exn) : M A := fun w => (Raise e, w).

Definition forever {A} : M A := fun w => (Forever, w).

Definition bind {A B} (c : M A) (k : A -> M B) : M B :=
  fun w =>
    match c w with
    | (Return a, w') => k a w'
    | (Raise e, w') => (Raise e, w')
    | (Forever, w') => (Forever, w')
    end.

(** [try: c except ... as e: h e].  A handler that does not match the
    class re-raises [e]. *)
Definition try_except {A} (c : M A) (h : exn -> M A) : M A :=
  fun w =>
    match c w with
    | (Raise e, w') => h e w'
    | r => r
    end.

(** [try: c finally: f].  [f] runs once [c] has returned or raised; an
    exception of [f] replaces the outcome of [c]. *)
Definition try_finally {A} (c : M A) (f : M unit) : M A :=
  fun w =>
    match c w with
    | (Forever, w') => (Forever, w')
    | (r, w') =>
        match f w' with
        | (Return _, w'') => (r, w'')
        | (Raise e, w'') => (Raise e, w'')
        | (Forever, w'') => (Forever, w'')
        end
    end.

Definition lift {A} (r : outcome A) : M A := fun w => (r, w).

Definition get_world : M World := fun w => (Return w, w).

(** [datetime.now(tz=UTC)]. *)
Definition now : M datetime :=
  fun w =>
    (Return (clock w (ticks w)),
     mkWorld (manager w) (disk w) (host w) (clock w) (S (ticks w))
             (uuid4_hex w) (draws w)).

(** [uuid.uuid4().hex]. *)
Definition uuid4 : M string :=
  fun w =>
    (Return (uuid4_hex w (draws w)),
     mkWorld (manager w) (disk w) (host w) (clock w) (ticks w)
             (uuid4_hex w) (S (draws w))).

Definition modify_manager (f : JobManager -> JobManager) : M unit :=
  fun w => (Return tt, with_manager w (f (manager w))).

(** The platform's path separator. *)
Definition sep (h : Host) : string := if _WINDOWS h then "\" else "/".

Section Rendering.
(** Python's [repr] on a [str]. *)
Variable repr : string -> string.

(** The exception the operating system's refusal becomes. *)
Definition os_exn (h : Host) (code : errno) (p : Path) : exn :=
  let name := repr (path_str (sep h) p) in
  match code with
  | EEXIST => FileExistsError ("[Errno 17] File exists: " ++ name)
  | ENOTDIR => NotADirectoryError ("[Errno 20] Not a directory: " ++ name)
  | EISDIR => IsADirectoryError ("[Errno 21] Is a directory: " ++ name)
  | ENOENT => FileNotFoundError ("[Errno 2] No such file or directory: " ++ name)
  end.

(** Run a disk operation on the world's disk. *)
Definition on_disk (op : FileSystem -> fs_result) : M unit :=
  fun w =>
    match op (disk w) with
    | FsOk fs => (Return tt, with_disk w fs)
    | FsError code p => (Raise (os_exn (host w) code p), w)
    end.

(** [str(exc)]. *)
Definition str_exn (e : exn) : string :=
  match e with
  | KeyError msg => repr msg
  | InvalidTransitionError current target =>
      "Transition from " ++ repr (JobState_value current) ++ " to "
        ++ repr (JobState_value target) ++ " is not allowed"
  | TimeoutError msg | FileNotFoundError msg | FileExistsError msg
  | NotADirectoryError msg | IsADirectoryError msg | OSError msg
  | AttributeError msg | TypeError msg | ValidationError msg
  | Exception msg => msg
  | HTTPException status_code detail =>
      Py.str_of_int status_code ++ ": " ++ detail
  end.
End Rendering.

Declare Scope monad_scope.
Delimit Scope monad_scope with monad.
Notation "x <- c ;; k" := (bind c (fun x => k))
  (at level 61, c at next level, right associativity) : monad_scope.
Notation "c ;;; k" := (bind c (fun _ => k))
  (at level 61, right associativity) : monad_scope.

End Runtime.

(* ================================================================= *)
(** ** runner/state_machine.py: the transition table *)

Module state_machine.
Import models Runtime.

(** Every legal transition; a pair absent from the table is forbidden. *)
Definition ALLOWED_TRANSITIONS : list (JobState * list JobState) :=
  [ (DRAFT, [ASK_RUNNING; PLAN_RUNNING]);
    (ASK_RUNNING, [ASK_DONE; NEEDS_INPUT; FAILED]);
    (NEEDS_INPUT, [ASK_RUNNING]);
    (ASK_DONE, [PLAN_RUNNING]);
    (PLAN_RUNNING, [PLAN_READY; PLAN_NEEDS_INPUT; FAILED]);
    (PLAN_NEEDS_INPUT, [PLAN_RUNNING]);
    (PLAN_READY, [APPROVED]);
    (APPROVED, [EXECUTING]);
    (EXECUTING, [COMPLETE; FAILED]);
    (COMPLETE, []);
    (FAILED, []) ].

(** [table.get(current, frozenset())]. *)
Fixpoint table_get (table : list (JobState * list JobState))
         (current : JobState) : list JobState :=
  match table with
  | [] => []
  | (s, targets) :: rest =>
      if JobState_eqb s current then targets else table_get rest current
  end.

(** [target in allowed]. *)
Definition member (target : JobState) (allowed : list JobState) : bool :=
  existsb (JobState_eqb target) allowed.

Definition validate_transition (current target : JobState) : outcome bool :=
  let allowed := table_get ALLOWED_TRANSITIONS current in
  if negb (member target allowed) then
    Raise (InvalidTransitionError current target)
  else Return true.

(** The edges of the specification's table, one constructor each. *)
Inductive edge : JobState -> JobState -> Prop :=
| edge_draft_ask : edge DRAFT ASK_RUNNING
| edge_draft_plan : edge DRAFT PLAN_RUNNING
| edge_ask_done : edge ASK_RUNNING ASK_DONE
| edge_ask_needs_input : edge ASK_RUNNING NEEDS_INPUT
| edge_ask_failed : edge ASK_RUNNING FAILED
| edge_needs_input_ask : edge NEEDS_INPUT ASK_RUNNING
| edge_ask_done_plan : edge ASK_DONE PLAN_RUNNING
| edge_plan_ready : edge PLAN_RUNNING PLAN_READY
| edge_plan_needs_input : edge PLAN_RUNNING PLAN_NEEDS_INPUT
| edge_plan_failed : edge PLAN_RUNNING FAILED
| edge_plan_needs_input_plan : edge PLAN_NEEDS_INPUT PLAN_RUNNING
| edge_plan_ready_approved : edge PLAN_READY APPROVED
| edge_approved_executing : edge APPROVED EXECUTING
| edge_executing_complete : edge EXECUTING COMPLETE
| edge_executing_failed : edge EXECUTING FAILED.

End state_machine.

(* ================================================================= *)
(** ** runner/services/job_manager.py *)

Module job_manager.
Import models Runtime state_machine.
Local Open Scope monad_scope.

(** The handle [get_events] returns: the queue registered under this job
    id. *)
Definition QueueRef := string.

(** [self._jobs[job_id] = job], also the write-back of an attribute
    assignment on the job registered under [job_id]. *)
Definition store_job (job_id : string) (job : Job) : M unit :=
  modify_manager (fun m => with_jobs m (Py.set (_jobs m) job_id job)).

(** [self._queues[job_id] = q]. *)
Definition store_queue (job_id : string) (q : Queue) : M unit :=
  modify_manager (fun m => with_queues m (Py.set (_queues m) job_id q)).

(** [await self._queues[job_id].put(event)]: a missing key is a
    [KeyError] on the key itself; the queue has no size limit, so the put
    never waits. *)
Definition queue_put (job_id : string) (event : JobEvent) : M unit :=
  w <- get_world ;;
  match Py.get (_queues (manager w)) job_id with
  | None => raise (KeyError job_id)
  | Some q => store_queue job_id (q ++ [event])
  end.

(** [queue.get_nowait()] on the consumer's side: the oldest item, or
    [None] when the queue is empty (where [await queue.get()] would
    wait). *)
Definition queue_get (q : QueueRef) : M (option JobEvent) :=
  w <- get_world ;;
  match Py.get (_queues (manager w)) q with
  | Some (event :: rest) => store_queue q rest ;;; ret (Some event)
  | _ => ret None
  end.

(** [job.field = v] on the job object registered under [job_id]. *)
Definition assign (job_id : string) (update : Job -> Job) : M unit :=
  modify_manager (fun m =>
    match Py.get (_jobs m) job_id with
    | Some job => with_jobs m (Py.set (_jobs m) job_id (update job))
    | None => m
    end).

(** The first job of the scan whose [plan_id] is the one looked for. *)
Fixpoint first_with_plan_id (jobs : list Job) (plan_id0 : string) : option Job :=
  match jobs with
  | [] => None
  | job :: rest =>
      if String.eqb (plan_id job) plan_id0 then Some job
      else first_with_plan_id rest plan_id0
  end.

(** [job.model_dump(mode="json")] of an event and of a job, given the
    rendering of a [datetime] and the path separator. *)
Definition event_dump (isoformat : datetime -> string) (e : JobEvent) : Py.value :=
  Py.VDict [ ("event_type", Py.VStr (EventType_value (event_type e)));
             ("data", Py.VStr (data e));
             ("timestamp", Py.VStr (isoformat (timestamp e))) ].

Definition model_dump (isoformat : datetime -> string) (sep : string) (job : Job)
  : Py.value :=
  Py.VDict [ ("job_id", Py.VStr (job_id job));
             ("project_path", Py.VStr (project_path job));
             ("state", Py.VStr (JobState_value (state job)));
             ("session_id", Py.VStr (session_id job));
             ("plan_id", Py.VStr (plan_id job));
             ("plan_markdown", Py.VStr (plan_markdown job));
             ("artifacts_dir", Py.VStr (path_str sep (artifacts_dir job)));
             ("events", Py.VList (map (event_dump isoformat) (events job)));
             ("created_at", Py.VStr (isoformat (created_at job)));
             ("updated_at", Py.VStr (isoformat (updated_at job))) ].

Section Methods.
(** Python's [repr] on a [str]. *)
Variable repr : string -> string.
(** The JSON rendering of a [datetime]. *)
Variable isoformat : datetime -> string.
(** [json.dumps(payload, indent=2, default=str)]. *)
Variable json_dumps_indent : Py.value -> string.

Definition create_job (project_path0 : string) : M Job :=
  hex <- uuid4 ;;
  let job_id0 := Py.take 12 hex in
  w <- get_world ;;
  let artifacts_dir0 := path_join (artifacts_root (manager w)) job_id0 in
  on_disk repr (fun fs => mkdir fs artifacts_dir0) ;;;
  t <- now ;;
  let job := mkJob job_id0 project_path0 DRAFT "" "" "" artifacts_dir0 [] t t in
  store_job job_id0 job ;;;
  store_queue job_id0 [] ;;;
  ret job.

Definition get_job (job_id0 : string) : M Job :=
  w <- get_world ;;
  match Py.get (_jobs (manager w)) job_id0 with
  | None => raise (KeyError ("Job " ++ repr job_id0 ++ " not found"))
  | Some job => ret job
  end.

Definition get_job_by_plan_id (plan_id0 : string) : M Job :=
  w <- get_world ;;
  match first_with_plan_id (Py.values (_jobs (manager w))) plan_id0 with
  | Some job => ret job
  | None => raise (KeyError ("No job found with plan_id " ++ repr plan_id0))
  end.

Definition transition (job_id0 : string) (target_state : JobState) : M Job :=
  job <- get_job job_id0 ;;
  _ <- lift (validate_transition (state job) target_state) ;;
  let job1 := set_state job target_state in
  store_job job_id0 job1 ;;;
  t <- now ;;
  let job2 := set_updated_at job1 t in
  store_job job_id0 job2 ;;;
  ret job2.

Definition add_event (job_id0 : string) (event_type0 : EventType) (data0 : string)
  : M JobEvent :=
  job <- get_job job_id0 ;;
  t <- now ;;
  let event := mkJobEvent event_type0 data0 t in
  store_job job_id0 (append_event job event) ;;;
  queue_put job_id0 event ;;;
  ret event.

Definition get_events (job_id0 : string) : M QueueRef :=
  w <- get_world ;;
  if negb (Py.contains (_queues (manager w)) job_id0) then
    raise (KeyError ("No event queue for job " ++ repr job_id0))
  else ret job_id0.

Definition save_artifact (job_id0 filename content : string) : M Path :=
  job <- get_job job_id0 ;;
  let artifact_path := path_join (artifacts_dir job) filename in
  on_disk repr (fun fs => write_text fs artifact_path content) ;;;
  ret artifact_path.

Definition save_run_metadata (job_id0 : string) : M Path :=
  job <- get_job job_id0 ;;
  w <- get_world ;;
  let payload := model_dump isoformat (sep (host w)) job in
  let content := json_dumps_indent payload in
  save_artifact job_id0 "run.json" content.

End Methods.

End job_manager.

(* ================================================================= *)
(** ** runner/services/cursor_invoker.py *)

Module cursor_invoker.
Import Runtime.
Local Open Scope monad_scope.

Record AgentResult : Type := mkAgentResult {
  text : string;
  session_id : string;
  duration_ms : Z;
  is_error : bool
}.

(** [d.name]. *)
Definition name (p : models.Path) : string := last p "".

(** [dir.iterdir()]: the entries of the disk directly under [dir]. *)
Definition iterdir (fs : FileSystem) (dir : models.Path) : list models.Path :=
  filter (fun q => match q with
                   | [] => false
                   | _ => path_eqb (parent q) dir
                   end)
         (map fst fs).

(** [sorted(dirs, key=lambda d: d.name, reverse=True)]: a stable sort,
    greatest name first. *)
Fixpoint insert_by_name (d : models.Path) (sorted : list models.Path)
  : list models.Path :=
  match sorted with
  | [] => [d]
  | e :: rest =>
      if String.ltb (name e) (name d) then d :: sorted
      else e :: insert_by_name d rest
  end.

Definition sorted_by_name_reverse (dirs : list models.Path) : list models.Path :=
  fold_left (fun acc d => insert_by_name d acc) dirs [].

(** The first version directory that holds both [node.exe] and
    [index.js]. *)
Fixpoint first_bundle (fs : FileSystem) (sep0 : string)
         (version_dirs : list models.Path) : option (list string) :=
  match version_dirs with
  | [] => None
  | vdir :: rest =>
      let node_exe := models.path_join vdir "node.exe" in
      let index_js := models.path_join vdir "index.js" in
      if is_file fs node_exe && is_file fs index_js then
        Some [path_str sep0 node_exe; path_str sep0 index_js]
      else first_bundle fs sep0 rest
  end.

Definition install_hint (windows : bool) : string :=
  if windows then "Install it with: irm 'https://cursor.com/install?win32=true' | iex"
  else "Install it with: curl -fsSL https://cursor.com/install | bash".

(** The bundle under [%LOCALAPPDATA%/cursor-agent], newest version
    first, then the base directory itself. *)
Definition windows_bundle (h : Host) (fs : FileSystem) : option (list string) :=
  let base := home h ++ ["AppData"; "Local"; "cursor-agent"] in
  let versions_dir := models.path_join base "versions" in
  let versioned :=
    if is_dir fs versions_dir then
      first_bundle fs (sep h)
        (sorted_by_name_reverse (filter (is_dir fs) (iterdir fs versions_dir)))
    else None in
  match versioned with
  | Some cmd => Some cmd
  | None =>
      if is_file fs (models.path_join base "node.exe")
         && is_file fs (models.path_join base "index.js")
      then Some [path_str (sep h) (models.path_join base "node.exe");
                 path_str (sep h) (models.path_join base "index.js")]
      else None
  end.

(** [if agent_path:] on the result of [shutil.which]. *)
Definition found_on_path (agent_path : option string) : option string :=
  match agent_path with
  | Some p => if String.eqb p "" then None else Some p
  | None => None
  end.

Definition _find_agent_command : M (list string) :=
  w <- get_world ;;
  let h := host w in
  match found_on_path (which_agent h) with
  | Some agent_path => ret [agent_path]
  | None =>
      match (if _WINDOWS h then windows_bundle h (disk w) else None) with
      | Some cmd => ret cmd
      | None =>
          raise (FileNotFoundError
                   ("Cursor agent CLI not found. " ++ install_hint (_WINDOWS h)))
      end
  end.

Definition _build_args (base_cmd : list string) (mode session_id0 prompt : string)
           (streaming : bool) : list string :=
  let args := base_cmd ++ ["-p"; "--trust"; "--model"; "auto"] in
  let args :=
    if streaming then
      args ++ ["--output-format"; "stream-json"; "--stream-partial-output"]
    else args ++ ["--output-format"; "json"] in
  let args :=
    if negb (String.eqb session_id0 "") then args ++ ["--resume"; session_id0]
    else args in
  let args :=
    if negb (String.eqb mode "") then args ++ ["--mode"; mode]
    else args ++ ["--yolo"] in
  args ++ [prompt].

(** The items [_stream_blocking] puts on the queue for the lines the
    process prints: each line without its line ending, empty ones left
    out, and [None] at the end. *)
Definition queued_lines (lines : list string) : list (option string) :=
  map Some (filter (fun stripped => negb (String.eqb stripped ""))
                   (map Py.rstrip_newlines lines))
  ++ [None].

(** What one round of the streaming loop does with the item it got. *)
Inductive step : Type :=
| Yield (item : Py.value)
| Nothing
| Fails (e : exn).

(** How a run of the streaming generator ends: its worker's return code
    once the sentinel is met, an exception, or polling an empty queue
    without end. *)
Inductive ending : Type :=
| Exited (returncode : Z)
| Raised (e : exn)
| Polling.

(** [await reader_future]. *)
Definition await_worker (r : outcome Z) : ending :=
  match r with
  | Return returncode => Exited returncode
  | Raise e => Raised e
  | Forever => Polling
  end.

Definition is_str (v : Py.value) (s : string) : bool :=
  match v with Py.VStr x => String.eqb x s | _ => false end.

Section Invoker.
(** [str.strip()]. *)
Variable strip : string -> string.
(** [json.loads]: [None] is [json.JSONDecodeError].  The entries of a
    decoded object have distinct keys, as a [dict]'s do. *)
Variable json_loads : string -> option Py.value.
(** [json.dumps]. *)
Variable json_dumps : Py.value -> string.
(** [str(v)] for a value that is not a [str]. *)
Variable str_other : Py.value -> string.
(** The construction [AgentResult(text=..., session_id=...,
    duration_ms=..., is_error=...)] with its validation of the fields. *)
Variable validate_AgentResult :
  Py.value -> Py.value -> Py.value -> Py.value -> outcome AgentResult.

(** [str(v)], as an f-string renders [{v}]. *)
Definition str_value (v : Py.value) : string :=
  match v with Py.VStr s => s | _ => str_other v end.

Definition _run_blocking (args : list string) (project_path : string)
           (timeout_seconds : Z) : M (string * Z) :=
  w <- get_world ;;
  match subprocess_run (host w) args project_path timeout_seconds with
  | TimeoutExpired =>
      raise (TimeoutError ("Agent CLI timed out after "
                             ++ Py.str_of_int timeout_seconds ++ "s"))
  | SpawnFailed msg => raise (OSError msg)
  | Completed stdout returncode => ret (strip stdout, returncode)
  end.

(** The worker of the streaming invocation: the items it puts on the
    queue, in order, and what it returns.  A process that cannot start
    raises in the worker before anything is put, the sentinel included. *)
Definition _stream_blocking (args : list string) (project_path : string)
  : M (list (option string) * outcome Z) :=
  w <- get_world ;;
  match subprocess_Popen (host w) args project_path with
  | Started lines returncode => ret (queued_lines lines, Return returncode)
  | CannotStart msg => ret ([], Raise (OSError msg))
  end.

(** The end of [invoke_cursor], from [if not raw:] on: what it makes of
    the captured text. *)
Definition result_of_output (raw : string) : outcome AgentResult :=
  if String.eqb raw "" then
    Return (mkAgentResult "(No response from agent)" "" 0 true)
  else
    match json_loads raw with
    | None => Return (mkAgentResult raw "" 0 false)
    | Some (Py.VDict data) =>
        validate_AgentResult
          (Py.get_default data "result" (Py.VStr raw))
          (Py.get_default data "session_id" (Py.VStr ""))
          (Py.get_default data "duration_ms" (Py.VInt 0))
          (Py.get_default data "is_error" (Py.VBool false))
    | Some data => Raise (no_attribute data "get")
    end.

Definition invoke_cursor (prompt project_path : string) (timeout_seconds : Z)
           (mode session_id0 : string) : M AgentResult :=
  base_cmd <- _find_agent_command ;;
  let args := _build_args base_cmd mode session_id0 prompt false in
  out <- _run_blocking args project_path timeout_seconds ;;
  let raw := fst out in
  lift (result_of_output raw).

(** The body of the streaming loop for one line taken from the queue. *)
Definition classify (line : string) : step :=
  match json_loads line with
  | None => Yield (Py.VStr line)
  | Some (Py.VDict chunk) =>
      let chunk_type := Py.get_default chunk "type" (Py.VStr "") in
      if is_str chunk_type "text_delta" then
        let text0 := Py.get_default chunk "content" (Py.VStr "") in
        if Py.truthy text0 then Yield text0 else Nothing
      else if is_str chunk_type "result" then
        let final_text := Py.get_default chunk "result" (Py.VStr "") in
        if Py.truthy final_text then
          Yield (Py.VStr ("__result__::" ++ json_dumps (Py.VDict chunk)))
        else Nothing
      else if is_str chunk_type "tool_use" then
        let tool_name := Py.get_default chunk "name" (Py.VStr "unknown") in
        Yield (Py.VStr ("[Tool: " ++ str_value tool_name ++ "]"))
      else if is_str chunk_type "tool_result" then
        Yield (Py.VStr "[Tool completed]")
      else
        let raw_text :=
          Py.or_else
            (Py.or_else (Py.get_default chunk "content" (Py.VStr ""))
                        (Py.get_default chunk "result" (Py.VStr "")))
            (Py.VStr (str_value (Py.VDict chunk))) in
        if Py.truthy raw_text then Yield raw_text else Nothing
  | Some chunk => Fails (no_attribute chunk "get")
  end.

(** The streaming loop over the items of the queue, oldest first: it
    stops at the sentinel and then awaits the worker's return code. *)
Fixpoint stream_loop (queue : list (option string)) (reader : outcome Z)
  : list Py.value * ending :=
  match queue with
  | [] => ([], Polling)
  | None :: _ => ([], await_worker reader)
  | Some line :: rest =>
      match classify line with
      | Yield item =>
          let '(items, e) := stream_loop rest reader in (item :: items, e)
      | Nothing => stream_loop rest reader
      | Fails e => ([], Raised e)
      end
  end.

(** A run of the generator [invoke_cursor_streaming]: the items it
    yields, in order, and how it ends. *)
Definition invoke_cursor_streaming (prompt project_path session_id0 : string)
  : M (list Py.value * ending) :=
  try_except
    (base_cmd <- _find_agent_command ;;
     let args := _build_args base_cmd "" session_id0 prompt true in
     worker <- _stream_blocking args project_path ;;
     ret (stream_loop (fst worker) (snd worker)))
    (fun e => ret ([], Raised e)).

End Invoker.

End cursor_invoker.

(* ================================================================= *)
(** ** runner/routers: the phase handlers

    The handlers run once [set_job_manager] has wired the manager, so
    [_get_manager()] is the manager of the world. *)

Module ask.
Import models Runtime job_manager.
Local Open Scope monad_scope.

Section Handler.
Variable repr : string -> string.
Variable strip : string -> string.
Variable json_loads : string -> option Py.value.
Variable validate_AgentResult :
  Py.value -> Py.value -> Py.value -> Py.value -> outcome cursor_invoker.AgentResult.
(** [build_ask_prompt] on the fields of the request. *)
Variable build_ask_prompt : AskRequest.t -> string.

Definition ask (request : AskRequest.t) : M AskResponse.t :=
  w <- get_world ;;
  let timeout_seconds := cursor_timeout_seconds (host w) in
  job <- create_job repr (AskRequest.project_path request) ;;
  (if negb (String.eqb (AskRequest.session_id request) "") then
     assign (job_id job) (fun j => set_session_id j (AskRequest.session_id request))
   else ret tt) ;;;
  transition repr (job_id job) ASK_RUNNING ;;;
  let prompt := build_ask_prompt request in
  result <-
    try_except
      (cursor_invoker.invoke_cursor strip json_loads validate_AgentResult
         prompt (AskRequest.project_path request) timeout_seconds "ask"
         (AskRequest.session_id request))
      (fun exc =>
         if is_TimeoutError exc then
           transition repr (job_id job) FAILED ;;;
           add_event repr (job_id job) ERROR "Cursor agent timed out" ;;;
           raise (HTTPException 504 "Cursor agent timed out")
         else if is_OSError exc then
           transition repr (job_id job) FAILED ;;;
           add_event repr (job_id job) ERROR
             ("Cursor CLI not found: " ++ str_exn repr exc) ;;;
           raise (HTTPException 500 ("Cursor CLI not found: " ++ str_exn repr exc))
         else raise exc) ;;
  assign (job_id job)
    (fun j => set_session_id j (cursor_invoker.session_id result)) ;;;
  transition repr (job_id job) ASK_DONE ;;;
  add_event repr (job_id job) DONE "Ask completed" ;;;
  save_artifact repr (job_id job) "ask_response.md" (cursor_invoker.text result) ;;;
  ret (AskResponse.mk (job_id job) (cursor_invoker.text result)
                      (cursor_invoker.session_id result)).

End Handler.
End ask.

Module plan.
Import models Runtime job_manager.
Local Open Scope monad_scope.

Section Handler.
Variable repr : string -> string.
Variable strip : string -> string.
Variable json_loads : string -> option Py.value.
Variable validate_AgentResult :
  Py.value -> Py.value -> Py.value -> Py.value -> outcome cursor_invoker.AgentResult.
(** [build_plan_prompt] on the fields of the request. *)
Variable build_plan_prompt : PlanRequest.t -> string.

Definition create_plan (request : PlanRequest.t) : M PlanResponse.t :=
  w <- get_world ;;
  let timeout_seconds := cursor_timeout_seconds (host w) in
  job <- create_job repr (PlanRequest.project_path request) ;;
  (if negb (String.eqb (PlanRequest.session_id request) "") then
     assign (job_id job) (fun j => set_session_id j (PlanRequest.session_id request))
   else ret tt) ;;;
  transition repr (job_id job) PLAN_RUNNING ;;;
  let prompt := build_plan_prompt request in
  result <-
    try_except
      (cursor_invoker.invoke_cursor strip json_loads validate_AgentResult
         prompt (PlanRequest.project_path request) timeout_seconds "plan"
         (PlanRequest.session_id request))
      (fun exc =>
         if is_TimeoutError exc then
           transition repr (job_id job) FAILED ;;;
           add_event repr (job_id job) ERROR "Cursor agent timed out" ;;;
           raise (HTTPException 504 "Cursor agent timed out")
         else raise exc) ;;
  let plan_markdown0 := cursor_invoker.text result in
  hex <- uuid4 ;;
  let plan_id0 := Py.take 12 hex in
  assign (job_id job)
    (fun j => set_session_id j (cursor_invoker.session_id result)) ;;;
  assign (job_id job) (fun j => set_plan_id j plan_id0) ;;;
  assign (job_id job) (fun j => set_plan_markdown j plan_markdown0) ;;;
  transition repr (job_id job) PLAN_READY ;;;
  add_event repr (job_id job) DONE "Plan generation completed" ;;;
  save_artifact repr (job_id job) "plan.md" plan_markdown0 ;;;
  ret (PlanResponse.mk (job_id job) plan_id0 plan_markdown0
                       (cursor_invoker.session_id result)).

End Handler.
End plan.

Module approve.
Import models Runtime job_manager.
Local Open Scope monad_scope.

Section Handler.
Variable repr : string -> string.

Definition approve_plan (request_plan_id : string) : M ApproveResponse.t :=
  job <-
    try_except (get_job_by_plan_id repr request_plan_id)
      (fun exc =>
         if is_KeyError exc then
           raise (HTTPException 404 ("Plan " ++ repr request_plan_id ++ " not found"))
         else raise exc) ;;
  try_except (transition repr (job_id job) APPROVED)
    (fun exc =>
       if is_InvalidTransitionError exc then
         current <- get_job repr (job_id job) ;;
         raise (HTTPException 409
                  ("Cannot approve: job is in state "
                     ++ repr (JobState_value (state current))
                     ++ ", expected 'plan_ready'"))
       else raise exc) ;;;
  ret (ApproveResponse.mk (job_id job) "approved").

End Handler.
End approve.

Module execute.
Import models Runtime job_manager.
Local Open Scope monad_scope.

(** ["".join(items)]: every item must be a [str]. *)
Fixpoint join_items (i : nat) (items : list Py.value) : outcome string :=
  match items with
  | [] => Return ""
  | Py.VStr s :: rest =>
      match join_items (S i) rest with
      | Return joined => Return (s ++ joined)%string
      | r => r
      end
  | v :: _ =>
      Raise (TypeError ("sequence item " ++ Py.str_of_int (Z.of_nat i)
                          ++ ": expected str instance, " ++ Py.type_name v
                          ++ " found"))
  end.

(** The arguments [execute_plan] hands to the background task. *)
Record Task : Type := mkTask {
  task_job_id : string;
  task_plan_markdown : string;
  task_project_path : string;
  task_session_id : string
}.

Section Handler.
Variable repr : string -> string.
Variable isoformat : datetime -> string.
Variable json_dumps_indent : Py.value -> string.
Variable json_loads : string -> option Py.value.
Variable json_dumps : Py.value -> string.
Variable str_other : Py.value -> string.
(** [build_execute_prompt(plan_markdown, project_path)]. *)
Variable build_execute_prompt : string -> string -> string.

(** The body of the [async for] loop for one chunk; the result is
    [accumulated_text] after it. *)
Definition on_chunk (job_id0 : string) (accumulated_text : list Py.value)
           (chunk : Py.value) : M (list Py.value) :=
  match chunk with
  | Py.VStr c =>
      if Py.startswith c "__result__::" then
        let raw_json := Py.drop (String.length "__result__::") c in
        match json_loads raw_json with
        | None => ret accumulated_text
        | Some (Py.VDict result_data) =>
            let final_text := Py.get_default result_data "result" (Py.VStr "") in
            if Py.truthy final_text then ret (accumulated_text ++ [final_text])
            else ret accumulated_text
        | Some v => raise (no_attribute v "get")
        end
      else
        let accumulated_text := accumulated_text ++ [chunk] in
        add_event repr job_id0 LOG c ;;;
        ret accumulated_text
  | v => raise (no_attribute v "startswith")
  end.

Fixpoint for_each_chunk (job_id0 : string) (chunks : list Py.value)
         (accumulated_text : list Py.value) : M (list Py.value) :=
  match chunks with
  | [] => ret accumulated_text
  | chunk :: rest =>
      acc <- on_chunk job_id0 accumulated_text chunk ;;
      for_each_chunk job_id0 rest acc
  end.

(** The end of the [async for]: the generator is exhausted, raises, or
    never yields again. *)
Definition after_stream (e : cursor_invoker.ending) : M unit :=
  match e with
  | cursor_invoker.Exited _ => ret tt
  | cursor_invoker.Raised exc => raise exc
  | cursor_invoker.Polling => forever
  end.

(** The [try] block up to the end of the [async for]: the first event
    and the draining of the stream; the result is [accumulated_text]. *)
Definition drain (job_id0 prompt project_path0 session_id0 : string)
  : M (list Py.value) :=
  add_event repr job_id0 STEP
    "Starting Cursor agent in execute mode (streaming)" ;;;
  run <- cursor_invoker.invoke_cursor_streaming json_loads json_dumps
           str_other prompt project_path0 session_id0 ;;
  accumulated_text <- for_each_chunk job_id0 (fst run) [] ;;
  after_stream (snd run) ;;;
  ret accumulated_text.

(** The rest of the [try] block, after the loop. *)
Definition conclude (job_id0 : string) (accumulated_text : list Py.value)
  : M unit :=
  full_output <- lift (join_items 0 accumulated_text) ;;
  save_artifact repr job_id0 "logs.txt" full_output ;;;
  save_artifact repr job_id0 "job_summary.md" full_output ;;;
  transition repr job_id0 COMPLETE ;;;
  add_event repr job_id0 DONE "Execution completed successfully" ;;;
  ret tt.

(** The [except Exception as exc:] block. *)
Definition on_exception (job_id0 : string) (exc : exn) : M unit :=
  transition repr job_id0 FAILED ;;;
  add_event repr job_id0 ERROR (str_exn repr exc) ;;;
  ret tt.

Definition _run_execution (job_id0 plan_markdown0 project_path0 session_id0 : string)
  : M unit :=
  let prompt := build_execute_prompt plan_markdown0 project_path0 in
  try_finally
    (try_except
       (accumulated_text <- drain job_id0 prompt project_path0 session_id0 ;;
        conclude job_id0 accumulated_text)
       (on_exception job_id0))
    (save_run_metadata repr isoformat json_dumps_indent job_id0 ;;; ret tt).

(** [execute_plan]: the response's [job_id] and the background task it
    schedules. *)
Definition execute_plan (request_plan_id : string) : M (string * Task) :=
  job <-
    try_except (get_job_by_plan_id repr request_plan_id)
      (fun exc =>
         if is_KeyError exc then
           raise (HTTPException 404 ("Plan " ++ repr request_plan_id ++ " not found"))
         else raise exc) ;;
  try_except (transition repr (job_id job) EXECUTING)
    (fun exc =>
       if is_InvalidTransitionError exc then
         current <- get_job repr (job_id job) ;;
         raise (HTTPException 409
                  ("Cannot execute: job is in state "
                     ++ repr (JobState_value (state current))
                     ++ ", expected 'approved'"))
       else raise exc) ;;;
  current <- get_job repr (job_id job) ;;
  ret (job_id current,
       mkTask (job_id current) (plan_markdown current) (project_path current)
              (session_id current)).

End Handler.
End execute.

Module events.
Import models Runtime job_manager.
Local Open Scope monad_scope.

(** [event.event_type.value in {"done", "error"}]. *)
Definition terminal (t : EventType) : bool :=
  existsb (String.eqb (EventType_value t)) ["done"; "error"].

(** The item yielded for an event: its ["event"] and ["data"] entries. *)
Definition rendered (e : JobEvent) : string * string :=
  (EventType_value (event_type e), data e).

(** The loop of [_event_generator] over what the queue holds: the items
    it yields, what it leaves on the queue, and whether it stopped on a
    terminal event ([false]: it waits on [queue.get()]). *)
Fixpoint pump (q : Queue) : list (string * string) * Queue * bool :=
  match q with
  | [] => ([], [], false)
  | event :: rest =>
      let item := rendered event in
      if terminal (event_type event) then ([item], rest, true)
      else
        let '(items, remaining, stopped) := pump rest in
        (item :: items, remaining, stopped)
  end.

Section Handler.
Variable repr : string -> string.

Definition _event_generator (job_id0 : string) : M (list (string * string) * bool) :=
  queue <- get_events repr job_id0 ;;
  w <- get_world ;;
  match Py.get (_queues (manager w)) queue with
  | None => ret ([], false)
  | Some q =>
      let '(items, remaining, stopped) := pump q in
      store_queue queue remaining ;;;
      ret (items, stopped)
  end.

End Handler.
End events.

(* ================================================================= *)
(** ** A producer and a consumer on one job's channel *)

Module Channel.
Import models Runtime job_manager.
Local Open Scope monad_scope.

(** What happens on the channel of one job, in the order it happens: a
    handler's [add_event], or the consumer taking the next item. *)
Inductive op : Type :=
| Add (event_type0 : EventType) (data0 : string)
| Get.


Definition label (e : JobEvent) : EventType * string := (event_type e, data e).

Section Run.
Variable repr : string -> string.

(** Run [ops] on the job [id]: the events [add_event] returned and the
    events the consumer got, each in order. *)
Fixpoint run (id : string) (ops : list op) : M (list JobEvent * list JobEvent) :=
  match ops with
  | [] => ret ([], [])
  | Add t d :: rest =>
      event <- add_event repr id t d ;;
      r <- run id rest ;;
      ret (event :: fst r, snd r)
  | Get :: rest =>
      item <- queue_get id ;;
      r <- run id rest ;;
      ret (fst r, match item with
                  | Some event => event :: snd r
                  | None => snd r
                  end)
  end.

End Run.
End Channel.

(* ================================================================= *)
(** ** What the properties speak of: the registry, the disk and the
    stream as a call finds and leaves them *)

Module Observe.
Import models Runtime.

(** The world a call leaves. *)
Definition world_of {A} (r : outcome A * World) : World := snd r.

(** The job and the queue registered under [id]. *)
Definition job_of (w : World) (id : string) : option Job :=
  Py.get (_jobs (manager w)) id.

Definition queue_of (w : World) (id : string) : option Queue :=
  Py.get (_queues (manager w)) id.

(** The world once the job registered under [id] has become [job]. *)
Definition with_job (w : World) (id : string) (job : Job) : World :=
  with_manager w (with_jobs (manager w) (Py.set (_jobs (manager w)) id job)).

(** The world once the queue registered under [id] holds [q]. *)
Definition with_queue (w : World) (id : string) (q : Queue) : World :=
  with_manager w (with_queues (manager w) (Py.set (_queues (manager w)) id q)).

(** The id and the directory the next [create_job] uses, and the job it
    builds. *)
Definition next_id (w : World) : string := Py.take 12 (uuid4_hex w (draws w)).

Definition next_dir (w : World) : Path :=
  path_join (artifacts_root (manager w)) (next_id w).

Definition created (w : World) (project_path0 : string) : Job :=
  mkJob (next_id w) project_path0 DRAFT "" "" "" (next_dir w) []
        (clock w (ticks w)) (clock w (ticks w)).

(** The world [create_job] leaves once [mkdir] has turned the disk into
    [fs']. *)
Definition after_create_job (w : World) (fs' : FileSystem) (project_path0 : string)
  : World :=
  with_queue
    (with_job (mkWorld (manager w) fs' (host w) (clock w) (S (ticks w))
                       (uuid4_hex w) (S (draws w)))
              (next_id w) (created w project_path0))
    (next_id w) [].

(** No regular file sits at [p] or above it. *)
Definition no_file_on (fs : FileSystem) (p : Path) : Prop :=
  forall k, (0 < k <= length p)%nat -> is_file fs (firstn k p) = false.

(** The world after one more reading of the clock. *)
Definition tick (w : World) : World :=
  mkWorld (manager w) (disk w) (host w) (clock w) (S (ticks w))
          (uuid4_hex w) (draws w).

(** The base command the host offers, if any. *)
Definition resolved (w : World) : option (list string) :=
  match cursor_invoker.found_on_path (which_agent (host w)) with
  | Some agent_path => Some [agent_path]
  | None =>
      if _WINDOWS (host w) then cursor_invoker.windows_bundle (host w) (disk w)
      else None
  end.

(** The lines the worker passes on: without their line endings, the
    empty ones left out. *)
Definition passed_on (lines : list string) : list string :=
  filter (fun stripped => negb (String.eqb stripped ""))
         (map Py.rstrip_newlines lines).

(** The items a round of the streaming loop contributes. *)
Definition items_of (s : cursor_invoker.step) : list Py.value :=
  match s with
  | cursor_invoker.Yield item => [item]
  | _ => []
  end.

Definition fails (s : cursor_invoker.step) : bool :=
  match s with cursor_invoker.Fails _ => true | _ => false end.

Section Lines.
Variable json_loads : string -> option Py.value.
Variable json_dumps : Py.value -> string.
Variable str_other : Py.value -> string.

(** What the loop yields for [lines], taken one by one. *)
Definition yields_of (lines : list string) : list Py.value :=
  flat_map (fun line =>
              items_of (cursor_invoker.classify json_loads json_dumps str_other line))
           lines.

(** No line of [lines] makes the loop raise. *)
Definition none_fails (lines : list string) : Prop :=
  forall line,
    In line lines ->
    fails (cursor_invoker.classify json_loads json_dumps str_other line) = false.

End Lines.

(** The event [add_event] builds in [w], and the world it leaves. *)
Definition stamped (w : World) (t : EventType) (d : string) : JobEvent :=
  mkJobEvent t d (clock w (ticks w)).

Definition after_add_event (w : World) (id : string) (job : Job) (q : Queue)
           (e : JobEvent) : World :=
  with_queue (with_job (tick w) id (append_event job e)) id (q ++ [e]).

(** The job once a transition to [target] is applied in [w], and the
    world the transition leaves. *)
Definition moved (w : World) (job : Job) (target : JobState) : Job :=
  set_updated_at (set_state job target) (clock w (ticks w)).

Definition after_transition (w : World) (id : string) (job : Job)
           (target : JobState) : World :=
  tick (with_job w id (moved w job target)).

(** The world once a handler has failed the job: a transition to
    [FAILED], then an [ERROR] event with the text [msg]. *)
Definition after_failure (w : World) (id : string) (job : Job) (q : Queue)
           (msg : string) : World :=
  after_add_event (after_transition w id job FAILED) id (moved w job FAILED) q
                  (stamped (after_transition w id job FAILED) ERROR msg).

(** The job the failure leaves in the registry. *)
Definition failed_job (w : World) (id : string) (job : Job) (msg : string) : Job :=
  append_event (moved w job FAILED)
               (stamped (after_transition w id job FAILED) ERROR msg).

(** [w'] is [w] with the events [evs] added to the job [id], which was
    [job] with the queue [q], and nothing else changed. *)
Definition after_events (w : World) (id : string) (job : Job) (q : Queue)
           (evs : list JobEvent) (w' : World) : Prop :=
  exists job',
    job_of w' id = Some job'
    /\ queue_of w' id = Some (q ++ evs)
    /\ events job' = events job ++ evs
    /\ state job' = state job
    /\ artifacts_dir job' = artifacts_dir job
    /\ disk w' = disk w
    /\ host w' = host w.

(** Where [run.json] of a job goes. *)
Definition run_json (job : Job) : Path := path_join (artifacts_dir job) "run.json".

(** The artifacts directory of [job] is on the disk of [w] and nothing
    but a file can be where [run.json] goes. *)
Definition writable (w : World) (job : Job) : Prop :=
  is_dir (disk w) (artifacts_dir job) = true
  /\ is_dir (disk w) (run_json job) = false.

End Observe.

(* ================================================================= *)
(** ** Worlds to run the code on *)

Module Worlds.
Import models Runtime Observe.

(** [repr] on a [str] of letters, digits and punctuation other than
    quotes and backslashes: the text between single quotes. *)
Definition repr (s : string) : string := "'" ++ s ++ "'".

(** A rendering of clock readings, standing for [isoformat]. *)
Definition isoformat (t : datetime) : string := "t" ++ Py.str_of_int t.

(** A host without the agent CLI, whose processes print nothing. *)
Definition bare_host : Host :=
  mkHost None false [""; "home"; "runner"] 180
         (fun _ _ _ => Completed "" 0)
         (fun _ _ => Started [] 0).

Definition empty_manager : JobManager :=
  mkJobManager [""; "srv"; "jobs"] [] [].

(** Two version-4 UUIDs that differ but start with the same twelve
    digits, then others. *)
Definition colliding_uuids (n : nat) : string :=
  match n with
  | O => "0123456789ab4def8123456789abcdef"
  | 1%nat => "0123456789ab4aaa9bbbccccddddeeee"
  | _ => "fedcba9876544321a000000000000000"
  end.

Definition distinct_uuids (n : nat) : string :=
  match n with
  | O => "0123456789ab4def8123456789abcdef"
  | 1%nat => "1111111111114aaa9bbbccccddddeeee"
  | _ => "fedcba9876544321a000000000000000"
  end.

(** A world just after start-up: no job, an empty disk, the clock
    reading 100, 101, ... *)
Definition fresh (h : Host) (uuids : nat -> string) : World :=
  mkWorld empty_manager [] h (fun n => (100 + Z.of_nat n)%Z) 0 uuids 0.

(** The world after [create_job("/srv/project")] at start-up: one job,
    in [DRAFT], under the id ["0123456789ab"]. *)
Definition drafted : World :=
  world_of (job_manager.create_job repr "/srv/project" (fresh bare_host distinct_uuids)).

(** The job that call registers. *)
Definition first_job : Job :=
  mkJob "0123456789ab" "/srv/project" DRAFT "" "" ""
        [""; "srv"; "jobs"; "0123456789ab"] [] 100%Z 100%Z.

(** A host with the agent CLI on the path, whose buffered run prints
    [stdout] and whose streamed run prints [lines]. *)
Definition agent_host (stdout : string) (lines : list string) : Host :=
  mkHost (Some "/usr/local/bin/agent") false [""; "home"; "runner"] 180
         (fun _ _ _ => Completed stdout 0)
         (fun _ _ => Started lines 0).

(** A host with the agent CLI on the path, whose buffered run exceeds
    its timeout. *)
Definition slow_host : Host :=
  mkHost (Some "/usr/local/bin/agent") false [""; "home"; "runner"] 180
         (fun _ _ _ => TimeoutExpired)
         (fun _ _ => Started [] 0).

(** A host with the agent CLI on the path, whose streamed run cannot
    start: [Popen] raises, the working directory being gone. *)
Definition stuck_host : Host :=
  mkHost (Some "/usr/local/bin/agent") false [""; "home"; "runner"] 180
         (fun _ _ _ => Completed "" 0)
         (fun _ _ =>
            CannotStart "[Errno 2] No such file or directory: '/srv/project'").

(** The double quote, and a text between double quotes. *)
Definition dquote : string := String (ascii_of_nat 34) EmptyString.

Definition quoted (s : string) : string := dquote ++ s ++ dquote.

(** A decoder that knows the texts of [table] and rejects every other
    text. *)
Definition decoder (table : list (string * Py.value)) (text : string)
  : option Py.value := Py.get table text.

(** A validation that takes fields of the declared types only. *)
Definition strict_AgentResult (text0 session_id0 duration_ms0 is_error0 : Py.value)
  : outcome cursor_invoker.AgentResult :=
  match text0, session_id0, duration_ms0, is_error0 with
  | Py.VStr t, Py.VStr s, Py.VInt d, Py.VBool e =>
      Return (cursor_invoker.mkAgentResult t s d e)
  | _, _, _, _ => Raise (ValidationError "AgentResult")
  end.

(** [str.strip()] on a text without white space at its ends. *)
Definition strip_nothing (s : string) : string := s.

(** The texts of the streamed scenario: two partial texts and the final
    answer, as the agent prints them and as they decode. *)
Definition text_delta_line (content0 : string) : string :=
  "{" ++ quoted "type" ++ ": " ++ quoted "text_delta" ++ ", "
      ++ quoted "content" ++ ": " ++ quoted content0 ++ "}".

Definition text_delta_chunk (content0 : string) : Py.value :=
  Py.VDict [("type", Py.VStr "text_delta"); ("content", Py.VStr content0)].

Definition result_line (result0 : string) : string :=
  "{" ++ quoted "type" ++ ": " ++ quoted "result" ++ ", "
      ++ quoted "result" ++ ": " ++ quoted result0 ++ "}".

Definition result_chunk (result0 : string) : Py.value :=
  Py.VDict [("type", Py.VStr "result"); ("result", Py.VStr result0)].

Definition scenario_table : list (string * Py.value) :=
  [ (text_delta_line "partial one", text_delta_chunk "partial one");
    (text_delta_line "partial two", text_delta_chunk "partial two");
    (result_line "all done", result_chunk "all done");
    (result_line "", result_chunk "") ].

(** [json.dumps] on the final chunk of the scenario. *)
Definition scenario_dumps (v : Py.value) : string := result_line "all done".

(** [str] on values that are not texts, for the scenario, where it is
    not called. *)
Definition scenario_str (v : Py.value) : string := "{...}".

Definition scenario_lines : list string :=
  map (fun line => (line ++ String Py.LF EmptyString)%string)
      [ text_delta_line "partial one"; text_delta_line "partial two";
        result_line "all done" ].



(** The first job once approved and taken to [EXECUTING], on a host
    [h], with its directory on the disk. *)
Definition executing_job : Job :=
  mkJob "0123456789ab" "/srv/project" EXECUTING "sess-1" "aaaabbbbcccc" "# Plan"
        [""; "srv"; "jobs"; "0123456789ab"] [] 100%Z 105%Z.

Definition executing (h : Host) : World :=
  mkWorld (mkJobManager [""; "srv"; "jobs"]
                        [("0123456789ab", executing_job)]
                        [("0123456789ab", [])])
          [ ([""], Dir); ([""; "srv"], Dir); ([""; "srv"; "jobs"], Dir);
            ([""; "srv"; "jobs"; "0123456789ab"], Dir) ]
          h (fun n => (100 + Z.of_nat n)%Z) 6 distinct_uuids 2.

(** A short rendering of a dumped job, standing for [json.dumps]: its
    state and its events. *)
Definition summary_dumps (payload : Py.value) : string :=
  match payload with
  | Py.VDict entries =>
      match Py.get entries "state", Py.get entries "events" with
      | Some (Py.VStr state0), Some (Py.VList events0) =>
          state0 ++ ":"
            ++ Py.join ","
                 (map (fun e =>
                         match e with
                         | Py.VDict fields =>
                             match Py.get fields "event_type" with
                             | Some (Py.VStr t) => t
                             | _ => "?"
                             end
                         | _ => "?"
                         end) events0)
      | _, _ => "?"
      end
  | _ => "?"
  end.

(** The prompt of the execute phase, standing for
    [build_execute_prompt]. *)
Definition execute_prompt (plan_markdown0 project_path0 : string) : string :=
  "Carry out the plan." ++ plan_markdown0.

(** A Windows host without [agent] on the path, and a disk that holds
    two versions of the bundle under the user's directory. *)
Definition windows_host : Host :=
  mkHost None true ["C:"; "Users"; "runner"] 180
         (fun _ _ _ => Completed "" 0)
         (fun _ _ => Started [] 0).

Definition bundle_dir : Path :=
  ["C:"; "Users"; "runner"; "AppData"; "Local"; "cursor-agent"].

Definition windows_disk : FileSystem :=
  [ (bundle_dir, Dir);
    (bundle_dir ++ ["versions"], Dir);
    (bundle_dir ++ ["versions"; "2025.09.30"], Dir);
    (bundle_dir ++ ["versions"; "2025.09.30"; "node.exe"], File "");
    (bundle_dir ++ ["versions"; "2025.09.30"; "index.js"], File "");
    (bundle_dir ++ ["versions"; "2025.10.02"], Dir);
    (bundle_dir ++ ["versions"; "2025.10.02"; "node.exe"], File "");
    (bundle_dir ++ ["versions"; "2025.10.02"; "index.js"], File "");
    (bundle_dir ++ ["versions"; "2025.11.01"], Dir);
    (bundle_dir ++ ["versions"; "2025.11.01"; "node.exe"], File "") ].

Definition windows_world : World :=
  mkWorld empty_manager windows_disk windows_host
          (fun n => (100 + Z.of_nat n)%Z) 0 distinct_uuids 0.

(** A request to plan, and one to ask. *)
Definition plan_request : PlanRequest.t :=
  PlanRequest.mk "/srv/project" "Add a parser" [] [] [] "".

Definition ask_request : AskRequest.t :=
  AskRequest.mk "/srv/project" "What is this project?" 10 [] "".

(** The text the agent CLI is reported missing with, off Windows. *)
Definition not_found_text : string :=
  "Cursor agent CLI not found. Install it with: curl -fsSL https://cursor.com/install | bash".

End Worlds.

(* ================================================================= *)
(** ** runner/services/prompt_templates.py *)

Module prompt_templates.
Import models.

(** ["\n"]. *)
Definition NL : string := String Py.LF EmptyString.

(** [f"[{prefix}]: {msg.content}"], with the prefix chosen by the role. *)
Definition history_line (msg : HistoryMessage) : string :=
  let prefix := if String.eqb (role msg) "user" then "User" else "Assistant" in
  "[" ++ prefix ++ "]: " ++ content msg.

Definition _format_history (history : list HistoryMessage) : string :=
  match history with
  | [] => ""
  | _ =>
      let lines := ["Previous conversation:"] in
      let lines :=
        fold_left (fun lines msg => lines ++ [history_line msg]) history lines in
      let lines := lines ++ [""] in
      Py.join NL lines
  end.

(** The instruction every ask prompt opens with. *)
Definition ask_prefix : string :=
  "Do NOT create, modify, or delete any files. Only answer questions and ask clarifying questions."
    ++ NL ++ NL.

(** [history] is the list of the request, [None] standing for the empty
    one. *)
Definition build_ask_prompt (user_message project_path : string) (recent_days : Z)
           (history : list HistoryMessage) : string :=
  let context := _format_history history in
  let prefix := ask_prefix in
  if negb (String.eqb context "") then
    prefix ++ context ++ NL ++ "Current message: " ++ user_message
  else prefix ++ user_message.

(** [f"  {qid}: {ans}"]. *)
Definition answer_line (entry : string * string) : string :=
  "  " ++ fst entry ++ ": " ++ snd entry.

(** [answers] is the dict of the request in insertion order. *)
Definition build_plan_prompt (objective project_path : string)
           (constraints : list string) (answers : list (string * string))
           (history : list HistoryMessage) : string :=
  let parts : list string := [] in
  let context := _format_history history in
  let parts := if negb (String.eqb context "") then parts ++ [context] else parts in
  let parts := parts ++ [("Create a detailed implementation plan for: " ++ objective)%string] in
  let parts :=
    parts ++ ["Include: Goal, Files to create/modify, Step-by-step implementation, and Commands to run."] in
  let parts :=
    match constraints with
    | [] => parts
    | _ => parts ++ [("Constraints: " ++ Py.join ", " constraints)%string]
    end in
  let parts :=
    match answers with
    | [] => parts
    | _ =>
        parts ++ [("Answers to prior questions:" ++ NL
                     ++ Py.join NL (map answer_line answers))%string]
    end in
  Py.join NL parts.

Definition build_execute_prompt (plan_markdown project_path : string) : string :=
  "Implement this plan exactly:" ++ NL ++ NL ++ plan_markdown.

(** The calls of the handlers: the builders on the fields of a
    request. *)
Definition ask_prompt (request : AskRequest.t) : string :=
  build_ask_prompt (AskRequest.message request) (AskRequest.project_path request)
                   (AskRequest.recent_days request) (AskRequest.history request).

Definition plan_prompt (request : PlanRequest.t) : string :=
  build_plan_prompt (PlanRequest.objective request)
                    (PlanRequest.project_path request)
                    (PlanRequest.constraints request) (PlanRequest.answers request)
                    (PlanRequest.history request).

End prompt_templates.

(* ================================================================= *)
(** ** runner/routers/health.py *)

Module health.
Import models Runtime.
Local Open Scope monad_scope.

Record HealthResponse : Type := mkHealthResponse {
  status : string;
  cursor_cli_available : bool;
  cursor_cli_version : string
}.

Definition is_FileNotFoundError (e : exn) : bool :=
  match e with FileNotFoundError _ => true | _ => false end.

Definition health_check : M HealthResponse :=
  found <-
    try_except
      (base_cmd <- cursor_invoker._find_agent_command ;;
       ret (true, ("agent @ " ++ Py.join " " base_cmd)%string))
      (fun exc =>
         if is_FileNotFoundError exc then ret (false, "") else raise exc) ;;
  let cli_available := fst found in
  let cli_version := snd found in
  let status0 := if cli_available then "ok" else "degraded" in
  ret (mkHealthResponse status0 cli_available cli_version).

End health.

(* ================================================================= *)
(** ** runner/routers/events.py: the endpoints *)

Module events_routes.
Import models Runtime job_manager.
Local Open Scope monad_scope.

Record JobStatusResponse : Type := mkJobStatusResponse {
  job_id : string;
  state : string;
  event_count : Z;
  latest_event : string
}.

Section Handler.
Variable repr : string -> string.

(** [try: manager.get_job(job_id) except KeyError: raise
    HTTPException(404, ...)]. *)
Definition job_or_404 (job_id0 : string) : M Job :=
  try_except (get_job repr job_id0)
    (fun exc =>
       if is_KeyError exc then
         raise (HTTPException 404 ("Job " ++ repr job_id0 ++ " not found")%string)
       else raise exc).

(** A run of the response of [stream_events]: the check of the job, then
    the generator. *)
Definition stream_events (job_id0 : string) : M (list (string * string) * bool) :=
  job_or_404 job_id0 ;;;
  events._event_generator repr job_id0.

Definition get_job_status (job_id0 : string) : M JobStatusResponse :=
  job <- job_or_404 job_id0 ;;
  let latest :=
    match models.events job with
    | [] => ""
    | e :: _ => data (last (models.events job) e)
    end in
  ret (mkJobStatusResponse (models.job_id job) (JobState_value (models.state job))
                           (Z.of_nat (length (models.events job))) latest).

End Handler.
End events_routes.

(* ================================================================= *)
(** ** The names [path_join] stands for pathlib's [/] on *)

Module Names.



End Names.

(* ================================================================= *)
(** ** A caller that tries one transition after another *)

Module Lifecycle.
Import models Runtime state_machine job_manager.
Local Open Scope monad_scope.

(** [targets] is a walk along the edges of the table from [s]. *)
Fixpoint walk (s : JobState) (targets : list JobState) : Prop :=
  match targets with
  | [] => True
  | t :: rest => edge s t /\ walk t rest
  end.

(** The states of the ask and plan phases, before a plan is ready. *)
Definition before_plan (s : JobState) : bool :=
  match s with
  | DRAFT | ASK_RUNNING | ASK_DONE | NEEDS_INPUT | PLAN_RUNNING
  | PLAN_NEEDS_INPUT => true
  | _ => false
  end.

(** The targets a job in state [s] accepts when [targets] are tried in
    turn, by the table alone. *)
Fixpoint accepted_of (s : JobState) (targets : list JobState) : list JobState :=
  match targets with
  | [] => []
  | t :: rest =>
      match validate_transition s t with
      | Return _ => t :: accepted_of t rest
      | _ => accepted_of s rest
      end
  end.

Section Attempts.
Variable repr : string -> string.

(** [manager.transition(id, t)] for each [t] of [targets] in turn, going
    on after a transition that is refused; the result is the targets
    that were accepted. *)
Fixpoint attempts (id : string) (targets : list JobState) : M (list JobState) :=
  match targets with
  | [] => ret []
  | target :: rest =>
      accepted <-
        try_except (transition repr id target ;;; ret true)
          (fun exc =>
             if is_InvalidTransitionError exc then ret false else raise exc) ;;
      later <- attempts id rest ;;
      ret (if accepted : bool then target :: later else later)
  end.

End Attempts.
End Lifecycle.

(* ================================================================= *)
(** ** What a registry in use satisfies *)

Module Registry.
Import models Runtime.

(** Every job has its queue and sits under its own id, with the
    directory [create_job] gave it; the keys of a [dict] are distinct. *)
Definition consistent (w : World) : Prop :=
  Py.keys (_jobs (manager w)) = Py.keys (_queues (manager w))
  /\ NoDup (Py.keys (_jobs (manager w)))
  /\ forall k job,
       Observe.job_of w k = Some job ->
       job_id job = k
       /\ artifacts_dir job = path_join (artifacts_root (manager w)) k.

(** A call that leaves a consistent registry consistent, however it
    ends. *)
Definition preserves {A} (c : M A) : Prop :=
  forall w, consistent w -> consistent (snd (c w)).

(** The first job of the registry, in registration order, that carries
    the plan id. *)
Definition planned (w : World) (p : string) : option Job :=
  job_manager.first_with_plan_id (Py.values (_jobs (manager w))) p.

End Registry.

(* ================================================================= *)
(** ** More worlds to run the code on *)

Module Scenarios.
Import models Runtime Observe Worlds.

(** The end of the plan phase of the first job: the plan is stored, the
    [DONE] event is logged and still queued, [plan.md] is written. *)
Definition plan_done : JobEvent := mkJobEvent DONE "Plan generation completed" 103%Z.

Definition plan_ready_job : Job :=
  mkJob "0123456789ab" "/srv/project" PLAN_READY "sess-1" "111111111111" "# Plan"
        [""; "srv"; "jobs"; "0123456789ab"] [plan_done] 100%Z 102%Z.

Definition plan_ready (h : Host) : World :=
  mkWorld (mkJobManager [""; "srv"; "jobs"]
                        [("0123456789ab", plan_ready_job)]
                        [("0123456789ab", [plan_done])])
          [ ([""], Dir); ([""; "srv"], Dir); ([""; "srv"; "jobs"], Dir);
            ([""; "srv"; "jobs"; "0123456789ab"], Dir);
            ([""; "srv"; "jobs"; "0123456789ab"; "plan.md"], File "# Plan") ]
          h (fun n => (100 + Z.of_nat n)%Z) 4 distinct_uuids 2.

(** The first job once executed: the [DONE] event of the plan phase
    was never taken off the queue, the events of the execution are
    queued behind it. *)
Definition step_started : JobEvent :=
  mkJobEvent STEP "Starting Cursor agent in execute mode (streaming)" 106%Z.

Definition run_done : JobEvent :=
  mkJobEvent DONE "Execution completed successfully" 108%Z.

Definition executed_job : Job :=
  mkJob "0123456789ab" "/srv/project" COMPLETE "sess-1" "111111111111" "# Plan"
        [""; "srv"; "jobs"; "0123456789ab"] [plan_done; step_started; run_done]
        100%Z 107%Z.

Definition executed (h : Host) : World :=
  mkWorld (mkJobManager [""; "srv"; "jobs"]
                        [("0123456789ab", executed_job)]
                        [("0123456789ab", [plan_done; step_started; run_done])])
          [ ([""], Dir); ([""; "srv"], Dir); ([""; "srv"; "jobs"], Dir);
            ([""; "srv"; "jobs"; "0123456789ab"], Dir);
            ([""; "srv"; "jobs"; "0123456789ab"; "plan.md"], File "# Plan") ]
          h (fun n => (100 + Z.of_nat n)%Z) 9 distinct_uuids 2.

(** Transitions tried on the first job, and the job they leave. *)
Definition tried : list JobState :=
  [EXECUTING; PLAN_RUNNING; APPROVED; PLAN_READY; DRAFT; APPROVED; EXECUTING;
   PLAN_RUNNING].

Definition tried_job : Job :=
  mkJob "0123456789ab" "/srv/project" EXECUTING "" "" ""
        [""; "srv"; "jobs"; "0123456789ab"] [] 100%Z 104%Z.

End Scenarios.

(* ================================================================= *)
(** ** The helpers on small inputs *)

Module Examples.
Import models Runtime Worlds.

Example rstrip_newlines_line :
  Py.rstrip_newlines ("one" ++ String Py.CR (String Py.LF EmptyString)) = "one".
Proof. reflexivity. Qed.

Example rstrip_newlines_inner :
  Py.rstrip_newlines (String Py.LF ("a" ++ String Py.LF "b" ++ String Py.LF EmptyString))
  = String Py.LF ("a" ++ String Py.LF "b").
Proof. reflexivity. Qed.

Example take_twelve :
  Py.take 12 "0123456789ab4def8123456789abcdef" = "0123456789ab".
Proof. reflexivity. Qed.

Example str_of_int_timeout : Py.str_of_int 180 = "180".
Proof. reflexivity. Qed.

Example truthy_values :
  map Py.truthy [Py.VStr ""; Py.VStr "x"; Py.VInt 0; Py.VFloat 0%float;
                 Py.VNone; Py.VList []; Py.VDict [("k", Py.VNone)]]
  = [false; true; false; false; false; false; true].
Proof. reflexivity. Qed.

Example dict_set_keeps_position :
  Py.set [("a", 1); ("b", 2)] "a" 3 = [("a", 3); ("b", 2)]
  /\ Py.set [("a", 1); ("b", 2)] "c" 3 = [("a", 1); ("b", 2); ("c", 3)].
Proof. split; reflexivity. Qed.

Example build_args_ask :
  cursor_invoker._build_args ["agent"] "ask" "" "What is this?" false
  = ["agent"; "-p"; "--trust"; "--model"; "auto"; "--output-format"; "json";
     "--mode"; "ask"; "What is this?"].
Proof. reflexivity. Qed.

Example build_args_execute :
  cursor_invoker._build_args ["agent"] "" "sess-1" "Do it." true
  = ["agent"; "-p"; "--trust"; "--model"; "auto"; "--output-format";
     "stream-json"; "--stream-partial-output"; "--resume"; "sess-1"; "--yolo";
     "Do it."].
Proof. reflexivity. Qed.

(** On Windows the bundle is taken from the version directory with the
    greatest name that holds both files. *)
Example find_agent_command_windows :
  fst (cursor_invoker._find_agent_command windows_world)
  = Return
      [ Py.join (sep windows_host)
                (bundle_dir ++ ["versions"; "2025.10.02"; "node.exe"]);
        Py.join (sep windows_host)
                (bundle_dir ++ ["versions"; "2025.10.02"; "index.js"]) ].
Proof. reflexivity. Qed.

Example mkdir_creates_parents :
  mkdir [] [""; "srv"; "jobs"; "0123456789ab"]
  = FsOk [ ([""], Dir); ([""; "srv"], Dir); ([""; "srv"; "jobs"], Dir);
           ([""; "srv"; "jobs"; "0123456789ab"], Dir) ].
Proof. reflexivity. Qed.

Example mkdir_refuses_file :
  mkdir [ ([""], Dir); ([""; "srv"], File "x") ] [""; "srv"; "jobs"]
  = FsError ENOTDIR [""; "srv"; "jobs"].
Proof. reflexivity. Qed.

Example validate_transition_examples :
  state_machine.validate_transition DRAFT ASK_RUNNING = Return true
  /\ state_machine.validate_transition DRAFT EXECUTING
     = Raise (InvalidTransitionError DRAFT EXECUTING)
  /\ state_machine.validate_transition COMPLETE DRAFT
     = Raise (InvalidTransitionError COMPLETE DRAFT).
Proof. repeat split. Qed.

End Examples.

(* ================================================================= *)
(** ** Facts about dictionaries and the disk *)

Module PyFacts.
Import Py.

Section DictFacts.
Context {V : Type}.
Implicit Types (d : dict V) (k : string) (v : V).

Lemma get_set_same d k v : get (set d k v) k = Some v.
Proof.
  induction d as [|[k' v'] d IH]; simpl.
  - now rewrite String.eqb_refl.
  - destruct (String.eqb k' k) eqn:E; simpl.
    + now rewrite String.eqb_refl.
    + now rewrite E.
Qed.

Lemma get_set_other d k k' v : k' <> k -> get (set d k v) k' = get d k'.
Proof.
  intros Hne. induction d as [|[k0 v0] d IH]; simpl.
  - destruct (String.eqb k k') eqn:E; [|reflexivity].
    apply String.eqb_eq in E. congruence.
  - destruct (String.eqb k0 k) eqn:E; simpl.
    + apply String.eqb_eq in E. subst k0.
      destruct (String.eqb k k') eqn:E'; [|reflexivity].
      apply String.eqb_eq in E'. congruence.
    + destruct (String.eqb k0 k'); [reflexivity|exact IH].
Qed.

Lemma set_set d k v v' : set (set d k v) k v' = set d k v'.
Proof.
  induction d as [|[k0 v0] d IH]; simpl.
  - now rewrite String.eqb_refl.
  - destruct (String.eqb k0 k) eqn:E; simpl.
    + now rewrite String.eqb_refl.
    + now rewrite E, IH.
Qed.

(** Overwriting a key that is present keeps every key where it is. *)
Lemma keys_set_present d k v v0 :
  get d k = Some v0 -> keys (set d k v) = keys d.
Proof.
  unfold keys. induction d as [|[k0 v1] d IH]; simpl; [discriminate|].
  destruct (String.eqb k0 k) eqn:E; simpl; intros H.
  - apply String.eqb_eq in E. now subst.
  - f_equal. now apply IH.
Qed.

(** A new key goes last. *)
Lemma set_absent d k v : get d k = None -> set d k v = d ++ [(k, v)].
Proof.
  induction d as [|[k0 v1] d IH]; simpl; [reflexivity|].
  destruct (String.eqb k0 k) eqn:E; [discriminate|].
  intros H. now rewrite IH.
Qed.

Lemma get_In d k v : get d k = Some v -> In v (values d).
Proof.
  induction d as [|[k0 v1] d IH]; simpl; [discriminate|].
  destruct (String.eqb k0 k).
  - intros [= ->]. now left.
  - intros H. right. now apply IH.
Qed.

Lemma contains_get d k : contains d k = true <-> exists v, get d k = Some v.
Proof.
  unfold contains. destruct (get d k) as [v|].
  - split; [eauto|reflexivity].
  - split; [discriminate|]. intros [v H]. discriminate.
Qed.

End DictFacts.
End PyFacts.

Module DiskFacts.
Import models Runtime.

Lemma path_eqb_eq p q : path_eqb p q = true <-> p = q.
Proof.
  revert q. induction p as [|a p IH]; destruct q as [|b q]; simpl;
    try (split; [discriminate|congruence]); try (split; reflexivity).
  rewrite andb_true_iff, String.eqb_eq, IH. split.
  - intros [-> ->]. reflexivity.
  - intros [= -> ->]. auto.
Qed.

Lemma path_eqb_refl p : path_eqb p p = true.
Proof. now apply path_eqb_eq. Qed.

Lemma path_eqb_neq p q : p <> q -> path_eqb p q = false.
Proof.
  intros H. destruct (path_eqb p q) eqn:E; [|reflexivity].
  apply path_eqb_eq in E. contradiction.
Qed.

Lemma fs_get_set_same fs p n : fs_get (fs_set fs p n) p = Some n.
Proof.
  induction fs as [|[q m] fs IH]; simpl.
  - now rewrite path_eqb_refl.
  - destruct (path_eqb q p) eqn:E; simpl.
    + now rewrite path_eqb_refl.
    + now rewrite E.
Qed.

Lemma fs_get_set_other fs p q n : q <> p -> fs_get (fs_set fs p n) q = fs_get fs q.
Proof.
  intros Hne. induction fs as [|[r m] fs IH]; simpl.
  - assert (path_eqb p q = false) as -> by (apply path_eqb_neq; congruence).
    reflexivity.
  - destruct (path_eqb r p) eqn:E; simpl.
    + apply path_eqb_eq in E. subst r.
      assert (path_eqb p q = false) as -> by (apply path_eqb_neq; congruence).
      reflexivity.
    + destruct (path_eqb r q); [reflexivity|exact IH].
Qed.

(** [mkdir] changes nothing that was on the disk: it only adds
    directories where nothing was. *)
Lemma mkdir_parents_keeps rest : forall fs done fs' q,
  mkdir_parents fs done rest = FsOk fs' ->
  fs_get fs q <> None -> fs_get fs' q = fs_get fs q.
Proof.
  induction rest as [|c rest IH]; simpl; intros fs done fs' q Hrun Hq.
  - now injection Hrun as <-.
  - destruct (fs_get fs (done ++ [c])) as [[|content]|] eqn:E.
    + now apply (IH _ _ _ _ Hrun).
    + destruct rest; discriminate.
    + assert (Hne : q <> done ++ [c]) by (intros ->; contradiction).
      rewrite (IH _ _ _ q Hrun).
      * now apply fs_get_set_other.
      * now rewrite fs_get_set_other.
Qed.

(** With no regular file at the path or above it, [mkdir] succeeds and
    the path is a directory afterwards. *)
Lemma mkdir_parents_succeeds rest : forall fs done,
  (forall k, (0 < k <= length rest)%nat -> is_file fs (done ++ firstn k rest) = false) ->
  exists fs', mkdir_parents fs done rest = FsOk fs'
              /\ (rest <> [] -> is_dir fs' (done ++ rest) = true).
Proof.
  induction rest as [|c rest IH]; simpl; intros fs done Hfree.
  - exists fs. split; [reflexivity|congruence].
  - assert (Hhere : is_file fs (done ++ [c]) = false).
    { apply (Hfree 1%nat). simpl. lia. }
    unfold is_file in Hhere.
    destruct (fs_get fs (done ++ [c])) as [[|content]|] eqn:E; try discriminate.
    + destruct (IH fs (done ++ [c])) as (fs' & Hrun & Hdir).
      { intros k Hk. rewrite <- app_assoc. apply (Hfree (S k)). simpl. lia. }
      exists fs'. split; [exact Hrun|]. intros _.
      destruct rest as [|c' rest].
      * simpl in Hrun. injection Hrun as <-. unfold is_dir. now rewrite E.
      * rewrite <- app_assoc in Hdir. apply Hdir. discriminate.
    + destruct (IH (fs_set fs (done ++ [c]) Dir) (done ++ [c])) as (fs' & Hrun & Hdir).
      { intros k Hk. unfold is_file. rewrite fs_get_set_other.
        - rewrite <- app_assoc. apply (Hfree (S k)). simpl. lia.
        - intros Heq. apply (f_equal (@length string)) in Heq.
          rewrite !length_app, length_firstn in Heq. simpl in Heq. lia. }
      exists fs'. split; [exact Hrun|]. intros _.
      destruct rest as [|c' rest].
      * simpl in Hrun. injection Hrun as <-. unfold is_dir.
        now rewrite fs_get_set_same.
      * rewrite <- app_assoc in Hdir. apply Hdir. discriminate.
Qed.

(** Where [mkdir] succeeds the path is a directory afterwards. *)
Lemma mkdir_parents_dir rest : forall fs done fs',
  mkdir_parents fs done rest = FsOk fs' ->
  rest <> [] -> is_dir fs' (done ++ rest) = true.
Proof.
  induction rest as [|c rest IH]; simpl; intros fs done fs' Hrun Hne;
    [congruence|].
  destruct (fs_get fs (done ++ [c])) as [[|content]|] eqn:E.
  - destruct rest as [|c' rest].
    + simpl in Hrun. injection Hrun as <-. unfold is_dir. now rewrite E.
    + specialize (IH _ _ _ Hrun). rewrite <- app_assoc in IH. apply IH.
      discriminate.
  - destruct rest; discriminate.
  - destruct rest as [|c' rest].
    + simpl in Hrun. injection Hrun as <-. unfold is_dir.
      now rewrite fs_get_set_same.
    + specialize (IH _ _ _ Hrun). rewrite <- app_assoc in IH. apply IH.
      discriminate.
Qed.

End DiskFacts.

(* ================================================================= *)
(** ** The transition table against the specification's edges *)

Module StateMachineFacts.
Import models Runtime state_machine.

Lemma JobState_eqb_eq a b : JobState_eqb a b = true <-> a = b.
Proof. destruct a, b; simpl; split; intros H; congruence. Qed.

(** The table of the code holds exactly the edges of the specification. *)
Lemma member_table_edge current target :
  member target (table_get ALLOWED_TRANSITIONS current) = true <-> edge current target.
Proof.
  split.
  - destruct current, target; simpl; intros H; try discriminate; constructor.
  - intros H. destruct H; reflexivity.
Qed.

Lemma validate_edge current target :
  edge current target -> validate_transition current target = Return true.
Proof.
  intros H. unfold validate_transition.
  apply member_table_edge in H. now rewrite H.
Qed.

Lemma validate_not_edge current target :
  ~ edge current target ->
  validate_transition current target = Raise (InvalidTransitionError current target).
Proof.
  intros H. unfold validate_transition.
  destruct (member target (table_get ALLOWED_TRANSITIONS current)) eqn:E.
  - apply member_table_edge in E. contradiction.
  - reflexivity.
Qed.

Lemma edge_dec current target : {edge current target} + {~ edge current target}.
Proof.
  destruct (member target (table_get ALLOWED_TRANSITIONS current)) eqn:E.
  - left. now apply member_table_edge.
  - right. intros H. apply member_table_edge in H. congruence.
Defined.

(** [COMPLETE] and [FAILED] have no outgoing edge. *)
Lemma terminal_no_edge current target :
  current = COMPLETE \/ current = FAILED -> ~ edge current target.
Proof. intros [-> | ->] H; inversion H. Qed.

End StateMachineFacts.

(* ================================================================= *)
(** ** The job manager, call by call *)

Module JobManagerFacts.
Import models Runtime state_machine job_manager PyFacts StateMachineFacts.
Import Observe Worlds DiskFacts.

Section Calls.
Variable repr : string -> string.

Lemma run_eq {A} (r : outcome A * World) (o : outcome A) :
  fst r = o -> r = (o, world_of r).
Proof. intros <-. now destruct r. Qed.

Lemma get_job_found w id job :
  Py.get (_jobs (manager w)) id = Some job ->
  get_job repr id w = (Return job, w).
Proof. intros H. unfold get_job, bind, get_world. now rewrite H. Qed.

Lemma get_job_missing w id :
  Py.get (_jobs (manager w)) id = None ->
  get_job repr id w = (Raise (KeyError ("Job " ++ repr id ++ " not found")), w).
Proof. intros H. unfold get_job, bind, get_world. now rewrite H. Qed.

Lemma transition_rejected w id job target :
  Py.get (_jobs (manager w)) id = Some job ->
  ~ edge (state job) target ->
  transition repr id target w
  = (Raise (InvalidTransitionError (state job) target), w).
Proof.
  intros Hjob Hedge. unfold transition, bind.
  rewrite (get_job_found _ _ _ Hjob).
  unfold lift. now rewrite (validate_not_edge _ _ Hedge).
Qed.

Lemma transition_accepted w id job target :
  Py.get (_jobs (manager w)) id = Some job ->
  edge (state job) target ->
  transition repr id target w
  = (Return (set_updated_at (set_state job target) (clock w (ticks w))),
     tick (with_job w id (set_updated_at (set_state job target) (clock w (ticks w))))).
Proof.
  intros Hjob Hedge. unfold transition, bind.
  rewrite (get_job_found _ _ _ Hjob).
  unfold lift. rewrite (validate_edge _ _ Hedge).
  unfold store_job, modify_manager, now, ret, tick, with_job, with_manager, with_jobs.
  simpl. now rewrite set_set.
Qed.

Lemma transition_missing w id target :
  Py.get (_jobs (manager w)) id = None ->
  transition repr id target w
  = (Raise (KeyError ("Job " ++ repr id ++ " not found")), w).
Proof.
  intros H. unfold transition, bind. now rewrite (get_job_missing _ _ H).
Qed.

Lemma create_job_eq w project_path0 fs' :
  mkdir (disk w) (next_dir w) = FsOk fs' ->
  create_job repr project_path0 w
  = (Return (created w project_path0), after_create_job w fs' project_path0).
Proof.
  intros Hmk. unfold create_job, bind, uuid4, get_world, on_disk.
  cbn -[Py.take mkdir Py.set].
  fold (next_id w). fold (next_dir w). rewrite Hmk.
  reflexivity.
Qed.

Lemma create_job_run w project_path0 fs' :
  mkdir (disk w) (next_dir w) = FsOk fs' ->
  exists w',
    create_job repr project_path0 w = (Return (created w project_path0), w')
    /\ disk w' = fs'
    /\ job_of w' (next_id w) = Some (created w project_path0)
    /\ queue_of w' (next_id w) = Some []
    /\ draws w' = S (draws w)
    /\ ticks w' = S (ticks w).
Proof.
  intros Hmk. unfold create_job, bind, uuid4, get_world, on_disk.
  cbn -[Py.take mkdir Py.set].
  fold (next_id w). fold (next_dir w). rewrite Hmk.
  cbn -[Py.take mkdir Py.set Py.get].
  eexists. split; [reflexivity|]. unfold job_of, queue_of.
  cbn -[Py.take mkdir Py.set Py.get].
  repeat split; apply get_set_same.
Qed.

Lemma create_job_fails w project_path0 code p :
  mkdir (disk w) (next_dir w) = FsError code p ->
  exists w',
    create_job repr project_path0 w = (Raise (os_exn repr (host w) code p), w')
    /\ manager w' = manager w /\ disk w' = disk w.
Proof.
  intros Hmk. unfold create_job, bind, uuid4, get_world, on_disk.
  cbn -[Py.take mkdir Py.set].
  fold (next_id w). fold (next_dir w). rewrite Hmk.
  cbn -[Py.take mkdir Py.set].
  eexists. split; [reflexivity|]. split; reflexivity.
Qed.

Lemma create_job_returns w project_path0 job w' :
  create_job repr project_path0 w = (Return job, w') ->
  job = created w project_path0.
Proof.
  intros Hrun. destruct (mkdir (disk w) (next_dir w)) as [fs'|code p] eqn:Hmk.
  - destruct (create_job_run w project_path0 fs' Hmk) as (w1 & H1 & _).
    congruence.
  - destruct (create_job_fails w project_path0 code p Hmk) as (w1 & H1 & _).
    congruence.
Qed.

Lemma first_with_plan_id_none jobs p :
  (forall job, In job jobs -> plan_id job <> p) ->
  first_with_plan_id jobs p = None.
Proof.
  induction jobs as [|job jobs IH]; simpl; intros H; [reflexivity|].
  destruct (String.eqb (plan_id job) p) eqn:E.
  - apply String.eqb_eq in E. exfalso. apply (H job); auto.
  - apply IH. intros j Hj. apply H. now right.
Qed.

Lemma first_with_plan_id_first before job after p :
  plan_id job = p ->
  (forall j, In j before -> plan_id j <> p) ->
  first_with_plan_id (before ++ job :: after) p = Some job.
Proof.
  intros Hp. induction before as [|j before IH]; simpl; intros H.
  - apply String.eqb_eq in Hp. now rewrite Hp.
  - destruct (String.eqb (plan_id j) p) eqn:E.
    + apply String.eqb_eq in E. exfalso. apply (H j); auto.
    + apply IH. intros j' Hj'. apply H. now right.
Qed.

Lemma first_with_plan_id_some jobs job p :
  In job jobs -> plan_id job = p ->
  exists found, first_with_plan_id jobs p = Some found
                /\ In found jobs /\ plan_id found = p.
Proof.
  induction jobs as [|j jobs IH]; simpl; intros Hin Hp; [contradiction|].
  destruct (String.eqb (plan_id j) p) eqn:E.
  - apply String.eqb_eq in E. exists j. auto.
  - destruct Hin as [-> | Hin].
    + apply String.eqb_neq in E. contradiction.
    + destruct (IH Hin Hp) as (found & Hf & Hfin & Hfp).
      exists found. auto.
Qed.

Lemma get_job_by_plan_id_run w p :
  get_job_by_plan_id repr p w
  = match first_with_plan_id (Py.values (_jobs (manager w))) p with
    | Some job => (Return job, w)
    | None => (Raise (KeyError ("No job found with plan_id " ++ repr p)), w)
    end.
Proof.
  unfold get_job_by_plan_id, bind, get_world.
  now destruct (first_with_plan_id (Py.values (_jobs (manager w))) p).
Qed.

End Calls.
End JobManagerFacts.

(* ================================================================= *)
(** ** The state machine and the lookups of the registry *)

Import models Runtime state_machine job_manager.
Import PyFacts DiskFacts StateMachineFacts JobManagerFacts Observe Worlds.

(** C1.  A transition that is not an edge of the table, and so every
    transition from [COMPLETE] or [FAILED], raises
    [InvalidTransitionError] with the job's current state and the
    rejected target, and leaves the world, the job with it, as it was. *)
Theorem C1_illegal_transition_rejected :
  forall (repr : string -> string) (w : World) (id : string) (job : Job)
         (target : JobState),
    job_of w id = Some job ->
    ~ edge (state job) target \/ state job = COMPLETE \/ state job = FAILED ->
    transition repr id target w
    = (Raise (InvalidTransitionError (state job) target), w).
Proof.
  intros repr w id job target Hjob Hno.
  apply transition_rejected; [exact Hjob|].
  destruct Hno as [Hno | Hterminal]; [exact Hno|].
  now apply terminal_no_edge.
Qed.

Lemma C1_draft_to_executing_rejected :
  job_of drafted "0123456789ab" = Some first_job
  /\ ~ edge DRAFT EXECUTING
  /\ transition Worlds.repr "0123456789ab" EXECUTING drafted
     = (Raise (InvalidTransitionError DRAFT EXECUTING), drafted).
Proof.
  assert (Hjob : job_of drafted "0123456789ab" = Some first_job) by reflexivity.
  assert (Hno : ~ edge DRAFT EXECUTING) by (intros H; inversion H).
  split; [exact Hjob|]. split; [exact Hno|].
  exact (C1_illegal_transition_rejected Worlds.repr drafted "0123456789ab"
           first_job EXECUTING Hjob (or_introl Hno)).
Defined.

(** C2.  A transition along an edge of the table returns the job with
    the target as its state and the clock's reading as [updated_at], the
    registry holds that job under the id, nothing else of the job and no
    other job changes. *)
Theorem C2_legal_transition_applied :
  forall (repr : string -> string) (w : World) (id : string) (job : Job)
         (target : JobState),
    job_of w id = Some job ->
    edge (state job) target ->
    exists job' w',
      transition repr id target w = (Return job', w')
      /\ job_of w' id = Some job'
      /\ state job' = target
      /\ updated_at job' = clock w (ticks w)
      /\ job' = set_updated_at (set_state job target) (clock w (ticks w))
      /\ (forall other, other <> id -> job_of w' other = job_of w other).
Proof.
  intros repr w id job target Hjob Hedge.
  eexists. eexists. split.
  - apply transition_accepted; eassumption.
  - unfold job_of, tick, with_job; simpl.
    repeat split; try reflexivity.
    + apply get_set_same.
    + intros other Hne. now apply get_set_other.
Qed.

Lemma C2_draft_to_ask_running :
  job_of drafted "0123456789ab" = Some first_job
  /\ edge DRAFT ASK_RUNNING
  /\ exists job' w',
       transition Worlds.repr "0123456789ab" ASK_RUNNING drafted = (Return job', w')
       /\ job_of w' "0123456789ab" = Some job'
       /\ state job' = ASK_RUNNING
       /\ updated_at job' = 101%Z.
Proof.
  assert (Hjob : job_of drafted "0123456789ab" = Some first_job) by reflexivity.
  split; [exact Hjob|]. split; [constructor|].
  destruct (C2_legal_transition_applied Worlds.repr drafted "0123456789ab"
              first_job ASK_RUNNING Hjob edge_draft_ask)
    as (job' & w' & Hrun & Hreg & Hstate & Hupd & _).
  exists job', w'. repeat split; assumption.
Defined.

(** C9.  [get_job] raises [KeyError] on an id the registry does not hold
    and returns the registered job on one it holds;
    [get_job_by_plan_id] raises [KeyError] when no job carries the plan
    id and otherwise returns a registered job that carries it.  Neither
    changes the world. *)
Theorem C9_lookups :
  forall (repr : string -> string) (w : World),
    (forall id, job_of w id = None ->
       get_job repr id w
       = (Raise (KeyError ("Job " ++ repr id ++ " not found")), w))
    /\ (forall id job, job_of w id = Some job ->
          get_job repr id w = (Return job, w))
    /\ (forall p,
          (forall job, In job (Py.values (_jobs (manager w))) -> plan_id job <> p) ->
          get_job_by_plan_id repr p w
          = (Raise (KeyError ("No job found with plan_id " ++ repr p)), w))
    /\ (forall p job,
          In job (Py.values (_jobs (manager w))) -> plan_id job = p ->
          exists found,
            get_job_by_plan_id repr p w = (Return found, w)
            /\ In found (Py.values (_jobs (manager w)))
            /\ plan_id found = p).
Proof.
  intros repr w. repeat split.
  - intros id H. now apply get_job_missing.
  - intros id job H. now apply get_job_found.
  - intros p H. rewrite get_job_by_plan_id_run.
    now rewrite (first_with_plan_id_none _ _ H).
  - intros p job Hin Hp.
    destruct (first_with_plan_id_some _ _ _ Hin Hp) as (found & Hf & Hfin & Hfp).
    exists found. rewrite get_job_by_plan_id_run, Hf. auto.
Qed.

(** C10.  When the first job of the registry, in registration order,
    whose [plan_id] is still the empty string is [job],
    [get_job_by_plan_id("")] returns [job] instead of raising
    [KeyError]. *)
Theorem C10_empty_plan_id_matches_unplanned_job :
  forall (repr : string -> string) (w : World) (before after : list Job)
         (job : Job),
    Py.values (_jobs (manager w)) = before ++ job :: after ->
    plan_id job = "" ->
    (forall j, In j before -> plan_id j <> "") ->
    get_job_by_plan_id repr "" w = (Return job, w).
Proof.
  intros repr w before after job Hvalues Hp Hbefore.
  rewrite get_job_by_plan_id_run, Hvalues.
  now rewrite (first_with_plan_id_first before job after "" Hp Hbefore).
Qed.

Lemma C10_job_without_plan_found :
  Py.values (_jobs (manager drafted)) = [] ++ first_job :: []
  /\ plan_id first_job = ""
  /\ get_job_by_plan_id Worlds.repr "" drafted = (Return first_job, drafted).
Proof.
  assert (Hvalues : Py.values (_jobs (manager drafted)) = [] ++ first_job :: [])
    by reflexivity.
  split; [exact Hvalues|]. split; [reflexivity|].
  apply (C10_empty_plan_id_matches_unplanned_job Worlds.repr drafted [] []
           first_job Hvalues eq_refl).
  intros j [].
Defined.


(** The lookups on a registry of one job that has no plan yet. *)
Lemma C9_lookups_on_one_job :
  get_job Worlds.repr "0123456789ab" drafted = (Return first_job, drafted)
  /\ get_job Worlds.repr "nonexistent" drafted
     = (Raise (KeyError "Job 'nonexistent' not found"), drafted)
  /\ get_job_by_plan_id Worlds.repr "nonexistent" drafted
     = (Raise (KeyError "No job found with plan_id 'nonexistent'"), drafted).
Proof.
  destruct (C9_lookups Worlds.repr drafted) as (Hmissing & Hfound & Hnoplan & _).
  split; [|split].
  - now apply Hfound.
  - now apply Hmissing.
  - apply Hnoplan. intros job [<- | []]. discriminate.
Defined.

(* ================================================================= *)
(** ** Creating jobs *)

(** What a call to [create_job] does.  On this disk it returns whenever
    no regular file is in the way of its directory.  Whenever it
    returns, the job is in [DRAFT]; its id is the first twelve digits of
    the UUID drawn; its directory, the artifacts root joined with the id,
    is a directory on disk afterwards, made by the call or found there;
    the job and an empty queue are registered under the id; and the id
    differs from that of any other call whose UUID starts with other
    twelve digits. *)
Lemma create_job_registers_draft :
  forall (repr : string -> string) (w : World) (project_path0 : string),
    (no_file_on (disk w) (next_dir w) ->
     exists job w', create_job repr project_path0 w = (Return job, w'))
    /\ (forall job w',
          create_job repr project_path0 w = (Return job, w') ->
          state job = DRAFT
          /\ job_id job = next_id w
          /\ artifacts_dir job = next_dir w
          /\ is_dir (disk w') (next_dir w) = true
          /\ job_of w' (next_id w) = Some job
          /\ queue_of w' (next_id w) = Some []
          /\ (forall w2 p2 job2 w2',
                create_job repr p2 w2 = (Return job2, w2') ->
                next_id w2 <> next_id w -> job_id job2 <> job_id job)).
Proof.
  intros repr w project_path0. split.
  - intros Hfree.
    destruct (mkdir_parents_succeeds (next_dir w) (disk w) [] Hfree)
      as (fs' & Hmk & _).
    exists (created w project_path0), (after_create_job w fs' project_path0).
    now apply create_job_eq.
  - intros job w' Hrun.
    destruct (mkdir (disk w) (next_dir w)) as [fs'|code p] eqn:Hmk.
    + rewrite (create_job_eq repr w project_path0 fs' Hmk) in Hrun.
      injection Hrun as <- <-.
      split; [reflexivity|]. split; [reflexivity|]. split; [reflexivity|].
      split; [|split; [|split]].
      * apply (mkdir_parents_dir (next_dir w) (disk w) [] fs' Hmk).
        unfold next_dir, path_join. intros H.
        now apply app_eq_nil in H as [_ H].
      * unfold after_create_job, job_of, with_queue, with_job. simpl.
        apply get_set_same.
      * unfold after_create_job, queue_of, with_queue. simpl.
        apply get_set_same.
      * intros w2 p2 job2 w2' Hrun2 Hne.
        rewrite (create_job_returns repr _ _ _ _ Hrun2). exact Hne.
    + destruct (create_job_fails repr w project_path0 code p Hmk)
        as (w1 & Hfail & _).
      congruence.
Qed.

Lemma first_job_created :
  no_file_on (disk (fresh bare_host distinct_uuids))
             (next_dir (fresh bare_host distinct_uuids))
  /\ exists w',
       create_job Worlds.repr "/srv/project" (fresh bare_host distinct_uuids)
       = (Return first_job, w')
       /\ is_dir (disk w') [""; "srv"; "jobs"; "0123456789ab"] = true
       /\ queue_of w' "0123456789ab" = Some [].
Proof.
  assert (Hfree : no_file_on (disk (fresh bare_host distinct_uuids))
                             (next_dir (fresh bare_host distinct_uuids))).
  { intros k _. reflexivity. }
  split; [exact Hfree|].
  destruct (create_job_registers_draft Worlds.repr
              (fresh bare_host distinct_uuids) "/srv/project")
    as (Hreturns & Hjob).
  destruct (Hreturns Hfree) as (job & w' & Hrun).
  destruct (Hjob job w' Hrun) as (_ & _ & _ & Hdir & _ & Hqueue & _).
  exists w'. split; [|split; assumption].
  rewrite Hrun. f_equal. f_equal.
  now rewrite (create_job_returns _ _ _ _ _ Hrun).
Defined.

(** Assigning to a key a [dict] holds leaves its keys as they are. *)
Lemma keys_set_registered {V} (d : Py.dict V) k v old :
  Py.get d k = Some old -> Py.keys (Py.set d k v) = Py.keys d.
Proof.
  unfold Py.keys. induction d as [|[k0 v0] d IH]; simpl; [discriminate|].
  destruct (String.eqb k0 k) eqn:E; simpl.
  - apply String.eqb_eq in E. now subst.
  - intros H. now rewrite IH.
Qed.

(** C8, where the code departs from it.  [create_job] takes the first
    twelve digits of a UUID as the id without looking at the registry.
    When a job is registered under that id already, the call returns a
    job with the id of that job; the registry then holds the new job
    under the id, in [DRAFT] and without events, and an empty queue in
    the place of the old one, so the old job and what was queued for it
    are gone; no entry is added to the registry, the other jobs are as
    before, and whatever was on the disk, the directory of the old job
    included, is still there: the directory is shared, not made
    afresh. *)
Theorem C8_create_job_replaces_registered_job :
  forall (repr : string -> string) (w : World) (project_path0 : string)
         (old : Job) (q : Queue),
    job_of w (next_id w) = Some old ->
    queue_of w (next_id w) = Some q ->
    no_file_on (disk w) (next_dir w) ->
    exists job w',
      create_job repr project_path0 w = (Return job, w')
      /\ job_id job = next_id w
      /\ state job = DRAFT
      /\ project_path job = project_path0
      /\ events job = []
      /\ artifacts_dir job = next_dir w
      /\ job_of w' (next_id w) = Some job
      /\ queue_of w' (next_id w) = Some []
      /\ Py.keys (_jobs (manager w')) = Py.keys (_jobs (manager w))
      /\ Py.keys (_queues (manager w')) = Py.keys (_queues (manager w))
      /\ (forall k, k <> next_id w ->
            job_of w' k = job_of w k /\ queue_of w' k = queue_of w k)
      /\ (forall p, fs_get (disk w) p <> None ->
            fs_get (disk w') p = fs_get (disk w) p).
Proof.
  intros repr w project_path0 old q Hold Hq Hfree.
  destruct (mkdir_parents_succeeds (next_dir w) (disk w) [] Hfree)
    as (fs' & Hmk & _).
  exists (created w project_path0), (after_create_job w fs' project_path0).
  split; [now apply create_job_eq|].
  do 5 (split; [reflexivity|]).
  unfold job_of, queue_of in *.
  unfold after_create_job, with_queue, with_job. simpl.
  split; [apply get_set_same|]. split; [apply get_set_same|].
  split; [|split; [|split]].
  - now apply keys_set_registered with old.
  - now apply keys_set_registered with q.
  - intros k Hk. split; now apply get_set_other.
  - intros p Hp. now apply (mkdir_parents_keeps _ _ _ _ _ Hmk).
Qed.

(** Two calls whose UUIDs differ and yet start with the same twelve
    digits: the second returns a job with the id of the first and takes
    its place in the registry, which holds one job after the two
    calls. *)
Lemma C8_two_jobs_one_id :
  uuid4_hex (fresh bare_host colliding_uuids) 0
  <> uuid4_hex (fresh bare_host colliding_uuids) 1
  /\ exists j1 w1,
       create_job Worlds.repr "/srv/a" (fresh bare_host colliding_uuids)
       = (Return j1, w1)
       /\ job_of w1 (next_id w1) = Some j1
       /\ queue_of w1 (next_id w1) = Some []
       /\ no_file_on (disk w1) (next_dir w1)
       /\ exists j2 w2,
            create_job Worlds.repr "/srv/b" w1 = (Return j2, w2)
            /\ job_id j2 = job_id j1
            /\ j2 <> j1
            /\ job_of w2 (job_id j1) = Some j2
            /\ Py.keys (_jobs (manager w2)) = ["0123456789ab"].
Proof.
  split; [discriminate|].
  set (j1 := mkJob "0123456789ab" "/srv/a" DRAFT "" "" ""
                   [""; "srv"; "jobs"; "0123456789ab"] [] 100%Z 100%Z).
  set (w1 := world_of (create_job Worlds.repr "/srv/a"
                         (fresh bare_host colliding_uuids))).
  assert (Hj1 : job_of w1 (next_id w1) = Some j1) by reflexivity.
  assert (Hq1 : queue_of w1 (next_id w1) = Some []) by reflexivity.
  assert (Hfree : no_file_on (disk w1) (next_dir w1)).
  { intros k _. destruct k as [|[|[|[|[|k]]]]]; reflexivity. }
  exists j1, w1. split; [now apply run_eq|].
  split; [exact Hj1|]. split; [exact Hq1|]. split; [exact Hfree|].
  destruct (C8_create_job_replaces_registered_job Worlds.repr w1 "/srv/b" j1 []
              Hj1 Hq1 Hfree)
    as (j2 & w2 & Hrun & Hid & _ & Hpath & _ & _ & Hj2 & _ & Hkeys & _).
  exists j2, w2. split; [exact Hrun|]. split; [exact Hid|].
  split; [intros Heq; rewrite Heq in Hpath; discriminate|].
  split; [exact Hj2|exact Hkeys].
Defined.

(* ================================================================= *)
(** ** Events and the channel *)

Module ChannelFacts.
Import Channel.

Section Observations.
Implicit Types (w : World) (id k : string).

Lemma job_of_with_queue w id q k : job_of (with_queue w id q) k = job_of w k.
Proof. reflexivity. Qed.

Lemma queue_of_with_queue w id q : queue_of (with_queue w id q) id = Some q.
Proof. unfold queue_of, with_queue. simpl. apply get_set_same. Qed.

Lemma queue_of_with_queue_other w id q k :
  k <> id -> queue_of (with_queue w id q) k = queue_of w k.
Proof. intros H. unfold queue_of, with_queue. simpl. now apply get_set_other. Qed.

Lemma job_of_with_job w id job : job_of (with_job w id job) id = Some job.
Proof. unfold job_of, with_job. simpl. apply get_set_same. Qed.

Lemma job_of_with_job_other w id job k :
  k <> id -> job_of (with_job w id job) k = job_of w k.
Proof. intros H. unfold job_of, with_job. simpl. now apply get_set_other. Qed.

Lemma queue_of_with_job w id job k : queue_of (with_job w id job) k = queue_of w k.
Proof. reflexivity. Qed.

Lemma job_of_tick w k : job_of (tick w) k = job_of w k.
Proof. reflexivity. Qed.

Lemma queue_of_tick w k : queue_of (tick w) k = queue_of w k.
Proof. reflexivity. Qed.

End Observations.

Section Calls.
Variable repr : string -> string.

Lemma add_event_run w id job q t d :
  job_of w id = Some job ->
  queue_of w id = Some q ->
  add_event repr id t d w
  = (Return (stamped w t d), after_add_event w id job q (stamped w t d)).
Proof.
  intros Hjob Hq. unfold add_event, bind.
  rewrite (get_job_found repr _ _ _ Hjob).
  unfold now, store_job, modify_manager, queue_put, bind, get_world.
  cbn -[Py.get Py.set]. unfold queue_of in Hq. rewrite Hq.
  reflexivity.
Qed.

Lemma queue_get_some w id e rest :
  queue_of w id = Some (e :: rest) ->
  queue_get id w = (Return (Some e), with_queue w id rest).
Proof.
  intros Hq. unfold queue_get, bind, get_world. unfold queue_of in Hq.
  now rewrite Hq.
Qed.

Lemma queue_get_empty w id :
  queue_of w id = Some [] -> queue_get id w = (Return None, w).
Proof.
  intros Hq. unfold queue_get, bind, get_world. unfold queue_of in Hq.
  now rewrite Hq.
Qed.



End Calls.
End ChannelFacts.

Import Channel ChannelFacts.



(* ================================================================= *)
(** ** The process bridge *)

Module InvokerFacts.
Import cursor_invoker.
Local Open Scope monad_scope.

Lemma find_agent_run w :
  _find_agent_command w
  = (match resolved w with
     | Some cmd => Return cmd
     | None =>
         Raise (FileNotFoundError
                  ("Cursor agent CLI not found. " ++ install_hint (_WINDOWS (host w))))
     end, w).
Proof.
  unfold _find_agent_command, resolved, bind, get_world.
  destruct (found_on_path (which_agent (host w))); [reflexivity|].
  destruct (_WINDOWS (host w)); [|reflexivity].
  now destruct (windows_bundle (host w) (disk w)).
Qed.

Section Calls.
Variable strip : string -> string.
Variable json_loads : string -> option Py.value.
Variable json_dumps : Py.value -> string.
Variable str_other : Py.value -> string.
Variable validate_AgentResult :
  Py.value -> Py.value -> Py.value -> Py.value -> outcome AgentResult.

(** An invocation without the agent CLI raises before any process is
    run. *)
Lemma invoke_cursor_unavailable w prompt project_path timeout_seconds mode sid :
  resolved w = None ->
  invoke_cursor strip json_loads validate_AgentResult prompt project_path
                timeout_seconds mode sid w
  = (Raise (FileNotFoundError
              ("Cursor agent CLI not found. " ++ install_hint (_WINDOWS (host w)))), w).
Proof.
  intros H. unfold invoke_cursor, bind. rewrite find_agent_run, H. reflexivity.
Qed.

Lemma invoke_cursor_timeout w prompt project_path timeout_seconds mode sid base_cmd :
  resolved w = Some base_cmd ->
  subprocess_run (host w) (_build_args base_cmd mode sid prompt false)
                 project_path timeout_seconds = TimeoutExpired ->
  invoke_cursor strip json_loads validate_AgentResult prompt project_path
                timeout_seconds mode sid w
  = (Raise (TimeoutError ("Agent CLI timed out after "
                            ++ Py.str_of_int timeout_seconds ++ "s")), w).
Proof.
  intros Hcmd Hrun. unfold invoke_cursor, bind. rewrite find_agent_run, Hcmd.
  unfold _run_blocking, bind, get_world. now rewrite Hrun.
Qed.


End Calls.
End InvokerFacts.

Import cursor_invoker InvokerFacts.




(** A capture that is JSON without being an object, the number 42 here,
    makes the invocation raise. *)
Lemma invoke_cursor_number_raises :
  invoke_cursor strip_nothing (decoder [("42", Py.VInt 42)]) strict_AgentResult
                "What is this project?" "/srv/project" 180 "ask" ""
                (fresh (agent_host "42" []) distinct_uuids)
  = (Raise (AttributeError "'int' object has no attribute 'get'"),
     fresh (agent_host "42" []) distinct_uuids).
Proof. reflexivity. Qed.

(** An object whose [result] entry is [null]: the validation of the
    result rejects it and the invocation raises. *)
Lemma invoke_cursor_null_result_raises :
  invoke_cursor strip_nothing
                (decoder [ (("{" ++ quoted "result" ++ ": null}")%string,
                            Py.VDict [("result", Py.VNone)]) ])
                strict_AgentResult
                "What is this project?" "/srv/project" 180 "ask" ""
                (fresh (agent_host ("{" ++ quoted "result" ++ ": null}") [])
                       distinct_uuids)
  = (Raise (ValidationError "AgentResult"),
     fresh (agent_host ("{" ++ quoted "result" ++ ": null}") []) distinct_uuids).
Proof. reflexivity. Qed.

Module StreamFacts.
Section Calls.
Variable json_loads : string -> option Py.value.
Variable json_dumps : Py.value -> string.
Variable str_other : Py.value -> string.

(** Up to the sentinel the loop yields what each line contributes, in
    order; it never looks at what follows the sentinel. *)
Lemma stream_loop_until_sentinel lines : forall tail reader,
  none_fails json_loads json_dumps str_other lines ->
  stream_loop json_loads json_dumps str_other
              (map Some lines ++ None :: tail) reader
  = (yields_of json_loads json_dumps str_other lines, await_worker reader).
Proof.
  unfold none_fails, yields_of.
  induction lines as [|line lines IH]; intros tail reader Hok; simpl.
  - reflexivity.
  - assert (Hline : fails (classify json_loads json_dumps str_other line) = false)
      by (apply Hok; now left).
    rewrite (IH tail reader) by (intros l Hl; apply Hok; now right).
    destruct (classify json_loads json_dumps str_other line); simpl;
      try reflexivity.
    discriminate.
Qed.

(** A line that fails ends the run there, with its exception. *)
Lemma stream_loop_failure lines : forall line e tail reader,
  none_fails json_loads json_dumps str_other lines ->
  classify json_loads json_dumps str_other line = Fails e ->
  stream_loop json_loads json_dumps str_other
              (map Some lines ++ Some line :: tail) reader
  = (yields_of json_loads json_dumps str_other lines, Raised e).
Proof.
  unfold none_fails, yields_of.
  induction lines as [|l lines IH]; intros line e tail reader Hok Hfail; simpl.
  - now rewrite Hfail.
  - assert (Hl : fails (classify json_loads json_dumps str_other l) = false)
      by (apply Hok; now left).
    rewrite (IH line e tail reader)
      by (auto; intros l' Hl'; apply Hok; now right).
    destruct (classify json_loads json_dumps str_other l); simpl;
      try reflexivity.
    discriminate.
Qed.

Lemma streaming_run w prompt project_path0 sid base_cmd lines returncode :
  resolved w = Some base_cmd ->
  subprocess_Popen (host w) (_build_args base_cmd "" sid prompt true) project_path0
  = Started lines returncode ->
  invoke_cursor_streaming json_loads json_dumps str_other prompt project_path0 sid w
  = (Return (stream_loop json_loads json_dumps str_other (queued_lines lines)
                         (Return returncode)), w).
Proof.
  intros Hcmd Hrun. unfold invoke_cursor_streaming, try_except, bind.
  rewrite find_agent_run, Hcmd. unfold _stream_blocking, bind, get_world.
  now rewrite Hrun.
Qed.

Lemma streaming_unavailable w prompt project_path0 sid :
  resolved w = None ->
  invoke_cursor_streaming json_loads json_dumps str_other prompt project_path0 sid w
  = (Return ([], Raised (FileNotFoundError
                           ("Cursor agent CLI not found. "
                              ++ install_hint (_WINDOWS (host w))))), w).
Proof.
  intros Hcmd. unfold invoke_cursor_streaming, try_except, bind.
  now rewrite find_agent_run, Hcmd.
Qed.

End Calls.
End StreamFacts.

Import StreamFacts.

(** C5, as the code has it.  A line that is not JSON is yielded as it
    is.  Of a line that decodes to an object: a [text_delta] chunk yields
    its [content] when that is not empty and nothing otherwise; a
    [result] chunk yields the marker with the dump of the whole chunk
    when its [result] is not empty and nothing otherwise; a [tool_use]
    chunk yields ["[Tool: <name>]"] and a [tool_result] chunk
    ["[Tool completed]"]; a chunk of any other type yields the first of
    its [content], its [result] and its rendering as text that is not
    empty.  When no line fails, the generator yields the items of the
    lines the worker passed on, in order, nothing of what might follow
    the sentinel, and ends with the worker's return code. *)
Theorem C5_streaming_classification :
  forall (json_loads : string -> option Py.value)
         (json_dumps : Py.value -> string) (str_other : Py.value -> string),
    (forall line, json_loads line = None ->
       classify json_loads json_dumps str_other line = Yield (Py.VStr line))
    /\ (forall line chunk,
          json_loads line = Some (Py.VDict chunk) ->
          let chunk_type := Py.get_default chunk "type" (Py.VStr "") in
          let content0 := Py.get_default chunk "content" (Py.VStr "") in
          let result0 := Py.get_default chunk "result" (Py.VStr "") in
          let tool_name := Py.get_default chunk "name" (Py.VStr "unknown") in
          let rendering :=
            Py.or_else (Py.or_else content0 result0)
                       (Py.VStr (str_value str_other (Py.VDict chunk))) in
          (chunk_type = Py.VStr "text_delta" ->
           classify json_loads json_dumps str_other line
           = if Py.truthy content0 then Yield content0 else Nothing)
          /\ (chunk_type = Py.VStr "result" ->
              classify json_loads json_dumps str_other line
              = if Py.truthy result0
                then Yield (Py.VStr ("__result__::" ++ json_dumps (Py.VDict chunk)))
                else Nothing)
          /\ (chunk_type = Py.VStr "tool_use" ->
              classify json_loads json_dumps str_other line
              = Yield (Py.VStr ("[Tool: " ++ str_value str_other tool_name ++ "]")))
          /\ (chunk_type = Py.VStr "tool_result" ->
              classify json_loads json_dumps str_other line
              = Yield (Py.VStr "[Tool completed]"))
          /\ (is_str chunk_type "text_delta" = false ->
              is_str chunk_type "result" = false ->
              is_str chunk_type "tool_use" = false ->
              is_str chunk_type "tool_result" = false ->
              classify json_loads json_dumps str_other line
              = if Py.truthy rendering then Yield rendering else Nothing))
    /\ (forall lines tail returncode,
          none_fails json_loads json_dumps str_other lines ->
          stream_loop json_loads json_dumps str_other
                      (map Some lines ++ None :: tail) (Return returncode)
          = (yields_of json_loads json_dumps str_other lines, Exited returncode))
    /\ (forall w prompt project_path0 sid base_cmd lines returncode,
          resolved w = Some base_cmd ->
          subprocess_Popen (host w) (_build_args base_cmd "" sid prompt true)
                           project_path0 = Started lines returncode ->
          none_fails json_loads json_dumps str_other (passed_on lines) ->
          invoke_cursor_streaming json_loads json_dumps str_other prompt
                                  project_path0 sid w
          = (Return (yields_of json_loads json_dumps str_other (passed_on lines),
                     Exited returncode), w)).
Proof.
  intros json_loads json_dumps str_other. split; [|split; [|split]].
  - intros line H. unfold classify. now rewrite H.
  - intros line chunk H. cbv zeta. unfold classify. rewrite H.
    repeat split.
    + intros ->. reflexivity.
    + intros ->. reflexivity.
    + intros ->. reflexivity.
    + intros ->. reflexivity.
    + intros H1 H2 H3 H4. now rewrite H1, H2, H3, H4.
  - intros lines tail returncode Hok.
    now rewrite stream_loop_until_sentinel.
  - intros w prompt project_path0 sid base_cmd lines returncode Hcmd Hrun Hok.
    rewrite (streaming_run _ _ _ _ _ _ _ _ _ _ Hcmd Hrun).
    unfold queued_lines. fold (passed_on lines).
    now rewrite stream_loop_until_sentinel.
Qed.

(** The scenario of the specification: two partial texts, then the
    final answer, then a clean exit. *)
Lemma C5_partials_then_result :
  invoke_cursor_streaming (decoder scenario_table) scenario_dumps scenario_str
    "Carry out the plan." "/srv/project" "sess-1"
    (fresh (agent_host "" scenario_lines) distinct_uuids)
  = (Return ([ Py.VStr "partial one"; Py.VStr "partial two";
               Py.VStr ("__result__::" ++ result_line "all done") ],
             Exited 0),
     fresh (agent_host "" scenario_lines) distinct_uuids).
Proof.
  destruct (C5_streaming_classification (decoder scenario_table) scenario_dumps
              scenario_str) as (_ & _ & _ & Hrun).
  rewrite (Hrun (fresh (agent_host "" scenario_lines) distinct_uuids)
             "Carry out the plan." "/srv/project" "sess-1"
             ["/usr/local/bin/agent"] scenario_lines 0%Z eq_refl eq_refl).
  - reflexivity.
  - intros line Hin. simpl in Hin.
    destruct Hin as [<- | [<- | [<- | []]]]; reflexivity.
Defined.

(** A [result] chunk whose [result] is the empty text: the loop yields
    no marker for it, and nothing else. *)
Lemma C5_empty_result_swallowed :
  decoder scenario_table (result_line "") = Some (result_chunk "")
  /\ classify (decoder scenario_table) scenario_dumps scenario_str (result_line "")
     = Nothing
  /\ stream_loop (decoder scenario_table) scenario_dumps scenario_str
       [Some (result_line ""); None] (Return 0%Z)
     = ([], Exited 0).
Proof. repeat split. Qed.

(** A line that is JSON without being an object, [null] here, ends the
    generator with an [AttributeError]. *)
Lemma stream_null_line_raises :
  stream_loop (decoder [("null", Py.VNone)]) scenario_dumps scenario_str
    [Some "null"; None] (Return 0%Z)
  = ([], Raised (AttributeError "'NoneType' object has no attribute 'get'")).
Proof. reflexivity. Qed.

(* ================================================================= *)
(** ** The phase handlers *)

Module HandlerFacts.

Lemma bind_return {A B} (c : M A) (k : A -> M B) w a w' :
  c w = (Return a, w') -> bind c k w = k a w'.
Proof. intros H. unfold bind. now rewrite H. Qed.

Lemma bind_raise {A B} (c : M A) (k : A -> M B) w e w' :
  c w = (Raise e, w') -> bind c k w = (Raise e, w').
Proof. intros H. unfold bind. now rewrite H. Qed.

Lemma bind_forever {A B} (c : M A) (k : A -> M B) w w' :
  c w = (Forever, w') -> bind c k w = (Forever, w').
Proof. intros H. unfold bind. now rewrite H. Qed.

Lemma try_except_return {A} (c : M A) (h : exn -> M A) w a w' :
  c w = (Return a, w') -> try_except c h w = (Return a, w').
Proof. intros H. unfold try_except. now rewrite H. Qed.

Lemma try_except_raise {A} (c : M A) (h : exn -> M A) w e w' :
  c w = (Raise e, w') -> try_except c h w = h e w'.
Proof. intros H. unfold try_except. now rewrite H. Qed.

Lemma assign_run w id job update :
  job_of w id = Some job ->
  assign id update w = (Return tt, with_job w id (update job)).
Proof.
  intros H. unfold assign, modify_manager. unfold job_of in H. now rewrite H.
Qed.

Section Calls.
Variable repr : string -> string.

Lemma transition_run w id job target :
  job_of w id = Some job ->
  edge (state job) target ->
  transition repr id target w
  = (Return (moved w job target), after_transition w id job target).
Proof. apply transition_accepted. Qed.

(** Failing a job that may fail: the transition, then the event, then
    whatever the handler goes on with. *)
Lemma fail_job_run {A} (k : M A) w id job q msg :
  job_of w id = Some job ->
  queue_of w id = Some q ->
  edge (state job) FAILED ->
  bind (transition repr id FAILED)
       (fun _ => bind (add_event repr id ERROR msg) (fun _ => k)) w
  = k (after_failure w id job q msg).
Proof.
  intros Hjob Hq Hedge.
  rewrite (bind_return _ _ _ _ _ (transition_run _ _ _ _ Hjob Hedge)).
  erewrite bind_return; [reflexivity|].
  apply add_event_run.
  - unfold after_transition. rewrite job_of_tick. apply job_of_with_job.
  - unfold after_transition. now rewrite queue_of_tick, queue_of_with_job.
Qed.

Lemma job_of_after_failure w id job q msg :
  job_of (after_failure w id job q msg) id = Some (failed_job w id job msg).
Proof.
  unfold after_failure, after_add_event, failed_job.
  rewrite job_of_with_queue. apply job_of_with_job.
Qed.

Lemma queue_of_after_failure w id job q msg :
  queue_of (after_failure w id job q msg) id
  = Some (q ++ [stamped (after_transition w id job FAILED) ERROR msg]).
Proof. unfold after_failure, after_add_event. apply queue_of_with_queue. Qed.

End Calls.
End HandlerFacts.

Module PhaseFacts.
Import HandlerFacts.

Lemma job_of_after_create_job w fs' p :
  job_of (after_create_job w fs' p) (next_id w) = Some (created w p).
Proof.
  unfold after_create_job. rewrite job_of_with_queue. apply job_of_with_job.
Qed.

Lemma queue_of_after_create_job w fs' p :
  queue_of (after_create_job w fs' p) (next_id w) = Some [].
Proof. unfold after_create_job. apply queue_of_with_queue. Qed.

Lemma job_of_after_transition w id job target :
  job_of (after_transition w id job target) id = Some (moved w job target).
Proof. unfold after_transition. rewrite job_of_tick. apply job_of_with_job. Qed.

Lemma queue_of_after_transition w id job target k :
  queue_of (after_transition w id job target) k = queue_of w k.
Proof. reflexivity. Qed.

Section Ask.
Variable repr : string -> string.
Variable strip : string -> string.
Variable json_loads : string -> option Py.value.
Variable validate_AgentResult :
  Py.value -> Py.value -> Py.value -> Py.value -> outcome AgentResult.
Variable build_ask_prompt : AskRequest.t -> string.

(** The ask handler when the invocation raises [exc]: a [TimeoutError]
    or another [OSError] fails the job, records the [ERROR] event and
    surfaces as an [HTTPException]; anything else propagates and leaves
    the job in [ASK_RUNNING]. *)
Lemma ask_invocation_raises w request fs' exc :
  mkdir (disk w) (next_dir w) = FsOk fs' ->
  (forall w1, host w1 = host w ->
     invoke_cursor strip json_loads validate_AgentResult (build_ask_prompt request)
       (AskRequest.project_path request) (cursor_timeout_seconds (host w)) "ask"
       (AskRequest.session_id request) w1 = (Raise exc, w1)) ->
  exists w' job,
    job_of w' (next_id w) = Some job
    /\ if is_TimeoutError exc then
         ask.ask repr strip json_loads validate_AgentResult build_ask_prompt request w
         = (Raise (HTTPException 504 "Cursor agent timed out"), w')
         /\ state job = FAILED
         /\ exists e, events job = [e] /\ queue_of w' (next_id w) = Some [e]
                      /\ label e = (ERROR, "Cursor agent timed out")
       else if is_OSError exc then
         ask.ask repr strip json_loads validate_AgentResult build_ask_prompt request w
         = (Raise (HTTPException 500 ("Cursor CLI not found: " ++ str_exn repr exc)), w')
         /\ state job = FAILED
         /\ exists e, events job = [e] /\ queue_of w' (next_id w) = Some [e]
                      /\ label e = (ERROR, ("Cursor CLI not found: " ++ str_exn repr exc)%string)
       else
         ask.ask repr strip json_loads validate_AgentResult build_ask_prompt request w
         = (Raise exc, w')
         /\ state job = ASK_RUNNING
         /\ events job = [] /\ queue_of w' (next_id w) = Some [].
Proof.
  intros Hmk Hinvoke.
  pose proof (job_of_after_create_job w fs' (AskRequest.project_path request)) as Hjob1.
  pose proof (queue_of_after_create_job w fs' (AskRequest.project_path request)) as Hq1.
  unfold ask.ask.
  rewrite (bind_return get_world _ w w w eq_refl).
  rewrite (bind_return _ _ _ _ _ (create_job_eq repr _ _ _ Hmk)).
  cbn [job_id created].
  set (w1 := after_create_job w fs' (AskRequest.project_path request)) in *.
  set (id := next_id w) in *.
  assert (Hstart : exists wX jX,
             (if negb (AskRequest.session_id request =? "")
              then assign id (fun j => set_session_id j (AskRequest.session_id request))
              else ret tt) w1 = (Return tt, wX)
             /\ job_of wX id = Some jX /\ queue_of wX id = Some []
             /\ state jX = DRAFT /\ events jX = [] /\ host wX = host w).
  { destruct (negb (AskRequest.session_id request =? "")).
    - eexists. eexists. split; [apply (assign_run _ _ _ _ Hjob1)|].
      rewrite job_of_with_job, queue_of_with_job. repeat split; auto.
    - exists w1. eexists. split; [reflexivity|]. repeat split; eauto. }
  destruct Hstart as (wX & jX & Hassign & HjobX & HqX & HstateX & HeventsX & HhostX).
  rewrite (bind_return _ _ _ _ _ Hassign).
  assert (Hedge : edge (state jX) ASK_RUNNING) by (rewrite HstateX; constructor).
  rewrite (bind_return _ _ _ _ _ (transition_run repr _ _ _ _ HjobX Hedge)).
  set (w2 := after_transition wX id jX ASK_RUNNING).
  assert (Hjob2 : job_of w2 id = Some (moved wX jX ASK_RUNNING))
    by apply job_of_after_transition.
  assert (Hq2 : queue_of w2 id = Some []) by exact HqX.
  assert (Hfail : edge (state (moved wX jX ASK_RUNNING)) FAILED) by constructor.
  assert (Hraise : invoke_cursor strip json_loads validate_AgentResult
                     (build_ask_prompt request) (AskRequest.project_path request)
                     (cursor_timeout_seconds (host w)) "ask"
                     (AskRequest.session_id request) w2 = (Raise exc, w2))
    by (apply Hinvoke; exact HhostX).
  destruct (is_TimeoutError exc) eqn:Htimeout; [|destruct (is_OSError exc) eqn:Hos].
  - exists (after_failure w2 id (moved wX jX ASK_RUNNING) [] "Cursor agent timed out").
    eexists. split; [apply job_of_after_failure|]. split.
    + erewrite bind_raise; [reflexivity|].
      rewrite (try_except_raise _ _ _ _ _ Hraise), Htimeout.
      now rewrite (fail_job_run repr _ _ _ _ [] _ Hjob2 Hq2 Hfail).
    + split; [reflexivity|]. eexists. split; [|split].
      * cbn. now rewrite HeventsX.
      * now rewrite queue_of_after_failure.
      * reflexivity.
  - exists (after_failure w2 id (moved wX jX ASK_RUNNING) []
              ("Cursor CLI not found: " ++ str_exn repr exc)).
    eexists. split; [apply job_of_after_failure|]. split.
    + erewrite bind_raise; [reflexivity|].
      rewrite (try_except_raise _ _ _ _ _ Hraise), Htimeout, Hos.
      now rewrite (fail_job_run repr _ _ _ _ [] _ Hjob2 Hq2 Hfail).
    + split; [reflexivity|]. eexists. split; [|split].
      * cbn. now rewrite HeventsX.
      * now rewrite queue_of_after_failure.
      * reflexivity.
  - exists w2. eexists. split; [exact Hjob2|]. split.
    + erewrite bind_raise; [reflexivity|].
      now rewrite (try_except_raise _ _ _ _ _ Hraise), Htimeout, Hos.
    + repeat split; auto.
Qed.

End Ask.

Section Plan.
Variable repr : string -> string.
Variable strip : string -> string.
Variable json_loads : string -> option Py.value.
Variable validate_AgentResult :
  Py.value -> Py.value -> Py.value -> Py.value -> outcome AgentResult.
Variable build_plan_prompt : PlanRequest.t -> string.

(** The plan handler when the invocation raises [exc]: a [TimeoutError]
    fails the job, records the [ERROR] event and surfaces as an
    [HTTPException]; anything else propagates and leaves the job in
    [PLAN_RUNNING]. *)
Lemma plan_invocation_raises w request fs' exc :
  mkdir (disk w) (next_dir w) = FsOk fs' ->
  (forall w1, host w1 = host w ->
     invoke_cursor strip json_loads validate_AgentResult (build_plan_prompt request)
       (PlanRequest.project_path request) (cursor_timeout_seconds (host w)) "plan"
       (PlanRequest.session_id request) w1 = (Raise exc, w1)) ->
  exists w' job,
    job_of w' (next_id w) = Some job
    /\ if is_TimeoutError exc then
         plan.create_plan repr strip json_loads validate_AgentResult
                          build_plan_prompt request w
         = (Raise (HTTPException 504 "Cursor agent timed out"), w')
         /\ state job = FAILED
         /\ exists e, events job = [e] /\ queue_of w' (next_id w) = Some [e]
                      /\ label e = (ERROR, "Cursor agent timed out")
       else
         plan.create_plan repr strip json_loads validate_AgentResult
                          build_plan_prompt request w
         = (Raise exc, w')
         /\ state job = PLAN_RUNNING
         /\ events job = [] /\ queue_of w' (next_id w) = Some [].
Proof.
  intros Hmk Hinvoke.
  pose proof (job_of_after_create_job w fs' (PlanRequest.project_path request)) as Hjob1.
  pose proof (queue_of_after_create_job w fs' (PlanRequest.project_path request)) as Hq1.
  unfold plan.create_plan.
  rewrite (bind_return get_world _ w w w eq_refl).
  rewrite (bind_return _ _ _ _ _ (create_job_eq repr _ _ _ Hmk)).
  cbn [job_id created].
  set (w1 := after_create_job w fs' (PlanRequest.project_path request)) in *.
  set (id := next_id w) in *.
  assert (Hstart : exists wX jX,
             (if negb (PlanRequest.session_id request =? "")
              then assign id (fun j => set_session_id j (PlanRequest.session_id request))
              else ret tt) w1 = (Return tt, wX)
             /\ job_of wX id = Some jX /\ queue_of wX id = Some []
             /\ state jX = DRAFT /\ events jX = [] /\ host wX = host w).
  { destruct (negb (PlanRequest.session_id request =? "")).
    - eexists. eexists. split; [apply (assign_run _ _ _ _ Hjob1)|].
      rewrite job_of_with_job, queue_of_with_job. repeat split; auto.
    - exists w1. eexists. split; [reflexivity|]. repeat split; eauto. }
  destruct Hstart as (wX & jX & Hassign & HjobX & HqX & HstateX & HeventsX & HhostX).
  rewrite (bind_return _ _ _ _ _ Hassign).
  assert (Hedge : edge (state jX) PLAN_RUNNING) by (rewrite HstateX; constructor).
  rewrite (bind_return _ _ _ _ _ (transition_run repr _ _ _ _ HjobX Hedge)).
  set (w2 := after_transition wX id jX PLAN_RUNNING).
  assert (Hjob2 : job_of w2 id = Some (moved wX jX PLAN_RUNNING))
    by apply job_of_after_transition.
  assert (Hq2 : queue_of w2 id = Some []) by exact HqX.
  assert (Hfail : edge (state (moved wX jX PLAN_RUNNING)) FAILED) by constructor.
  assert (Hraise : invoke_cursor strip json_loads validate_AgentResult
                     (build_plan_prompt request) (PlanRequest.project_path request)
                     (cursor_timeout_seconds (host w)) "plan"
                     (PlanRequest.session_id request) w2 = (Raise exc, w2))
    by (apply Hinvoke; exact HhostX).
  destruct (is_TimeoutError exc) eqn:Htimeout.
  - exists (after_failure w2 id (moved wX jX PLAN_RUNNING) [] "Cursor agent timed out").
    eexists. split; [apply job_of_after_failure|]. split.
    + erewrite bind_raise; [reflexivity|].
      rewrite (try_except_raise _ _ _ _ _ Hraise), Htimeout.
      now rewrite (fail_job_run repr _ _ _ _ [] _ Hjob2 Hq2 Hfail).
    + split; [reflexivity|]. eexists. split; [|split].
      * cbn. now rewrite HeventsX.
      * now rewrite queue_of_after_failure.
      * reflexivity.
  - exists w2. eexists. split; [exact Hjob2|]. split.
    + erewrite bind_raise; [reflexivity|].
      now rewrite (try_except_raise _ _ _ _ _ Hraise), Htimeout.
    + repeat split; auto.
Qed.

End Plan.

(** On a host that is not Windows and has no [agent] on the path, no
    world resolves the command. *)
Lemma unresolved_on_host w :
  found_on_path (which_agent (host w)) = None ->
  _WINDOWS (host w) = false ->
  forall w1, host w1 = host w -> resolved w1 = None.
Proof.
  intros Hpath Hwin w1 Hhost. unfold resolved. now rewrite Hhost, Hpath, Hwin.
Qed.

Lemma resolved_on_path w agent_path :
  found_on_path (which_agent (host w)) = Some agent_path ->
  forall w1, host w1 = host w -> resolved w1 = Some [agent_path].
Proof.
  intros Hpath w1 Hhost. unfold resolved. now rewrite Hhost, Hpath.
Qed.

End PhaseFacts.

Import HandlerFacts PhaseFacts.

(** [mkdir] succeeds where no regular file is in the way. *)
Lemma mkdir_next_dir w :
  no_file_on (disk w) (next_dir w) ->
  exists fs', mkdir (disk w) (next_dir w) = FsOk fs'.
Proof.
  intros Hfree.
  destruct (mkdir_parents_succeeds (next_dir w) (disk w) [] Hfree) as (fs' & H & _).
  now exists fs'.
Qed.

(** During the ask phase a timeout of the invocation fails the job and
    records the [ERROR] event before the failure is surfaced. *)
Lemma ask_timeout_fails_job :
  forall (repr strip : string -> string) (json_loads : string -> option Py.value)
         (validate_AgentResult :
            Py.value -> Py.value -> Py.value -> Py.value -> outcome AgentResult)
         (build_ask_prompt : AskRequest.t -> string)
         (w : World) (request : AskRequest.t) (agent_path : string),
    no_file_on (disk w) (next_dir w) ->
    found_on_path (which_agent (host w)) = Some agent_path ->
    subprocess_run (host w)
      (_build_args [agent_path] "ask" (AskRequest.session_id request)
                   (build_ask_prompt request) false)
      (AskRequest.project_path request) (cursor_timeout_seconds (host w))
    = TimeoutExpired ->
    exists w' job e,
      ask.ask repr strip json_loads validate_AgentResult build_ask_prompt request w
      = (Raise (HTTPException 504 "Cursor agent timed out"), w')
      /\ job_of w' (next_id w) = Some job
      /\ state job = FAILED
      /\ events job = [e]
      /\ queue_of w' (next_id w) = Some [e]
      /\ label e = (ERROR, "Cursor agent timed out").
Proof.
  intros repr strip json_loads validate build w request agent_path Hfree Hpath Hrun.
  destruct (mkdir_next_dir w Hfree) as (fs' & Hmk).
  destruct (ask_invocation_raises repr strip json_loads validate build w request fs'
              (TimeoutError ("Agent CLI timed out after "
                               ++ Py.str_of_int (cursor_timeout_seconds (host w)) ++ "s"))
              Hmk)
    as (w' & job & Hjob & Hask & Hstate & e & Hev & Hq & Hlabel).
  { intros w1 Hhost. apply invoke_cursor_timeout with (base_cmd := [agent_path]).
    - now apply (resolved_on_path w).
    - now rewrite Hhost. }
  exists w', job, e. auto 10.
Qed.

(** During the ask phase an agent that cannot be found fails the job and
    records the [ERROR] event before the failure is surfaced. *)
Lemma ask_agent_unavailable_fails_job :
  forall (repr strip : string -> string) (json_loads : string -> option Py.value)
         (validate_AgentResult :
            Py.value -> Py.value -> Py.value -> Py.value -> outcome AgentResult)
         (build_ask_prompt : AskRequest.t -> string)
         (w : World) (request : AskRequest.t),
    no_file_on (disk w) (next_dir w) ->
    found_on_path (which_agent (host w)) = None ->
    _WINDOWS (host w) = false ->
    exists w' job e,
      ask.ask repr strip json_loads validate_AgentResult build_ask_prompt request w
      = (Raise (HTTPException 500
                  ("Cursor CLI not found: Cursor agent CLI not found. "
                     ++ install_hint false)), w')
      /\ job_of w' (next_id w) = Some job
      /\ state job = FAILED
      /\ events job = [e]
      /\ queue_of w' (next_id w) = Some [e]
      /\ event_type e = ERROR.
Proof.
  intros repr strip json_loads validate build w request Hfree Hpath Hwin.
  destruct (mkdir_next_dir w Hfree) as (fs' & Hmk).
  destruct (ask_invocation_raises repr strip json_loads validate build w request fs'
              (FileNotFoundError ("Cursor agent CLI not found. " ++ install_hint false))
              Hmk)
    as (w' & job & Hjob & Hask & Hstate & e & Hev & Hq & Hlabel).
  { intros w1 Hhost.
    rewrite (invoke_cursor_unavailable _ _ _ w1)
      by now apply (unresolved_on_host w).
    now rewrite Hhost, Hwin. }
  exists w', job, e. repeat split; auto.
  now injection Hlabel.
Qed.

(** During the plan phase a timeout of the invocation fails the job and
    records the [ERROR] event before the failure is surfaced. *)
Lemma plan_timeout_fails_job :
  forall (repr strip : string -> string) (json_loads : string -> option Py.value)
         (validate_AgentResult :
            Py.value -> Py.value -> Py.value -> Py.value -> outcome AgentResult)
         (build_plan_prompt : PlanRequest.t -> string)
         (w : World) (request : PlanRequest.t) (agent_path : string),
    no_file_on (disk w) (next_dir w) ->
    found_on_path (which_agent (host w)) = Some agent_path ->
    subprocess_run (host w)
      (_build_args [agent_path] "plan" (PlanRequest.session_id request)
                   (build_plan_prompt request) false)
      (PlanRequest.project_path request) (cursor_timeout_seconds (host w))
    = TimeoutExpired ->
    exists w' job e,
      plan.create_plan repr strip json_loads validate_AgentResult build_plan_prompt
                       request w
      = (Raise (HTTPException 504 "Cursor agent timed out"), w')
      /\ job_of w' (next_id w) = Some job
      /\ state job = FAILED
      /\ events job = [e]
      /\ queue_of w' (next_id w) = Some [e]
      /\ label e = (ERROR, "Cursor agent timed out").
Proof.
  intros repr strip json_loads validate build w request agent_path Hfree Hpath Hrun.
  destruct (mkdir_next_dir w Hfree) as (fs' & Hmk).
  destruct (plan_invocation_raises repr strip json_loads validate build w request fs'
              (TimeoutError ("Agent CLI timed out after "
                               ++ Py.str_of_int (cursor_timeout_seconds (host w)) ++ "s"))
              Hmk)
    as (w' & job & Hjob & Hplan & Hstate & e & Hev & Hq & Hlabel).
  { intros w1 Hhost. apply invoke_cursor_timeout with (base_cmd := [agent_path]).
    - now apply (resolved_on_path w).
    - now rewrite Hhost. }
  exists w', job, e. auto 10.
Qed.

(** An ask request on a host whose agent exceeds the timeout: the
    caller gets the gateway timeout, the job is [FAILED] and its one
    event is the [ERROR]. *)
Lemma ask_on_slow_host :
  fst (ask.ask Worlds.repr strip_nothing (decoder []) strict_AgentResult
               AskRequest.message ask_request (fresh slow_host distinct_uuids))
  = Raise (HTTPException 504 "Cursor agent timed out")
  /\ option_map
       (fun job => (state job, map label (events job)))
       (job_of (world_of
                  (ask.ask Worlds.repr strip_nothing (decoder []) strict_AgentResult
                           AskRequest.message ask_request
                           (fresh slow_host distinct_uuids)))
               "0123456789ab")
     = Some (FAILED, [(ERROR, "Cursor agent timed out")]).
Proof. split; reflexivity. Qed.

(** C3, where the code departs from it.  During the plan phase an agent
    that cannot be found surfaces as the [FileNotFoundError] itself: the
    handler does not catch it, the job stays in [PLAN_RUNNING] and no
    event is recorded. *)
Theorem C3_plan_agent_unavailable_not_recorded :
  forall (repr strip : string -> string) (json_loads : string -> option Py.value)
         (validate_AgentResult :
            Py.value -> Py.value -> Py.value -> Py.value -> outcome AgentResult)
         (build_plan_prompt : PlanRequest.t -> string)
         (w : World) (request : PlanRequest.t),
    no_file_on (disk w) (next_dir w) ->
    found_on_path (which_agent (host w)) = None ->
    _WINDOWS (host w) = false ->
    exists w' job,
      plan.create_plan repr strip json_loads validate_AgentResult build_plan_prompt
                       request w
      = (Raise (FileNotFoundError
                  ("Cursor agent CLI not found. " ++ install_hint false)), w')
      /\ job_of w' (next_id w) = Some job
      /\ state job = PLAN_RUNNING
      /\ events job = []
      /\ queue_of w' (next_id w) = Some [].
Proof.
  intros repr strip json_loads validate build w request Hfree Hpath Hwin.
  destruct (mkdir_next_dir w Hfree) as (fs' & Hmk).
  destruct (plan_invocation_raises repr strip json_loads validate build w request fs'
              (FileNotFoundError ("Cursor agent CLI not found. " ++ install_hint false))
              Hmk)
    as (w' & job & Hjob & Hplan & Hstate & Hev & Hq).
  { intros w1 Hhost.
    rewrite (invoke_cursor_unavailable _ _ _ w1)
      by now apply (unresolved_on_host w).
    now rewrite Hhost, Hwin. }
  exists w', job. auto.
Qed.


Module ExecuteFacts.
Import execute.

Lemma after_events_refl w id job q :
  job_of w id = Some job -> queue_of w id = Some q ->
  after_events w id job q [] w.
Proof.
  intros Hjob Hq. exists job. rewrite !app_nil_r. repeat split; auto.
Qed.

Lemma try_finally_run {A} (c : M A) (f : M unit) w r w1 w2 :
  c w = (r, w1) -> r <> Forever -> f w1 = (Return tt, w2) ->
  try_finally c f w = (r, w2).
Proof.
  intros Hc Hr Hf. unfold try_finally. rewrite Hc.
  destruct r; try contradiction; now rewrite Hf.
Qed.

Lemma try_finally_forever {A} (c : M A) (f : M unit) w w1 :
  c w = (Forever, w1) -> try_finally c f w = (Forever, w1).
Proof. intros Hc. unfold try_finally. now rewrite Hc. Qed.

Lemma join_items_ends items : forall i, join_items i items <> Forever.
Proof.
  induction items as [|v items IH]; intros i; simpl; [discriminate|].
  destruct v; try discriminate.
  specialize (IH (S i)). destruct (join_items (S i) items); congruence.
Qed.

Section Calls.
Variable repr : string -> string.
Variable isoformat : datetime -> string.
Variable json_dumps_indent : Py.value -> string.
Variable json_loads : string -> option Py.value.
Variable json_dumps : Py.value -> string.
Variable str_other : Py.value -> string.
Variable build_execute_prompt : string -> string -> string.

Lemma add_event_grows w id job q t d :
  job_of w id = Some job -> queue_of w id = Some q ->
  after_events w id job q [stamped w t d]
               (after_add_event w id job q (stamped w t d)).
Proof.
  intros Hjob Hq. exists (append_event job (stamped w t d)).
  unfold after_add_event. rewrite job_of_with_queue, job_of_with_job.
  rewrite queue_of_with_queue. repeat split.
Qed.

Lemma after_events_trans w id job q evs w1 evs' w2 job1 :
  after_events w id job q evs w1 ->
  job_of w1 id = Some job1 ->
  after_events w1 id job1 (q ++ evs) evs' w2 ->
  after_events w id job q (evs ++ evs') w2.
Proof.
  intros (j1 & Hj1 & Hq1 & He1 & Hs1 & Ha1 & Hd1 & Hh1) Hjob1
         (j2 & Hj2 & Hq2 & He2 & Hs2 & Ha2 & Hd2 & Hh2).
  assert (j1 = job1) by congruence. subst j1.
  exists j2. rewrite !app_assoc. repeat split; congruence.
Qed.

(** One round of the loop adds at most a [LOG] event and never runs
    forever. *)
Lemma on_chunk_grows w id job q acc chunk :
  job_of w id = Some job -> queue_of w id = Some q ->
  exists r w' evs,
    on_chunk repr json_loads id acc chunk w = (r, w')
    /\ r <> Forever
    /\ after_events w id job q evs w'.
Proof.
  intros Hjob Hq. unfold on_chunk.
  destruct chunk as [| | | |c| |];
    try (eexists; exists w, []; split; [reflexivity|];
         split; [discriminate|now apply after_events_refl]).
  destruct (Py.startswith c "__result__::").
  - destruct (json_loads _) as [[| | | | | |data]|];
      try (eexists; exists w, []; split; [reflexivity|];
           split; [discriminate|now apply after_events_refl]).
    destruct (Py.truthy _);
      (eexists; exists w, []; split; [reflexivity|];
       split; [discriminate|now apply after_events_refl]).
  - rewrite (bind_return _ _ _ _ _ (add_event_run repr _ _ _ _ LOG c Hjob Hq)).
    eexists. eexists. eexists. split; [reflexivity|]. split; [discriminate|].
    now apply add_event_grows.
Qed.

Lemma for_each_chunk_grows chunks : forall w id job q acc,
  job_of w id = Some job -> queue_of w id = Some q ->
  exists r w' evs,
    for_each_chunk repr json_loads id chunks acc w = (r, w')
    /\ r <> Forever
    /\ after_events w id job q evs w'.
Proof.
  induction chunks as [|chunk chunks IH]; intros w id job q acc Hjob Hq; simpl.
  - eexists. exists w, []. split; [reflexivity|].
    split; [discriminate|now apply after_events_refl].
  - destruct (on_chunk_grows w id job q acc chunk Hjob Hq)
      as (r & w1 & evs & Hrun & Hr & Hgrow).
    destruct r as [acc1|e|]; [| |contradiction].
    + rewrite (bind_return _ _ _ _ _ Hrun).
      destruct Hgrow as (job1 & Hj1 & Hq1 & Hrest).
      destruct (IH w1 id job1 (q ++ evs) acc1 Hj1 Hq1) as (r2 & w2 & evs2 & Hrun2 & Hr2 & Hgrow2).
      exists r2, w2, (evs ++ evs2). split; [exact Hrun2|]. split; [exact Hr2|].
      eapply after_events_trans; eauto. exists job1. auto.
    + rewrite (bind_raise _ _ _ _ _ Hrun).
      exists (Raise e), w1, evs. split; [reflexivity|]. split; [discriminate|exact Hgrow].
Qed.

(** Draining only adds events to the job: its state, its directory and
    the disk stay as they were, however the draining ends. *)
Lemma drain_grows w id job q prompt project_path0 sid :
  job_of w id = Some job -> queue_of w id = Some q ->
  exists r w' evs,
    drain repr json_loads json_dumps str_other id prompt project_path0 sid w = (r, w')
    /\ after_events w id job q evs w'.
Proof.
  intros Hjob Hq. unfold drain.
  rewrite (bind_return _ _ _ _ _ (add_event_run repr _ _ _ _ STEP _ Hjob Hq)).
  set (e := stamped w STEP "Starting Cursor agent in execute mode (streaming)").
  set (w1 := after_add_event w id job q e).
  pose proof (add_event_grows w id job q STEP
                "Starting Cursor agent in execute mode (streaming)" Hjob Hq) as Hgrow1.
  fold e in Hgrow1. fold w1 in Hgrow1.
  destruct Hgrow1 as (job1 & Hj1 & Hq1 & Hrest1).
  assert (Hstream : exists run,
             invoke_cursor_streaming json_loads json_dumps str_other prompt
                                     project_path0 sid w1 = (Return run, w1)).
  { unfold invoke_cursor_streaming, try_except, bind.
    rewrite find_agent_run. destruct (resolved w1); [|eexists; reflexivity].
    unfold _stream_blocking, bind, get_world.
    destruct (subprocess_Popen _ _ _); eexists; reflexivity. }
  destruct Hstream as (run & Hstream).
  rewrite (bind_return _ _ _ _ _ Hstream).
  destruct (for_each_chunk_grows (fst run) w1 id job1 (q ++ [e]) [] Hj1 Hq1)
    as (r & w2 & evs & Hloop & Hr & Hgrow2).
  assert (Hall : after_events w id job q ([e] ++ evs) w2).
  { eapply after_events_trans; eauto. exists job1. auto. }
  destruct r as [acc|exc|]; [| |contradiction].
  - rewrite (bind_return _ _ _ _ _ Hloop).
    destruct (snd run) as [rc|exc|]; simpl.
    + eexists. exists w2. eexists. split; [reflexivity|exact Hall].
    + eexists. exists w2. eexists. split; [reflexivity|exact Hall].
    + eexists. exists w2. eexists. split; [reflexivity|exact Hall].
  - rewrite (bind_raise _ _ _ _ _ Hloop).
    eexists. exists w2. eexists. split; [reflexivity|exact Hall].
Qed.

Lemma write_text_ok fs p c :
  is_dir fs p = false -> is_dir fs (parent p) = true ->
  write_text fs p c = FsOk (fs_set fs p (File c)).
Proof. intros Hp Hparent. unfold write_text. now rewrite Hp, Hparent. Qed.

Lemma write_text_inv fs p c fs' :
  write_text fs p c = FsOk fs' -> fs' = fs_set fs p (File c).
Proof.
  unfold write_text. destruct (is_dir fs p); [discriminate|].
  destruct (is_dir fs (parent p)); [congruence|].
  destruct (is_file fs (parent p)); discriminate.
Qed.

Lemma parent_path_join d name : parent (path_join d name) = d.
Proof. unfold parent, path_join. apply removelast_last. Qed.

Lemma path_join_neq_dir d name : d <> path_join d name.
Proof.
  unfold path_join. intros H. apply (f_equal (@length string)) in H.
  rewrite length_app in H. simpl in H. lia.
Qed.

Lemma path_join_inj d a b : path_join d a = path_join d b -> a = b.
Proof. unfold path_join. intros H. apply app_inv_head in H. congruence. Qed.

Lemma is_dir_set_other fs p n q : q <> p -> is_dir (fs_set fs p n) q = is_dir fs q.
Proof. intros H. unfold is_dir. now rewrite fs_get_set_other. Qed.

Lemma read_text_set fs p c : read_text (fs_set fs p (File c)) p = Some c.
Proof. unfold read_text. now rewrite fs_get_set_same. Qed.

(** Writing an artifact other than [run.json] leaves the directory in
    place and the place of [run.json] as it was. *)
Lemma write_keeps_writable w job name c fs' :
  writable w job -> name <> "run.json" ->
  write_text (disk w) (path_join (artifacts_dir job) name) c = FsOk fs' ->
  writable (with_disk w fs') job.
Proof.
  intros [Hdir Hrun] Hname Hwrite. apply write_text_inv in Hwrite. subst fs'.
  unfold writable, run_json. simpl. split.
  - rewrite is_dir_set_other; [exact Hdir|apply path_join_neq_dir].
  - rewrite is_dir_set_other; [exact Hrun|].
    intros H. apply path_join_inj in H. congruence.
Qed.

Lemma save_artifact_run w id job name c :
  job_of w id = Some job ->
  save_artifact repr id name c w
  = match write_text (disk w) (path_join (artifacts_dir job) name) c with
    | FsOk fs' => (Return (path_join (artifacts_dir job) name), with_disk w fs')
    | FsError code p => (Raise (os_exn repr (host w) code p), w)
    end.
Proof.
  intros Hjob. unfold save_artifact.
  rewrite (bind_return _ _ _ _ _ (get_job_found repr _ _ _ Hjob)).
  unfold bind, on_disk. now destruct (write_text _ _ _).
Qed.

(** The [finally] block on a job whose directory is in place. *)
Lemma persist_run w id job :
  job_of w id = Some job -> writable w job ->
  bind (save_run_metadata repr isoformat json_dumps_indent id) (fun _ => ret tt) w
  = (Return tt,
     with_disk w (fs_set (disk w) (run_json job)
                    (File (json_dumps_indent
                             (model_dump isoformat (sep (host w)) job))))).
Proof.
  intros Hjob [Hdir Hrun]. unfold bind at 1. unfold save_run_metadata.
  rewrite (bind_return (get_job repr id) _ _ _ _ (get_job_found repr _ _ _ Hjob)).
  rewrite (bind_return get_world _ w w w eq_refl).
  rewrite (save_artifact_run _ _ _ _ _ Hjob).
  fold (run_json job). rewrite write_text_ok; [reflexivity|exact Hrun|].
  unfold run_json. now rewrite parent_path_join.
Qed.

(** The handler's [except] block on a job that is executing. *)
Lemma on_exception_run w id job q exc :
  job_of w id = Some job -> queue_of w id = Some q -> state job = EXECUTING ->
  on_exception repr id exc w
  = (Return tt, after_failure w id job q (str_exn repr exc)).
Proof.
  intros Hjob Hq Hstate. unfold on_exception.
  rewrite (fail_job_run repr (ret tt) w id job q _ Hjob Hq); [reflexivity|].
  rewrite Hstate. constructor.
Qed.

(** What the whole handler comes to once its [try] block has raised
    while the job was executing: the job fails, the [ERROR] event with
    the text of the exception is the last of its log and of its queue,
    and [run.json] holds the dump of the job as it then is. *)
Lemma run_when_body_raises (body : M unit) w id exc w1 job1 q1 :
  body w = (Raise exc, w1) ->
  job_of w1 id = Some job1 -> queue_of w1 id = Some q1 ->
  state job1 = EXECUTING -> writable w1 job1 ->
  exists w' job' e,
    try_finally (try_except body (on_exception repr id))
                (bind (save_run_metadata repr isoformat json_dumps_indent id)
                      (fun _ => ret tt)) w
    = (Return tt, w')
    /\ job_of w' id = Some job'
    /\ state job' = FAILED
    /\ events job' = events job1 ++ [e]
    /\ label e = (ERROR, str_exn repr exc)
    /\ queue_of w' id = Some (q1 ++ [e])
    /\ host w' = host w1
    /\ read_text (disk w') (run_json job')
       = Some (json_dumps_indent (model_dump isoformat (sep (host w')) job')).
Proof.
  intros Hbody Hjob1 Hq1 Hstate Hwritable.
  set (msg := str_exn repr exc).
  set (w2 := after_failure w1 id job1 q1 msg).
  set (job2 := failed_job w1 id job1 msg).
  assert (Hjob2 : job_of w2 id = Some job2) by apply job_of_after_failure.
  assert (Hwritable2 : writable w2 job2) by exact Hwritable.
  eexists. exists job2. eexists. split; [|split; [|split; [|split; [|split; [|split; [|split]]]]]].
  - eapply try_finally_run.
    + rewrite (try_except_raise _ _ _ _ _ Hbody).
      apply (on_exception_run _ _ _ _ _ Hjob1 Hq1 Hstate).
    + discriminate.
    + apply (persist_run _ _ _ Hjob2 Hwritable2).
  - exact Hjob2.
  - reflexivity.
  - reflexivity.
  - reflexivity.
  - apply queue_of_after_failure.
  - reflexivity.
  - simpl. apply read_text_set.
Qed.

(** What the whole handler comes to once its [try] block has returned
    with the job complete: [run.json] holds the dump of that job. *)
Lemma run_when_body_returns (body : M unit) w id w2 job2 :
  body w = (Return tt, w2) ->
  job_of w2 id = Some job2 -> writable w2 job2 ->
  exists w',
    try_finally (try_except body (on_exception repr id))
                (bind (save_run_metadata repr isoformat json_dumps_indent id)
                      (fun _ => ret tt)) w
    = (Return tt, w')
    /\ job_of w' id = Some job2
    /\ queue_of w' id = queue_of w2 id
    /\ host w' = host w2
    /\ read_text (disk w') (run_json job2)
       = Some (json_dumps_indent (model_dump isoformat (sep (host w')) job2)).
Proof.
  intros Hbody Hjob2 Hwritable.
  eexists. split; [|split; [|split; [|split]]].
  - eapply try_finally_run.
    + apply (try_except_return _ _ _ _ _ Hbody).
    + discriminate.
    + apply (persist_run _ _ _ Hjob2 Hwritable).
  - exact Hjob2.
  - reflexivity.
  - reflexivity.
  - simpl. apply read_text_set.
Qed.

(** After the loop the [try] block either completes the job or raises
    with the job still executing and its log and queue untouched; the
    directory stays in place either way. *)
Lemma conclude_cases w1 id job1 q1 acc :
  job_of w1 id = Some job1 -> queue_of w1 id = Some q1 ->
  state job1 = EXECUTING -> writable w1 job1 ->
  (exists w2 job2 e,
      conclude repr id acc w1 = (Return tt, w2)
      /\ job_of w2 id = Some job2
      /\ state job2 = COMPLETE
      /\ writable w2 job2
      /\ host w2 = host w1
      /\ events job2 = events job1 ++ [e]
      /\ queue_of w2 id = Some (q1 ++ [e])
      /\ label e = (DONE, "Execution completed successfully"))
  \/ (exists exc w2,
        conclude repr id acc w1 = (Raise exc, w2)
        /\ job_of w2 id = Some job1
        /\ queue_of w2 id = Some q1
        /\ writable w2 job1
        /\ host w2 = host w1).
Proof.
  intros Hjob1 Hq1 Hstate Hwritable. unfold conclude.
  destruct (join_items 0 acc) as [full_output|exc|] eqn:Hjoin.
  2:{ right. exists exc, w1. rewrite (bind_raise _ _ _ exc w1); auto. }
  2:{ exfalso. now apply (join_items_ends acc 0). }
  rewrite (bind_return _ _ w1 full_output w1) by reflexivity.
  pose proof (save_artifact_run w1 id job1 "logs.txt" full_output Hjob1) as Hsave1.
  destruct (write_text (disk w1) (path_join (artifacts_dir job1) "logs.txt") full_output)
    as [fs1|code p] eqn:Hlogs.
  2:{ right. rewrite (bind_raise _ _ _ _ _ Hsave1). eexists. exists w1. auto. }
  rewrite (bind_return _ _ _ _ _ Hsave1).
  pose proof (write_keeps_writable w1 job1 "logs.txt" full_output fs1 Hwritable
                ltac:(discriminate) Hlogs) as Hwritable1.
  set (w1a := with_disk w1 fs1) in *.
  assert (Hjob1a : job_of w1a id = Some job1) by exact Hjob1.
  pose proof (save_artifact_run w1a id job1 "job_summary.md" full_output Hjob1a)
    as Hsave2.
  destruct (write_text (disk w1a) (path_join (artifacts_dir job1) "job_summary.md")
                       full_output) as [fs2|code p] eqn:Hsummary.
  2:{ right. rewrite (bind_raise _ _ _ _ _ Hsave2). eexists. exists w1a. auto. }
  rewrite (bind_return _ _ _ _ _ Hsave2).
  pose proof (write_keeps_writable w1a job1 "job_summary.md" full_output fs2 Hwritable1
                ltac:(discriminate) Hsummary) as Hwritable2.
  set (w1b := with_disk w1a fs2) in *.
  assert (Hjob1b : job_of w1b id = Some job1) by exact Hjob1.
  assert (Hq1b : queue_of w1b id = Some q1) by exact Hq1.
  assert (Hedge : edge (state job1) COMPLETE) by (rewrite Hstate; constructor).
  rewrite (bind_return _ _ _ _ _ (transition_run repr _ _ _ _ Hjob1b Hedge)).
  set (w3 := after_transition w1b id job1 COMPLETE).
  assert (Hjob3 : job_of w3 id = Some (moved w1b job1 COMPLETE))
    by apply job_of_after_transition.
  assert (Hq3 : queue_of w3 id = Some q1) by exact Hq1.
  rewrite (bind_return _ _ _ _ _
             (add_event_run repr _ _ _ _ DONE "Execution completed successfully"
                Hjob3 Hq3)).
  left. eexists. eexists. eexists. split; [reflexivity|].
  unfold after_add_event. rewrite job_of_with_queue, job_of_with_job.
  rewrite queue_of_with_queue.
  split; [reflexivity|]. split; [reflexivity|]. split; [exact Hwritable2|].
  repeat split.
Qed.

End Calls.
End ExecuteFacts.

Import execute ExecuteFacts.

(** On a job that is executing and whose artifacts directory is in
    place: whenever the draining of the stream raises, the handler
    returns normally, the job is [FAILED], the last event of its log and
    of its queue is an [ERROR] event whose payload is the text of the
    exception, and [run.json] holds the dump of the job as it then is,
    state, timestamps and events; and however the handler ends, short of
    never ending, it returns with the job [COMPLETE] or [FAILED] and
    [run.json] holding the dump of that job. *)
Lemma execution_failure_recorded_and_persisted :
  forall (repr : string -> string) (isoformat : datetime -> string)
         (json_dumps_indent : Py.value -> string)
         (json_loads : string -> option Py.value)
         (json_dumps str_other : Py.value -> string)
         (build_execute_prompt : string -> string -> string)
         (w : World) (id : string) (job : Job) (q : Queue)
         (plan_markdown0 project_path0 sid : string),
    job_of w id = Some job ->
    queue_of w id = Some q ->
    state job = EXECUTING ->
    writable w job ->
    (forall exc w1,
        drain repr json_loads json_dumps str_other id
              (build_execute_prompt plan_markdown0 project_path0) project_path0 sid w
        = (Raise exc, w1) ->
        exists w' job' evs e,
          _run_execution repr isoformat json_dumps_indent json_loads json_dumps
                         str_other build_execute_prompt id plan_markdown0
                         project_path0 sid w
          = (Return tt, w')
          /\ job_of w' id = Some job'
          /\ state job' = FAILED
          /\ events job' = events job ++ evs ++ [e]
          /\ queue_of w' id = Some (q ++ evs ++ [e])
          /\ label e = (ERROR, str_exn repr exc)
          /\ read_text (disk w') (run_json job')
             = Some (json_dumps_indent (model_dump isoformat (sep (host w')) job')))
    /\ (forall r w',
          _run_execution repr isoformat json_dumps_indent json_loads json_dumps
                         str_other build_execute_prompt id plan_markdown0
                         project_path0 sid w
          = (r, w') ->
          r <> Forever ->
          r = Return tt
          /\ exists job',
               job_of w' id = Some job'
               /\ (state job' = COMPLETE \/ state job' = FAILED)
               /\ read_text (disk w') (run_json job')
                  = Some (json_dumps_indent
                            (model_dump isoformat (sep (host w')) job'))).
Proof.
  intros repr isoformat json_dumps_indent json_loads json_dumps str_other
         build_execute_prompt w id job q plan_markdown0 project_path0 sid
         Hjob Hq Hstate Hwritable.
  set (prompt := build_execute_prompt plan_markdown0 project_path0).
  destruct (drain_grows repr json_loads json_dumps str_other w id job q prompt
              project_path0 sid Hjob Hq)
    as (r0 & w1 & evs & Hdrain & job1 & Hjob1 & Hq1 & Hev1 & Hstate1 & Hdir1
        & Hdisk1 & Hhost1).
  assert (Hwritable1 : writable w1 job1).
  { unfold writable, run_json. rewrite Hdisk1, Hdir1. exact Hwritable. }
  assert (Hexecuting1 : state job1 = EXECUTING) by congruence.
  split.
  - intros exc w1' Hraise. fold prompt in Hraise.
    rewrite Hdrain in Hraise. injection Hraise as -> <-.
    destruct (run_when_body_raises repr isoformat json_dumps_indent
                (bind (drain repr json_loads json_dumps str_other id prompt
                             project_path0 sid)
                      (conclude repr id))
                w id exc w1 job1 (q ++ evs)
                (bind_raise _ _ _ _ _ Hdrain) Hjob1 Hq1 Hexecuting1 Hwritable1)
      as (w' & job' & e & Hrun & Hjob' & Hstate' & Hev' & Hlabel & Hq' & _ & Hread).
    exists w', job', evs, e. unfold _run_execution. fold prompt.
    split; [exact Hrun|].
    rewrite Hev', Hev1, Hq', <- !app_assoc. auto 10.
  - intros r w' Hrun Hr. unfold _run_execution in Hrun. fold prompt in Hrun.
    destruct r0 as [acc|exc|].
    + destruct (conclude_cases repr w1 id job1 (q ++ evs) acc Hjob1 Hq1
                  Hexecuting1 Hwritable1)
        as [(w2 & job2 & e & Hconclude & Hjob2 & Hstate2 & Hwritable2 & _)
           |(exc & w2 & Hconclude & Hjob2 & Hq2 & Hwritable2 & _)].
      * destruct (run_when_body_returns repr isoformat json_dumps_indent
                    (bind (drain repr json_loads json_dumps str_other id prompt
                                 project_path0 sid)
                          (conclude repr id))
                    w id w2 job2) as (w3 & Hall & Hjob3 & _ & _ & Hread);
          [now rewrite (bind_return _ _ _ _ _ Hdrain)|exact Hjob2|exact Hwritable2|].
        assert (Heq : (r, w') = (Return tt, w3)) by (rewrite <- Hrun; exact Hall).
        injection Heq as -> ->.
        split; [reflexivity|]. exists job2. auto.
      * destruct (run_when_body_raises repr isoformat json_dumps_indent
                    (bind (drain repr json_loads json_dumps str_other id prompt
                                 project_path0 sid)
                          (conclude repr id))
                    w id exc w2 job1 (q ++ evs))
          as (w3 & job3 & e & Hall & Hjob3 & Hstate3 & _ & _ & _ & _ & Hread);
          [now rewrite (bind_return _ _ _ _ _ Hdrain)|exact Hjob2|exact Hq2
          |exact Hexecuting1|exact Hwritable2|].
        assert (Heq : (r, w') = (Return tt, w3)) by (rewrite <- Hrun; exact Hall).
        injection Heq as -> ->.
        split; [reflexivity|]. exists job3. auto.
    + destruct (run_when_body_raises repr isoformat json_dumps_indent
                  (bind (drain repr json_loads json_dumps str_other id prompt
                               project_path0 sid)
                        (conclude repr id))
                  w id exc w1 job1 (q ++ evs)
                  (bind_raise _ _ _ _ _ Hdrain) Hjob1 Hq1 Hexecuting1 Hwritable1)
        as (w3 & job3 & e & Hall & Hjob3 & Hstate3 & _ & _ & _ & _ & Hread).
      assert (Heq : (r, w') = (Return tt, w3)) by (rewrite <- Hrun; exact Hall).
      injection Heq as -> ->.
      split; [reflexivity|]. exists job3. auto.
    + exfalso. apply Hr.
      assert (Heq : (r, w') = (Forever, w1)); [|congruence].
      rewrite <- Hrun. apply try_finally_forever.
      unfold try_except. now rewrite (bind_forever _ _ _ _ Hdrain).
Qed.

(** An execution on a host without the agent CLI: the stream raises
    [FileNotFoundError] at its first step, and the handler fails the job
    and writes [run.json]. *)
Lemma agent_missing_during_execution :
  job_of (executing bare_host) "0123456789ab" = Some executing_job
  /\ queue_of (executing bare_host) "0123456789ab" = Some []
  /\ writable (executing bare_host) executing_job
  /\ exists w' job' evs e,
       _run_execution Worlds.repr Worlds.isoformat summary_dumps (decoder [])
                      scenario_dumps scenario_str execute_prompt
                      "0123456789ab" "# Plan" "/srv/project" "sess-1"
                      (executing bare_host)
       = (Return tt, w')
       /\ job_of w' "0123456789ab" = Some job'
       /\ state job' = FAILED
       /\ events job' = evs ++ [e]
       /\ queue_of w' "0123456789ab" = Some (evs ++ [e])
       /\ label e = (ERROR, not_found_text)
       /\ read_text (disk w') (run_json job')
          = Some (summary_dumps (model_dump Worlds.isoformat "/" job')).
Proof.
  assert (Hjob : job_of (executing bare_host) "0123456789ab" = Some executing_job)
    by reflexivity.
  assert (Hq : queue_of (executing bare_host) "0123456789ab" = Some [])
    by reflexivity.
  assert (Hwritable : writable (executing bare_host) executing_job)
    by (split; reflexivity).
  split; [exact Hjob|]. split; [exact Hq|]. split; [exact Hwritable|].
  destruct (execution_failure_recorded_and_persisted Worlds.repr
              Worlds.isoformat summary_dumps (decoder []) scenario_dumps
              scenario_str execute_prompt (executing bare_host) "0123456789ab"
              executing_job [] "# Plan" "/srv/project" "sess-1"
              Hjob Hq eq_refl Hwritable) as (Hfailure & _).
  destruct (Hfailure (FileNotFoundError not_found_text)
              (world_of (drain Worlds.repr (decoder []) scenario_dumps scenario_str
                               "0123456789ab" (execute_prompt "# Plan" "/srv/project")
                               "/srv/project" "sess-1" (executing bare_host))))
    as (w' & job' & evs & e & Hrun & Hjob' & Hstate & Hevents & Hqueue & Hlabel & Hread).
  { now apply run_eq. }
  exists w', job', evs, e.
  assert (Hhost : host w' = bare_host).
  { assert (Hw : w' = world_of (_run_execution Worlds.repr Worlds.isoformat
                                  summary_dumps (decoder []) scenario_dumps
                                  scenario_str execute_prompt "0123456789ab"
                                  "# Plan" "/srv/project" "sess-1"
                                  (executing bare_host)))
      by now rewrite Hrun.
    now rewrite Hw. }
  rewrite Hhost in Hread. repeat split; assumption.
Defined.

(** What [run.json] then reads, in the short rendering: the job failed
    after its first step. *)
Lemma run_json_after_missing_agent :
  read_text
    (disk (world_of
             (_run_execution Worlds.repr Worlds.isoformat summary_dumps (decoder [])
                             scenario_dumps scenario_str execute_prompt
                             "0123456789ab" "# Plan" "/srv/project" "sess-1"
                             (executing bare_host))))
    [""; "srv"; "jobs"; "0123456789ab"; "run.json"]
  = Some "failed:step,error".
Proof. reflexivity. Qed.

(** The scenario of the specification: the stream yields two partial
    texts and the final answer and the process exits cleanly.  The job
    completes, both partial texts are [LOG] events, the marker is not,
    and the logs hold the partial texts followed by the final answer. *)
Lemma execution_scenario :
  fst (_run_execution Worlds.repr Worlds.isoformat summary_dumps
                      (decoder scenario_table) scenario_dumps scenario_str
                      execute_prompt "0123456789ab" "# Plan" "/srv/project" "sess-1"
                      (executing (agent_host "" scenario_lines)))
  = Return tt
  /\ option_map
       (fun job => (state job, map label (events job)))
       (job_of (world_of
                  (_run_execution Worlds.repr Worlds.isoformat summary_dumps
                                  (decoder scenario_table) scenario_dumps scenario_str
                                  execute_prompt "0123456789ab" "# Plan"
                                  "/srv/project" "sess-1"
                                  (executing (agent_host "" scenario_lines))))
               "0123456789ab")
     = Some (COMPLETE,
             [ (STEP, "Starting Cursor agent in execute mode (streaming)");
               (LOG, "partial one"); (LOG, "partial two");
               (DONE, "Execution completed successfully") ])
  /\ read_text
       (disk (world_of
                (_run_execution Worlds.repr Worlds.isoformat summary_dumps
                                (decoder scenario_table) scenario_dumps scenario_str
                                execute_prompt "0123456789ab" "# Plan"
                                "/srv/project" "sess-1"
                                (executing (agent_host "" scenario_lines)))))
       [""; "srv"; "jobs"; "0123456789ab"; "logs.txt"]
     = Some "partial onepartial twoall done".
Proof. repeat split. Qed.

(** A plan request on a host without the agent CLI. *)
Lemma C3_plan_without_agent :
  no_file_on (disk (fresh bare_host distinct_uuids))
             (next_dir (fresh bare_host distinct_uuids))
  /\ exists w' job,
       plan.create_plan Worlds.repr strip_nothing (decoder []) strict_AgentResult
                        PlanRequest.objective plan_request
                        (fresh bare_host distinct_uuids)
       = (Raise (FileNotFoundError not_found_text), w')
       /\ job_of w' "0123456789ab" = Some job
       /\ state job = PLAN_RUNNING
       /\ events job = []
       /\ queue_of w' "0123456789ab" = Some [].
Proof.
  assert (Hfree : no_file_on (disk (fresh bare_host distinct_uuids))
                             (next_dir (fresh bare_host distinct_uuids))).
  { intros k _. reflexivity. }
  split; [exact Hfree|].
  exact (C3_plan_agent_unavailable_not_recorded Worlds.repr strip_nothing
           (decoder []) strict_AgentResult PlanRequest.objective
           (fresh bare_host distinct_uuids) plan_request Hfree eq_refl eq_refl).
Defined.

(** C4, where the code departs from it.  A process that cannot start
    makes [Popen] raise in the worker, before the sentinel is put: the
    generator polls an empty queue without end and the exception never
    reaches the handler.  So on a job that is executing, with its
    artifacts directory in place, the handler never finishes: the job
    stays in [EXECUTING], the one [STEP] event is all that is recorded,
    no [ERROR] event among it, and the disk is as before, [run.json] not
    written. *)
Theorem C4_unstartable_process_never_recorded :
  forall (repr : string -> string) (isoformat : datetime -> string)
         (json_dumps_indent : Py.value -> string)
         (json_loads : string -> option Py.value)
         (json_dumps str_other : Py.value -> string)
         (build_execute_prompt : string -> string -> string)
         (w : World) (id : string) (job : Job) (q : Queue)
         (plan_markdown0 project_path0 sid : string) (base_cmd : list string)
         (msg : string),
    job_of w id = Some job ->
    queue_of w id = Some q ->
    state job = EXECUTING ->
    writable w job ->
    resolved w = Some base_cmd ->
    subprocess_Popen (host w)
      (_build_args base_cmd "" sid
                   (build_execute_prompt plan_markdown0 project_path0) true)
      project_path0 = CannotStart msg ->
    exists w' job' e,
      _run_execution repr isoformat json_dumps_indent json_loads json_dumps
                     str_other build_execute_prompt id plan_markdown0
                     project_path0 sid w
      = (Forever, w')
      /\ job_of w' id = Some job'
      /\ state job' = EXECUTING
      /\ events job' = events job ++ [e]
      /\ queue_of w' id = Some (q ++ [e])
      /\ label e = (STEP, "Starting Cursor agent in execute mode (streaming)")
      /\ disk w' = disk w
      /\ read_text (disk w') (run_json job') = read_text (disk w) (run_json job).
Proof.
  intros repr isoformat json_dumps_indent json_loads json_dumps str_other
         build_execute_prompt w id job q plan_markdown0 project_path0 sid
         base_cmd msg Hjob Hq Hstate _ Hcmd Hstart.
  set (prompt := build_execute_prompt plan_markdown0 project_path0) in *.
  set (e := stamped w STEP "Starting Cursor agent in execute mode (streaming)").
  set (w1 := after_add_event w id job q e).
  assert (Hdrain : drain repr json_loads json_dumps str_other id prompt
                         project_path0 sid w = (Forever, w1)).
  { unfold drain.
    rewrite (bind_return _ _ _ _ _ (add_event_run repr _ _ _ _ STEP _ Hjob Hq)).
    fold e. fold w1.
    assert (Hstream :
              invoke_cursor_streaming json_loads json_dumps str_other prompt
                                      project_path0 sid w1
              = (Return ([], Polling), w1)).
    { unfold invoke_cursor_streaming, try_except, bind.
      rewrite find_agent_run.
      assert (Hcmd1 : resolved w1 = Some base_cmd) by exact Hcmd.
      rewrite Hcmd1. unfold _stream_blocking, bind, get_world.
      assert (Hstart1 : subprocess_Popen (host w1)
                          (_build_args base_cmd "" sid prompt true) project_path0
                        = CannotStart msg) by exact Hstart.
      now rewrite Hstart1. }
    rewrite (bind_return _ _ _ _ _ Hstream). reflexivity. }
  exists w1, (append_event job e), e. split; [|split; [|split; [|split]]].
  - unfold _run_execution. fold prompt. apply try_finally_forever.
    unfold try_except. now rewrite (bind_forever _ _ _ _ Hdrain).
  - unfold w1, after_add_event. rewrite job_of_with_queue. apply job_of_with_job.
  - exact Hstate.
  - reflexivity.
  - split; [unfold w1, after_add_event; apply queue_of_with_queue|].
    split; [reflexivity|]. split; reflexivity.
Qed.

(** An execution on a host where the process cannot start. *)
Lemma C4_process_cannot_start :
  job_of (executing stuck_host) "0123456789ab" = Some executing_job
  /\ queue_of (executing stuck_host) "0123456789ab" = Some []
  /\ writable (executing stuck_host) executing_job
  /\ exists w' job' e,
       _run_execution Worlds.repr Worlds.isoformat summary_dumps (decoder [])
                      scenario_dumps scenario_str execute_prompt
                      "0123456789ab" "# Plan" "/srv/project" "sess-1"
                      (executing stuck_host)
       = (Forever, w')
       /\ job_of w' "0123456789ab" = Some job'
       /\ state job' = EXECUTING
       /\ events job' = [e]
       /\ label e = (STEP, "Starting Cursor agent in execute mode (streaming)")
       /\ read_text (disk w') [""; "srv"; "jobs"; "0123456789ab"; "run.json"] = None.
Proof.
  assert (Hjob : job_of (executing stuck_host) "0123456789ab" = Some executing_job)
    by reflexivity.
  assert (Hq : queue_of (executing stuck_host) "0123456789ab" = Some [])
    by reflexivity.
  assert (Hwritable : writable (executing stuck_host) executing_job)
    by (split; reflexivity).
  split; [exact Hjob|]. split; [exact Hq|]. split; [exact Hwritable|].
  destruct (C4_unstartable_process_never_recorded Worlds.repr
              Worlds.isoformat summary_dumps (decoder []) scenario_dumps
              scenario_str execute_prompt (executing stuck_host) "0123456789ab"
              executing_job [] "# Plan" "/srv/project" "sess-1"
              ["/usr/local/bin/agent"]
              "[Errno 2] No such file or directory: '/srv/project'"
              Hjob Hq eq_refl Hwritable eq_refl eq_refl)
    as (w' & job' & e & Hrun & Hjob' & Hstate & Hevents & _ & Hlabel & Hdisk & _).
  exists w', job', e. rewrite Hdisk. auto 10.
Defined.

(* ================================================================= *)
(** ** The handlers around the execution *)

Module BoundaryFacts.
Import events.

(** The stream consumer yields the queued events in order, up to and
    including the first terminal one, and leaves the rest queued; with
    no terminal event queued it yields them all and waits. *)
Lemma pump_prefix q :
  exists consumed,
    q = consumed ++ snd (fst (pump q))
    /\ fst (fst (pump q)) = map rendered consumed
    /\ if snd (pump q) then
         exists before e,
           consumed = before ++ [e]
           /\ terminal (event_type e) = true
           /\ forallb (fun x => negb (terminal (event_type x))) before = true
       else
         snd (fst (pump q)) = []
         /\ forallb (fun x => negb (terminal (event_type x))) consumed = true.
Proof.
  induction q as [|e q IH]; simpl.
  - exists []. auto.
  - destruct (terminal (event_type e)) eqn:Hterminal; simpl.
    + exists [e]. split; [reflexivity|]. split; [reflexivity|].
      exists [], e. auto.
    + destruct IH as (consumed & Hq & Hitems & Hstop).
      destruct (pump q) as [[items remaining] stopped]. simpl in *.
      exists (e :: consumed). split; [now rewrite Hq at 1|].
      split; [now rewrite Hitems|].
      destruct stopped.
      * destruct Hstop as (before & last & -> & Hlast & Hbefore).
        exists (e :: before), last. simpl. rewrite Hterminal, Hbefore. auto.
      * destruct Hstop as (-> & Hall). simpl. rewrite Hterminal, Hall. auto.
Qed.

Section Calls.
Variable repr : string -> string.

(** [execute_plan] on the plan of an approved job: the job is moved to
    [EXECUTING] and the background task is scheduled with its fields. *)
Lemma execute_plan_schedules w p job :
  first_with_plan_id (Py.values (_jobs (manager w))) p = Some job ->
  job_of w (job_id job) = Some job ->
  state job = APPROVED ->
  execute_plan repr p w
  = (Return (job_id job,
             mkTask (job_id job) (plan_markdown job) (project_path job)
                    (models.session_id job)),
     after_transition w (job_id job) job EXECUTING)
  /\ option_map state
       (job_of (after_transition w (job_id job) job EXECUTING) (job_id job))
     = Some EXECUTING.
Proof.
  intros Hplan Hjob Hstate.
  assert (Hedge : edge (state job) EXECUTING) by (rewrite Hstate; constructor).
  split.
  - unfold execute_plan.
    erewrite bind_return;
      [|apply try_except_return; rewrite get_job_by_plan_id_run, Hplan;
        reflexivity].
    erewrite bind_return;
      [|apply try_except_return; apply (transition_run repr _ _ _ _ Hjob Hedge)].
    erewrite bind_return;
      [|apply get_job_found; apply job_of_after_transition].
    reflexivity.
  - now rewrite job_of_after_transition.
Qed.

(** [execute_plan] on the plan of a job that is not approved: a conflict,
    and nothing changes. *)
Lemma execute_plan_conflict w p job :
  first_with_plan_id (Py.values (_jobs (manager w))) p = Some job ->
  job_of w (job_id job) = Some job ->
  state job <> APPROVED ->
  execute_plan repr p w
  = (Raise (HTTPException 409
              ("Cannot execute: job is in state "
                 ++ repr (JobState_value (state job)) ++ ", expected 'approved'")),
     w).
Proof.
  intros Hplan Hjob Hstate.
  assert (Hedge : ~ edge (state job) EXECUTING).
  { intros H. inversion H. congruence. }
  unfold execute_plan.
  erewrite bind_return;
    [|apply try_except_return; rewrite get_job_by_plan_id_run, Hplan;
      reflexivity].
  erewrite bind_raise; [reflexivity|].
  erewrite try_except_raise;
    [|apply (transition_rejected repr _ _ _ _ Hjob Hedge)].
  simpl. now rewrite (bind_return _ _ _ _ _ (get_job_found repr _ _ _ Hjob)).
Qed.

End Calls.
End BoundaryFacts.

(* ================================================================= *)
(** ** The invariant of the registry *)

Module RegistryFacts.
Import Registry.

Section Dicts.
Context {V W : Type}.

Lemma keys_set_eq (d1 : Py.dict V) (d2 : Py.dict W) k v1 v2 :
  Py.keys d1 = Py.keys d2 ->
  Py.keys (Py.set d1 k v1) = Py.keys (Py.set d2 k v2).
Proof.
  unfold Py.keys. revert d2.
  induction d1 as [|[k1 x1] d1 IH]; intros [|[k2 x2] d2]; simpl;
    try discriminate; [reflexivity|].
  intros [= -> H]. destruct (String.eqb k2 k); simpl.
  - now rewrite H.
  - f_equal. now apply IH.
Qed.

Lemma in_keys_set (d : Py.dict V) k v x :
  In x (Py.keys (Py.set d k v)) <-> x = k \/ In x (Py.keys d).
Proof.
  unfold Py.keys. induction d as [|[k0 v0] d IH]; simpl.
  - intuition.
  - destruct (String.eqb k0 k) eqn:E; simpl.
    + apply String.eqb_eq in E. subst k0. intuition.
    + rewrite IH. intuition.
Qed.

Lemma NoDup_keys_set (d : Py.dict V) k v :
  NoDup (Py.keys d) -> NoDup (Py.keys (Py.set d k v)).
Proof.
  induction d as [|[k0 v0] d IH]; simpl; intros Hd.
  - constructor; [intros []|constructor].
  - inversion Hd as [|? ? Hnotin Hrest]; subst.
    destruct (String.eqb k0 k) eqn:E.
    + apply String.eqb_eq in E. subst k0. now constructor.
    + constructor; [|now apply IH].
      fold (Py.keys (Py.set d k v)). rewrite in_keys_set.
      apply String.eqb_neq in E. simpl. intros [Heq | Hin]; [congruence|contradiction].
Qed.

Lemma get_none_keys (d : Py.dict V) k : Py.get d k = None <-> ~ In k (Py.keys d).
Proof.
  unfold Py.keys. induction d as [|[k0 v0] d IH]; simpl.
  - intuition.
  - destruct (String.eqb k0 k) eqn:E.
    + apply String.eqb_eq in E. subst k0. split; [discriminate|].
      intros H. exfalso. apply H. now left.
    + apply String.eqb_neq in E. rewrite IH. intuition.
Qed.

Lemma get_of_in (d : Py.dict V) k v :
  NoDup (Py.keys d) -> In (k, v) d -> Py.get d k = Some v.
Proof.
  induction d as [|[k0 v0] d IH]; simpl; intros Hd Hin; [contradiction|].
  inversion Hd as [|? ? Hnotin Hrest]; subst.
  destruct Hin as [[= -> ->] | Hin].
  - now rewrite String.eqb_refl.
  - destruct (String.eqb k0 k) eqn:E; [|now apply IH].
    apply String.eqb_eq in E. subst k0. exfalso. apply Hnotin.
    change k with (fst (k, v)). now apply in_map.
Qed.

Lemma in_values (d : Py.dict V) v : In v (Py.values d) -> exists k, In (k, v) d.
Proof.
  unfold Py.values. rewrite in_map_iff. intros ([k v'] & Hv & Hin).
  simpl in Hv. subst v'. now exists k.
Qed.

End Dicts.

Lemma same_keys_get {V W} (d1 : Py.dict V) (d2 : Py.dict W) k :
  Py.keys d1 = Py.keys d2 -> (Py.get d1 k = None <-> Py.get d2 k = None).
Proof. intros H. now rewrite !get_none_keys, H. Qed.

Lemma consistent_manager w w' :
  manager w' = manager w -> consistent w -> consistent w'.
Proof. unfold consistent, job_of. now intros ->. Qed.

Lemma consistent_queue w id job :
  consistent w -> job_of w id = Some job -> exists q, queue_of w id = Some q.
Proof.
  intros (Hkeys & _) Hjob. unfold job_of in Hjob. unfold queue_of.
  destruct (Py.get (_queues (manager w)) id) as [q|] eqn:E; [now exists q|].
  apply (same_keys_get _ _ id Hkeys) in E. congruence.
Qed.

Lemma consistent_job w id q :
  consistent w -> queue_of w id = Some q -> exists job, job_of w id = Some job.
Proof.
  intros (Hkeys & _) Hq. unfold queue_of in Hq. unfold job_of.
  destruct (Py.get (_jobs (manager w)) id) as [job|] eqn:E; [now exists job|].
  apply (same_keys_get _ _ id Hkeys) in E. congruence.
Qed.

(** Registering a job and a queue under one id. *)
Lemma consistent_register w id job q :
  consistent w -> job_id job = id ->
  artifacts_dir job = path_join (artifacts_root (manager w)) id ->
  consistent (with_queue (with_job w id job) id q).
Proof.
  intros (Hkeys & Hnodup & Hown) Hid Hdir. unfold consistent, job_of.
  simpl. split; [|split].
  - now apply keys_set_eq.
  - now apply NoDup_keys_set.
  - intros k j Hj. destruct (String.eqb k id) eqn:E.
    + apply String.eqb_eq in E. subst k. rewrite get_set_same in Hj.
      injection Hj as <-. auto.
    + apply String.eqb_neq in E. rewrite get_set_other in Hj by exact E.
      now apply Hown.
Qed.

(** Replacing a registered job by one with the same id and directory. *)
Lemma consistent_with_job w id job old :
  consistent w -> job_of w id = Some old ->
  job_id job = job_id old -> artifacts_dir job = artifacts_dir old ->
  consistent (with_job w id job).
Proof.
  intros (Hkeys & Hnodup & Hown) Hold Hid Hdir. unfold consistent, job_of.
  simpl. destruct (Hown _ _ Hold) as (Hid0 & Hdir0). split; [|split].
  - unfold job_of in Hold. now rewrite (keys_set_present _ _ _ _ Hold).
  - now apply NoDup_keys_set.
  - intros k j Hj. destruct (String.eqb k id) eqn:E.
    + apply String.eqb_eq in E. subst k. rewrite get_set_same in Hj.
      injection Hj as <-. split; congruence.
    + apply String.eqb_neq in E. rewrite get_set_other in Hj by exact E.
      now apply Hown.
Qed.

Lemma consistent_with_queue w id q old :
  consistent w -> queue_of w id = Some old -> consistent (with_queue w id q).
Proof.
  intros (Hkeys & Hnodup & Hown) Hold. unfold consistent, job_of. simpl.
  split; [|split; [exact Hnodup|exact Hown]].
  unfold queue_of in Hold. now rewrite (keys_set_present _ _ _ _ Hold).
Qed.

(** The job a lookup by plan id finds is registered under its own id. *)
Lemma planned_registered w p job :
  consistent w -> planned w p = Some job ->
  job_of w (job_id job) = Some job /\ plan_id job = p.
Proof.
  intros (_ & Hnodup & Hown) Hplan. unfold planned in Hplan.
  assert (Hin : In job (Py.values (_jobs (manager w))) /\ plan_id job = p).
  { revert Hplan. generalize (Py.values (_jobs (manager w))).
    induction l as [|j l IH]; simpl; [discriminate|].
    destruct (String.eqb (plan_id j) p) eqn:E.
    - intros [= ->]. apply String.eqb_eq in E. auto.
    - intros H. destruct (IH H). auto. }
  destruct Hin as (Hin & Hp). split; [|exact Hp].
  destruct (in_values _ _ Hin) as (k & Hk).
  pose proof (get_of_in _ _ _ Hnodup Hk) as Hget.
  destruct (Hown k job Hget) as (Hid & _). now rewrite Hid.
Qed.

(** *** Calls that keep the invariant *)

Lemma preserves_frame {A} (c : M A) :
  (forall w, manager (snd (c w)) = manager w) -> preserves c.
Proof. intros H w Hw. now apply (consistent_manager w). Qed.

Lemma preserves_ret {A} (a : A) : preserves (ret a).
Proof. now intros w Hw. Qed.

Lemma preserves_raise {A} e : preserves (@raise A e).
Proof. now intros w Hw. Qed.

Lemma preserves_forever {A} : preserves (@forever A).
Proof. now intros w Hw. Qed.

Lemma preserves_lift {A} (r : outcome A) : preserves (lift r).
Proof. now intros w Hw. Qed.

Lemma preserves_get_world : preserves get_world.
Proof. now intros w Hw. Qed.

Lemma preserves_now : preserves now.
Proof. now apply preserves_frame. Qed.

Lemma preserves_uuid4 : preserves uuid4.
Proof. now apply preserves_frame. Qed.

Lemma preserves_on_disk repr op : preserves (on_disk repr op).
Proof.
  apply preserves_frame. intros w. unfold on_disk. now destruct (op (disk w)).
Qed.

Lemma preserves_bind {A B} (c : M A) (k : A -> M B) :
  preserves c -> (forall a, preserves (k a)) -> preserves (bind c k).
Proof.
  intros Hc Hk w Hw. unfold bind. specialize (Hc w Hw).
  destruct (c w) as [[a|e|] w1]; simpl in *; auto. now apply Hk.
Qed.

(** Reading the world and going on with what was read. *)
Lemma preserves_reading {B} (k : World -> M B) :
  (forall w, consistent w -> consistent (snd (k w w))) ->
  preserves (bind get_world k).
Proof. intros Hk w Hw. unfold bind, get_world. now apply Hk. Qed.

Lemma preserves_try_except {A} (c : M A) (h : exn -> M A) :
  preserves c -> (forall e, preserves (h e)) -> preserves (try_except c h).
Proof.
  intros Hc Hh w Hw. unfold try_except. specialize (Hc w Hw).
  destruct (c w) as [[a|e|] w1]; simpl in *; auto. now apply Hh.
Qed.

Lemma preserves_try_finally {A} (c : M A) (f : M unit) :
  preserves c -> preserves f -> preserves (try_finally c f).
Proof.
  intros Hc Hf w Hw. unfold try_finally. specialize (Hc w Hw).
  destruct (c w) as [[a|e|] w1]; simpl in *; auto;
    specialize (Hf w1 Hc); destruct (f w1) as [[[]|e'|] w2]; simpl in *; auto.
Qed.

Lemma preserves_assign id update :
  (forall j, job_id (update j) = job_id j
             /\ artifacts_dir (update j) = artifacts_dir j) ->
  preserves (assign id update).
Proof.
  intros Hupdate w Hw. unfold assign, modify_manager. simpl.
  destruct (Py.get (_jobs (manager w)) id) as [job|] eqn:E.
  - destruct (Hupdate job). now apply (consistent_with_job w id _ job).
  - now destruct w as [[root jobs queues] fs h c t u d].
Qed.

Section Calls.
Variable repr : string -> string.
Variable isoformat : datetime -> string.
Variable json_dumps_indent : Py.value -> string.

Lemma preserves_get_job id : preserves (get_job repr id).
Proof.
  apply preserves_frame. intros w.
  destruct (job_of w id) as [job|] eqn:E.
  - now rewrite (get_job_found repr _ _ _ E).
  - now rewrite (get_job_missing repr _ _ E).
Qed.

Lemma preserves_get_job_by_plan_id p : preserves (get_job_by_plan_id repr p).
Proof.
  apply preserves_frame. intros w. rewrite get_job_by_plan_id_run.
  now destruct (first_with_plan_id _ _).
Qed.

Lemma preserves_create_job p : preserves (create_job repr p).
Proof.
  intros w Hw. destruct (mkdir (disk w) (next_dir w)) as [fs'|code q] eqn:Hmk.
  - rewrite (create_job_eq repr _ _ _ Hmk). simpl. unfold after_create_job.
    apply consistent_register; [|reflexivity|reflexivity].
    now apply (consistent_manager w).
  - destruct (create_job_fails repr w p code q Hmk) as (w' & Hrun & Hm & _).
    rewrite Hrun. now apply (consistent_manager w).
Qed.

Lemma preserves_transition id target : preserves (transition repr id target).
Proof.
  intros w Hw. destruct (job_of w id) as [job|] eqn:Hjob.
  - destruct (edge_dec (state job) target) as [Hedge|Hedge].
    + rewrite (transition_accepted repr _ _ _ _ Hjob Hedge). simpl.
      apply (consistent_manager (with_job w id
               (set_updated_at (set_state job target) (clock w (ticks w)))));
        [reflexivity|].
      now apply (consistent_with_job w id _ job).
    + now rewrite (transition_rejected repr _ _ _ _ Hjob Hedge).
  - now rewrite (transition_missing repr _ _ _ Hjob).
Qed.

Lemma preserves_add_event id t d : preserves (add_event repr id t d).
Proof.
  intros w Hw. destruct (job_of w id) as [job|] eqn:Hjob.
  - destruct (consistent_queue w id job Hw Hjob) as (q & Hq).
    rewrite (add_event_run repr _ _ _ _ t d Hjob Hq). simpl.
    unfold after_add_event. destruct Hw as (Hkeys & Hnodup & Hown).
    destruct (Hown _ _ Hjob) as (Hid & Hdir).
    apply consistent_register; [|exact Hid|exact Hdir].
    apply (consistent_manager w); [reflexivity|].
    exact (conj Hkeys (conj Hnodup Hown)).
  - unfold add_event. now rewrite (bind_raise _ _ _ _ _ (get_job_missing repr _ _ Hjob)).
Qed.

Lemma preserves_queue_get id : preserves (queue_get id).
Proof.
  intros w Hw. destruct (queue_of w id) as [[|e rest]|] eqn:Hq.
  - now rewrite (queue_get_empty _ _ Hq).
  - rewrite (queue_get_some _ _ _ _ Hq). now apply (consistent_with_queue w id _ (e :: rest)).
  - unfold queue_get, bind, get_world. unfold queue_of in Hq. now rewrite Hq.
Qed.

Lemma preserves_save_artifact id name c : preserves (save_artifact repr id name c).
Proof.
  unfold save_artifact. apply preserves_bind; [apply preserves_get_job|].
  intros job. apply preserves_bind; [apply preserves_on_disk|].
  intros _. apply preserves_ret.
Qed.

Lemma preserves_save_run_metadata id :
  preserves (save_run_metadata repr isoformat json_dumps_indent id).
Proof.
  unfold save_run_metadata. apply preserves_bind; [apply preserves_get_job|].
  intros job. apply preserves_bind; [apply preserves_get_world|].
  intros w. apply preserves_save_artifact.
Qed.

End Calls.
End RegistryFacts.

Import Registry RegistryFacts.

(** X1.  The registry keeps its shape through every method of the job
    manager, however the call ends: the jobs and the queues have the
    same ids, and every job sits under its own [job_id] with the
    artifacts root joined with that id as its directory. *)
Theorem registry_methods_keep_consistency :
  forall (repr : string -> string) (isoformat : datetime -> string)
         (json_dumps_indent : Py.value -> string) (w : World),
    consistent w ->
    (forall p, consistent (world_of (create_job repr p w)))
    /\ (forall id target, consistent (world_of (transition repr id target w)))
    /\ (forall id t d, consistent (world_of (add_event repr id t d w)))
    /\ (forall id, consistent (world_of (queue_get id w)))
    /\ (forall id name c, consistent (world_of (save_artifact repr id name c w)))
    /\ (forall id,
          consistent (world_of (save_run_metadata repr isoformat json_dumps_indent
                                                  id w))).
Proof.
  intros repr isoformat json_dumps_indent w Hw. unfold world_of.
  split; [|split; [|split; [|split; [|split]]]]; intros.
  - now apply preserves_create_job.
  - now apply preserves_transition.
  - now apply preserves_add_event.
  - now apply preserves_queue_get.
  - now apply preserves_save_artifact.
  - now apply preserves_save_run_metadata.
Qed.

Lemma registry_consistent_after_first_job :
  consistent (fresh bare_host distinct_uuids) /\ consistent drafted.
Proof.
  assert (H : consistent (fresh bare_host distinct_uuids)).
  { split; [reflexivity|]. split; [constructor|]. intros k job Hjob. discriminate. }
  split; [exact H|].
  exact (proj1 (registry_methods_keep_consistency Worlds.repr Worlds.isoformat
                  summary_dumps _ H) "/srv/project").
Defined.

(* ================================================================= *)
(** ** The handlers and the registry's invariant *)

Module FrameFacts.

Section Calls.
Variable strip : string -> string.
Variable json_loads : string -> option Py.value.
Variable json_dumps : Py.value -> string.
Variable str_other : Py.value -> string.
Variable validate_AgentResult :
  Py.value -> Py.value -> Py.value -> Py.value -> outcome AgentResult.

Lemma find_agent_frame w : snd (_find_agent_command w) = w.
Proof. now rewrite find_agent_run. Qed.

Lemma invoke_cursor_frame w prompt project_path0 timeout_seconds mode sid :
  snd (invoke_cursor strip json_loads validate_AgentResult prompt project_path0
                     timeout_seconds mode sid w) = w.
Proof.
  unfold invoke_cursor, bind. rewrite find_agent_run.
  destruct (resolved w) as [cmd|]; [|reflexivity].
  unfold _run_blocking, bind, get_world.
  destruct (subprocess_run _ _ _ _); reflexivity.
Qed.

Lemma streaming_frame w prompt project_path0 sid :
  exists run,
    invoke_cursor_streaming json_loads json_dumps str_other prompt project_path0
                            sid w = (Return run, w).
Proof.
  unfold invoke_cursor_streaming, try_except, bind. rewrite find_agent_run.
  destruct (resolved w) as [cmd|]; [|eexists; reflexivity].
  unfold _stream_blocking, bind, get_world.
  destruct (subprocess_Popen _ _ _); eexists; reflexivity.
Qed.

Lemma preserves_invoke_cursor prompt project_path0 timeout_seconds mode sid :
  preserves (invoke_cursor strip json_loads validate_AgentResult prompt
                           project_path0 timeout_seconds mode sid).
Proof.
  apply preserves_frame. intros w. now rewrite invoke_cursor_frame.
Qed.

Lemma preserves_streaming prompt project_path0 sid :
  preserves (invoke_cursor_streaming json_loads json_dumps str_other prompt
                                     project_path0 sid).
Proof.
  apply preserves_frame. intros w.
  destruct (streaming_frame w prompt project_path0 sid) as (run & ->).
  reflexivity.
Qed.

End Calls.

(** The steps of a handler, one rule each. *)
Ltac preserve :=
  repeat match goal with
  | |- preserves (bind _ _) => apply preserves_bind; [|intros ?]
  | |- preserves (try_except _ _) => apply preserves_try_except; [|intros ?]
  | |- preserves (try_finally _ _) => apply preserves_try_finally
  | |- preserves (ret _) => apply preserves_ret
  | |- preserves (raise _) => apply preserves_raise
  | |- preserves forever => apply preserves_forever
  | |- preserves (lift _) => apply preserves_lift
  | |- preserves get_world => apply preserves_get_world
  | |- preserves uuid4 => apply preserves_uuid4
  | |- preserves now => apply preserves_now
  | |- preserves (create_job _ _) => apply preserves_create_job
  | |- preserves (transition _ _ _) => apply preserves_transition
  | |- preserves (add_event _ _ _ _) => apply preserves_add_event
  | |- preserves (save_artifact _ _ _ _) => apply preserves_save_artifact
  | |- preserves (save_run_metadata _ _ _ _) => apply preserves_save_run_metadata
  | |- preserves (get_job _ _) => apply preserves_get_job
  | |- preserves (get_job_by_plan_id _ _) => apply preserves_get_job_by_plan_id
  | |- preserves (queue_get _) => apply preserves_queue_get
  | |- preserves (assign _ _) =>
      apply preserves_assign; intros ?; split; reflexivity
  | |- preserves (invoke_cursor _ _ _ _ _ _ _ _) => apply preserves_invoke_cursor
  | |- preserves (invoke_cursor_streaming _ _ _ _ _ _) => apply preserves_streaming
  | |- preserves (if ?b then _ else _) => destruct b
  | |- preserves (match ?x with _ => _ end) => destruct x
  | |- _ => progress cbv beta
  end.

Section Handlers.
Variable repr : string -> string.
Variable strip : string -> string.
Variable isoformat : datetime -> string.
Variable json_dumps_indent : Py.value -> string.
Variable json_loads : string -> option Py.value.
Variable json_dumps : Py.value -> string.
Variable str_other : Py.value -> string.
Variable validate_AgentResult :
  Py.value -> Py.value -> Py.value -> Py.value -> outcome AgentResult.

Lemma preserves_ask build request :
  preserves (ask.ask repr strip json_loads validate_AgentResult build request).
Proof. unfold ask.ask. preserve. Qed.

Lemma preserves_create_plan build request :
  preserves (plan.create_plan repr strip json_loads validate_AgentResult build
                              request).
Proof. unfold plan.create_plan. preserve. Qed.

Lemma preserves_approve_plan p : preserves (approve.approve_plan repr p).
Proof. unfold approve.approve_plan. preserve. Qed.

Lemma preserves_execute_plan p : preserves (execute_plan repr p).
Proof. unfold execute_plan. preserve. Qed.

Lemma preserves_on_chunk id acc chunk :
  preserves (on_chunk repr json_loads id acc chunk).
Proof. unfold on_chunk. preserve. Qed.

Lemma preserves_for_each_chunk id chunks :
  forall acc, preserves (for_each_chunk repr json_loads id chunks acc).
Proof.
  induction chunks as [|chunk chunks IH]; intros acc; simpl.
  - apply preserves_ret.
  - apply preserves_bind; [apply preserves_on_chunk|]. intros acc'. apply IH.
Qed.

Lemma preserves_run_execution build id plan_markdown0 project_path0 sid :
  preserves (_run_execution repr isoformat json_dumps_indent json_loads json_dumps
                            str_other build id plan_markdown0 project_path0 sid).
Proof.
  unfold _run_execution, drain, conclude, on_exception, after_stream.
  preserve. apply preserves_for_each_chunk.
Qed.

Lemma preserves_event_generator id : preserves (events._event_generator repr id).
Proof.
  unfold events._event_generator.
  apply preserves_bind.
  { unfold get_events. apply preserves_bind; [apply preserves_get_world|].
    intros w. destruct (negb _); [apply preserves_raise|apply preserves_ret]. }
  intros queue. apply preserves_reading. intros w Hw.
  destruct (Py.get (_queues (manager w)) queue) as [q|] eqn:Hq; [|exact Hw].
  destruct (events.pump q) as [[items remaining] stopped].
  unfold bind, store_queue, modify_manager. simpl.
  now apply (consistent_with_queue w queue remaining q).
Qed.

Lemma preserves_job_or_404 id : preserves (events_routes.job_or_404 repr id).
Proof. unfold events_routes.job_or_404. preserve. Qed.

Lemma preserves_stream_events id : preserves (events_routes.stream_events repr id).
Proof.
  unfold events_routes.stream_events.
  apply preserves_bind; [apply preserves_job_or_404|].
  intros _. apply preserves_event_generator.
Qed.

Lemma preserves_get_job_status id : preserves (events_routes.get_job_status repr id).
Proof.
  unfold events_routes.get_job_status.
  apply preserves_bind; [apply preserves_job_or_404|]. intros job.
  apply preserves_ret.
Qed.

End Handlers.
End FrameFacts.

Import FrameFacts.

(** X2.  Every handler of the runner leaves the registry in shape,
    whether it returns, raises or never finishes: after [ask],
    [create_plan], [approve_plan], [execute_plan], the background
    execution, a run of the event stream and a status poll, the jobs
    and the queues still have the same ids and every job still sits
    under its own id with its own directory. *)
Theorem handlers_keep_consistency :
  forall (repr strip : string -> string) (isoformat : datetime -> string)
         (json_dumps_indent : Py.value -> string)
         (json_loads : string -> option Py.value)
         (json_dumps str_other : Py.value -> string)
         (validate_AgentResult :
            Py.value -> Py.value -> Py.value -> Py.value -> outcome AgentResult)
         (w : World),
    consistent w ->
    (forall request,
        consistent (world_of (ask.ask repr strip json_loads validate_AgentResult
                                      prompt_templates.ask_prompt request w)))
    /\ (forall request,
          consistent (world_of (plan.create_plan repr strip json_loads
                                  validate_AgentResult prompt_templates.plan_prompt
                                  request w)))
    /\ (forall p, consistent (world_of (approve.approve_plan repr p w)))
    /\ (forall p, consistent (world_of (execute_plan repr p w)))
    /\ (forall id plan_markdown0 project_path0 sid,
          consistent (world_of (_run_execution repr isoformat json_dumps_indent
                                  json_loads json_dumps str_other
                                  prompt_templates.build_execute_prompt
                                  id plan_markdown0 project_path0 sid w)))
    /\ (forall id, consistent (world_of (events_routes.stream_events repr id w)))
    /\ (forall id, consistent (world_of (events_routes.get_job_status repr id w))).
Proof.
  intros repr strip isoformat json_dumps_indent json_loads json_dumps str_other
         validate w Hw. unfold world_of.
  split; [|split; [|split; [|split; [|split; [|split]]]]]; intros.
  - now apply preserves_ask.
  - now apply preserves_create_plan.
  - now apply preserves_approve_plan.
  - now apply preserves_execute_plan.
  - now apply preserves_run_execution.
  - now apply preserves_stream_events.
  - now apply preserves_get_job_status.
Qed.

Lemma registry_consistent_after_ask :
  consistent drafted
  /\ consistent
       (world_of (ask.ask Worlds.repr strip_nothing (decoder []) strict_AgentResult
                          prompt_templates.ask_prompt ask_request drafted)).
Proof.
  assert (H : consistent drafted).
  { apply (preserves_create_job Worlds.repr "/srv/project").
    split; [reflexivity|]. split; [constructor|]. intros k job Hjob. discriminate. }
  split; [exact H|].
  exact (proj1 (handlers_keep_consistency Worlds.repr strip_nothing Worlds.isoformat
                  summary_dumps (decoder []) scenario_dumps scenario_str
                  strict_AgentResult drafted H) ask_request).
Defined.

(** X3.  In a registry in shape, a job that is registered has its queue:
    [get_events] returns the handle of its queue and [add_event] returns
    the new event, stamped with the clock's reading, after appending it
    to the job's log and to the queue; for an id that is not registered
    both raise [KeyError] and change nothing. *)
Theorem registered_jobs_have_queues :
  forall (repr : string -> string) (w : World) (id : string),
    consistent w ->
    (forall job,
        job_of w id = Some job ->
        get_events repr id w = (Return id, w)
        /\ exists q,
             queue_of w id = Some q
             /\ forall t d,
                  exists w',
                    add_event repr id t d w
                    = (Return (mkJobEvent t d (clock w (ticks w))), w')
                    /\ job_of w' id
                       = Some (append_event job (mkJobEvent t d (clock w (ticks w))))
                    /\ queue_of w' id
                       = Some (q ++ [mkJobEvent t d (clock w (ticks w))]))
    /\ (job_of w id = None ->
        get_events repr id w
        = (Raise (KeyError ("No event queue for job " ++ repr id)), w)
        /\ forall t d,
             add_event repr id t d w
             = (Raise (KeyError ("Job " ++ repr id ++ " not found")), w)).
Proof.
  intros repr w id Hw. split.
  - intros job Hjob. destruct (consistent_queue w id job Hw Hjob) as (q & Hq).
    split.
    + unfold get_events, bind, get_world, Py.contains.
      unfold queue_of in Hq. now rewrite Hq.
    + exists q. split; [exact Hq|]. intros t d. eexists. split.
      * apply (add_event_run repr _ _ _ _ t d Hjob Hq).
      * unfold after_add_event. rewrite job_of_with_queue, job_of_with_job.
        now rewrite queue_of_with_queue.
  - intros Hjob. split.
    + unfold get_events, bind, get_world, Py.contains.
      destruct (Py.get (_queues (manager w)) id) as [q|] eqn:Hq; [|reflexivity].
      destruct (consistent_job w id q Hw Hq) as (job & Hjob'). congruence.
    + intros t d. unfold add_event.
      now rewrite (bind_raise _ _ _ _ _ (get_job_missing repr _ _ Hjob)).
Qed.

Lemma first_job_has_queue :
  consistent drafted
  /\ job_of drafted "0123456789ab" = Some first_job
  /\ get_events Worlds.repr "0123456789ab" drafted = (Return "0123456789ab", drafted)
  /\ queue_of drafted "0123456789ab" = Some [].
Proof.
  assert (H : consistent drafted).
  { apply (preserves_create_job Worlds.repr "/srv/project").
    split; [reflexivity|]. split; [constructor|]. intros k job Hjob. discriminate. }
  assert (Hjob : job_of drafted "0123456789ab" = Some first_job) by reflexivity.
  split; [exact H|]. split; [exact Hjob|].
  destruct (proj1 (registered_jobs_have_queues Worlds.repr drafted "0123456789ab" H)
                  first_job Hjob) as (Hevents & q & Hq & _).
  split; [exact Hevents|reflexivity].
Defined.

(* ================================================================= *)
(** ** Approval and the start of an execution *)

Module ApprovalFacts.
Import approve.

Lemma owned_entries w :
  consistent w ->
  forall k j, In (k, j) (_jobs (manager w)) -> job_id j = k.
Proof.
  intros (_ & Hnodup & Hown) k j Hin.
  now destruct (Hown k j (get_of_in _ _ _ Hnodup Hin)).
Qed.

Lemma first_with_plan_id_carries jobs p job :
  first_with_plan_id jobs p = Some job -> plan_id job = p.
Proof.
  induction jobs as [|j jobs IH]; simpl; [discriminate|].
  destruct (String.eqb (plan_id j) p) eqn:E; [|exact IH].
  intros [= <-]. now apply String.eqb_eq.
Qed.

(** Replacing the job a plan id finds by one that carries the same plan
    id: the lookup finds the new one. *)
Lemma first_with_plan_id_set (d : Py.dict Job) id job job' p :
  (forall k j, In (k, j) d -> job_id j = k) ->
  first_with_plan_id (Py.values d) p = Some job ->
  job_id job = id ->
  Py.get d id = Some job ->
  plan_id job' = plan_id job ->
  first_with_plan_id (Py.values (Py.set d id job')) p = Some job'.
Proof.
  intros Hown Hfirst Hid Hget Hplan.
  pose proof (first_with_plan_id_carries _ _ _ Hfirst) as Hp.
  induction d as [|[k0 j0] d IH]; simpl in *; [discriminate|].
  destruct (String.eqb k0 id) eqn:E; simpl.
  - assert (H : String.eqb (plan_id job') p = true)
      by (apply String.eqb_eq; congruence).
    now rewrite H.
  - apply String.eqb_neq in E.
    destruct (String.eqb (plan_id j0) p) eqn:E0.
    + injection Hfirst as ->. exfalso. apply E.
      assert (H : job_id job = k0) by (apply Hown; now left). congruence.
    + apply IH; auto.
Qed.

Lemma planned_after_transition w p job target :
  consistent w -> planned w p = Some job ->
  planned (after_transition w (job_id job) job target) p
  = Some (moved w job target).
Proof.
  intros Hw Hplan. destruct (planned_registered w p job Hw Hplan) as (Hjob & _).
  unfold planned, after_transition, tick, with_job. simpl.
  apply (first_with_plan_id_set _ (job_id job) job); auto.
  now apply owned_entries.
Qed.

Section Calls.
Variable repr : string -> string.

Lemma approve_plan_missing w p :
  planned w p = None ->
  approve_plan repr p w
  = (Raise (HTTPException 404 ("Plan " ++ repr p ++ " not found")), w).
Proof.
  intros Hplan. unfold approve_plan, planned in *.
  erewrite bind_raise; [reflexivity|].
  erewrite try_except_raise; [|rewrite get_job_by_plan_id_run, Hplan; reflexivity].
  reflexivity.
Qed.

Lemma approve_plan_run w p job :
  planned w p = Some job -> job_of w (job_id job) = Some job ->
  state job = PLAN_READY ->
  approve_plan repr p w
  = (Return (ApproveResponse.mk (job_id job) "approved"),
     after_transition w (job_id job) job APPROVED).
Proof.
  intros Hplan Hjob Hstate. unfold planned in Hplan.
  assert (Hedge : edge (state job) APPROVED) by (rewrite Hstate; constructor).
  unfold approve_plan.
  erewrite bind_return;
    [|apply try_except_return; rewrite get_job_by_plan_id_run, Hplan; reflexivity].
  erewrite bind_return;
    [|apply try_except_return; apply (transition_run repr _ _ _ _ Hjob Hedge)].
  reflexivity.
Qed.

Lemma approve_plan_conflict w p job :
  planned w p = Some job -> job_of w (job_id job) = Some job ->
  state job <> PLAN_READY ->
  approve_plan repr p w
  = (Raise (HTTPException 409
              ("Cannot approve: job is in state "
                 ++ repr (JobState_value (state job)) ++ ", expected 'plan_ready'")),
     w).
Proof.
  intros Hplan Hjob Hstate. unfold planned in Hplan.
  assert (Hedge : ~ edge (state job) APPROVED).
  { intros H. inversion H. congruence. }
  unfold approve_plan.
  erewrite bind_return;
    [|apply try_except_return; rewrite get_job_by_plan_id_run, Hplan; reflexivity].
  erewrite bind_raise; [reflexivity|].
  erewrite try_except_raise; [|apply (transition_rejected repr _ _ _ _ Hjob Hedge)].
  simpl. now rewrite (bind_return _ _ _ _ _ (get_job_found repr _ _ _ Hjob)).
Qed.

Lemma execute_plan_missing w p :
  planned w p = None ->
  execute_plan repr p w
  = (Raise (HTTPException 404 ("Plan " ++ repr p ++ " not found")), w).
Proof.
  intros Hplan. unfold execute_plan, planned in *.
  erewrite bind_raise; [reflexivity|].
  erewrite try_except_raise; [|rewrite get_job_by_plan_id_run, Hplan; reflexivity].
  reflexivity.
Qed.

(** What a transition that is applied leaves of the world. *)
Lemma after_transition_frame w id job target :
  job_of (after_transition w id job target) id
  = Some (set_updated_at (set_state job target) (clock w (ticks w)))
  /\ (forall other, other <> id ->
        job_of (after_transition w id job target) other = job_of w other)
  /\ (forall k, queue_of (after_transition w id job target) k = queue_of w k)
  /\ disk (after_transition w id job target) = disk w.
Proof.
  split; [apply job_of_after_transition|]. split; [|split; reflexivity].
  intros other Hne. unfold after_transition. rewrite job_of_tick.
  now apply job_of_with_job_other.
Qed.

End Calls.
End ApprovalFacts.

Import ApprovalFacts.

(** X4.  [approve_plan] in a registry in shape.  With no job carrying
    the plan id it answers 404; when the first job carrying it is in
    [PLAN_READY] it returns that job's id with the status ["approved"],
    the job is [APPROVED] with the clock's reading as [updated_at], and
    no other job, no queue and nothing on the disk has changed; in any
    other state it answers 409 naming the state, and changes nothing. *)
Theorem approve_plan_outcomes :
  forall (repr : string -> string) (w : World) (p : string),
    consistent w ->
    (planned w p = None ->
     approve.approve_plan repr p w
     = (Raise (HTTPException 404 ("Plan " ++ repr p ++ " not found")), w))
    /\ (forall job,
          planned w p = Some job -> state job = PLAN_READY ->
          exists w',
            approve.approve_plan repr p w
            = (Return (ApproveResponse.mk (job_id job) "approved"), w')
            /\ job_of w' (job_id job)
               = Some (set_updated_at (set_state job APPROVED) (clock w (ticks w)))
            /\ (forall other, other <> job_id job -> job_of w' other = job_of w other)
            /\ (forall k, queue_of w' k = queue_of w k)
            /\ disk w' = disk w)
    /\ (forall job,
          planned w p = Some job -> state job <> PLAN_READY ->
          approve.approve_plan repr p w
          = (Raise (HTTPException 409
                      ("Cannot approve: job is in state "
                         ++ repr (JobState_value (state job))
                         ++ ", expected 'plan_ready'")), w)).
Proof.
  intros repr w p Hw. split; [|split].
  - apply approve_plan_missing.
  - intros job Hplan Hstate.
    destruct (planned_registered w p job Hw Hplan) as (Hjob & _).
    exists (after_transition w (job_id job) job APPROVED).
    split; [now apply approve_plan_run|]. apply after_transition_frame.
  - intros job Hplan Hstate.
    destruct (planned_registered w p job Hw Hplan) as (Hjob & _).
    now apply approve_plan_conflict.
Qed.

Lemma consistent_plan_ready h : consistent (Scenarios.plan_ready h).
Proof.
  split; [reflexivity|]. split.
  - constructor; [intros []|constructor].
  - intros k job. unfold job_of. cbn -[String.eqb].
    destruct (String.eqb "0123456789ab" k) eqn:E; [|discriminate].
    apply String.eqb_eq in E. subst k. intros [= <-]. split; reflexivity.
Qed.

Lemma approve_first_plan :
  consistent (Scenarios.plan_ready bare_host)
  /\ planned (Scenarios.plan_ready bare_host) "111111111111"
     = Some Scenarios.plan_ready_job
  /\ exists w',
       approve.approve_plan Worlds.repr "111111111111" (Scenarios.plan_ready bare_host)
       = (Return (ApproveResponse.mk "0123456789ab" "approved"), w')
       /\ option_map state (job_of w' "0123456789ab") = Some APPROVED.
Proof.
  pose proof (consistent_plan_ready bare_host) as H.
  split; [exact H|]. split; [reflexivity|].
  destruct (proj1 (proj2 (approve_plan_outcomes Worlds.repr
                            (Scenarios.plan_ready bare_host) "111111111111" H))
                  Scenarios.plan_ready_job eq_refl eq_refl)
    as (w' & Hrun & Hjob & _).
  exists w'. split; [exact Hrun|].
  change "0123456789ab" with (job_id Scenarios.plan_ready_job) at 1.
  now rewrite Hjob.
Defined.

(** X5.  [execute_plan] in a registry in shape.  With no job carrying
    the plan id it answers 404; when the first job carrying it is
    [APPROVED] it returns the job's id and schedules the background task
    with the job's id, plan, project path and session id, the job is
    [EXECUTING], and no other job, no queue and nothing on the disk has
    changed; in any other state it answers 409 naming the state, changes
    nothing and schedules nothing. *)
Theorem execute_plan_outcomes :
  forall (repr : string -> string) (w : World) (p : string),
    consistent w ->
    (planned w p = None ->
     execute_plan repr p w
     = (Raise (HTTPException 404 ("Plan " ++ repr p ++ " not found")), w))
    /\ (forall job,
          planned w p = Some job -> state job = APPROVED ->
          exists w',
            execute_plan repr p w
            = (Return (job_id job,
                       mkTask (job_id job) (plan_markdown job) (project_path job)
                              (models.session_id job)), w')
            /\ job_of w' (job_id job)
               = Some (set_updated_at (set_state job EXECUTING) (clock w (ticks w)))
            /\ (forall other, other <> job_id job -> job_of w' other = job_of w other)
            /\ (forall k, queue_of w' k = queue_of w k)
            /\ disk w' = disk w)
    /\ (forall job,
          planned w p = Some job -> state job <> APPROVED ->
          execute_plan repr p w
          = (Raise (HTTPException 409
                      ("Cannot execute: job is in state "
                         ++ repr (JobState_value (state job))
                         ++ ", expected 'approved'")), w)).
Proof.
  intros repr w p Hw. split; [|split].
  - apply execute_plan_missing.
  - intros job Hplan Hstate.
    destruct (planned_registered w p job Hw Hplan) as (Hjob & _).
    exists (after_transition w (job_id job) job EXECUTING).
    split; [|apply after_transition_frame].
    now apply BoundaryFacts.execute_plan_schedules.
  - intros job Hplan Hstate.
    destruct (planned_registered w p job Hw Hplan) as (Hjob & _).
    now apply BoundaryFacts.execute_plan_conflict.
Qed.

Lemma execute_unapproved_plan :
  consistent (Scenarios.plan_ready bare_host)
  /\ planned (Scenarios.plan_ready bare_host) "111111111111"
     = Some Scenarios.plan_ready_job
  /\ state Scenarios.plan_ready_job <> APPROVED
  /\ execute_plan Worlds.repr "111111111111" (Scenarios.plan_ready bare_host)
     = (Raise (HTTPException 409
                 "Cannot execute: job is in state 'plan_ready', expected 'approved'"),
        Scenarios.plan_ready bare_host).
Proof.
  pose proof (consistent_plan_ready bare_host) as H.
  assert (Hstate : state Scenarios.plan_ready_job <> APPROVED) by discriminate.
  split; [exact H|]. split; [reflexivity|]. split; [exact Hstate|].
  exact (proj2 (proj2 (execute_plan_outcomes Worlds.repr
                         (Scenarios.plan_ready bare_host) "111111111111" H))
               Scenarios.plan_ready_job eq_refl Hstate).
Defined.

(** X6.  A plan that is ready must be approved before it can run, and
    can be approved only once: on a job in [PLAN_READY], [execute_plan]
    is refused with 409 and changes nothing; after [approve_plan],
    [execute_plan] on the same plan id returns the job's id, schedules
    the task with the job's plan, project path and session id, and
    leaves the job [EXECUTING]; a second [approve_plan] after the first
    is refused with 409. *)
Theorem execution_follows_approval :
  forall (repr : string -> string) (w : World) (p : string) (job : Job),
    consistent w ->
    planned w p = Some job ->
    state job = PLAN_READY ->
    execute_plan repr p w
    = (Raise (HTTPException 409
                ("Cannot execute: job is in state " ++ repr "plan_ready"
                   ++ ", expected 'approved'")), w)
    /\ exists w1 w2,
         approve.approve_plan repr p w
         = (Return (ApproveResponse.mk (job_id job) "approved"), w1)
         /\ approve.approve_plan repr p w1
            = (Raise (HTTPException 409
                        ("Cannot approve: job is in state " ++ repr "approved"
                           ++ ", expected 'plan_ready'")), w1)
         /\ execute_plan repr p w1
            = (Return (job_id job,
                       mkTask (job_id job) (plan_markdown job) (project_path job)
                              (models.session_id job)), w2)
         /\ option_map state (job_of w2 (job_id job)) = Some EXECUTING.
Proof.
  intros repr w p job Hw Hplan Hstate.
  destruct (planned_registered w p job Hw Hplan) as (Hjob & _).
  split.
  - rewrite (BoundaryFacts.execute_plan_conflict repr w p job Hplan Hjob)
      by (rewrite Hstate; discriminate).
    now rewrite Hstate.
  - set (w1 := after_transition w (job_id job) job APPROVED).
    set (job1 := moved w job APPROVED).
    assert (Hplan1 : planned w1 p = Some job1)
      by now apply planned_after_transition.
    assert (Hjob1 : job_of w1 (job_id job1) = Some job1)
      by apply job_of_after_transition.
    exists w1, (after_transition w1 (job_id job1) job1 EXECUTING).
    split; [now apply approve_plan_run|]. split; [|split].
    + now rewrite (approve_plan_conflict repr w1 p job1 Hplan1 Hjob1).
    + now rewrite (proj1 (BoundaryFacts.execute_plan_schedules repr w1 p job1
                            Hplan1 Hjob1 eq_refl)).
    + change (job_id job) with (job_id job1).
      now rewrite job_of_after_transition.
Qed.

Lemma first_plan_approved_then_executed :
  consistent (Scenarios.plan_ready bare_host)
  /\ planned (Scenarios.plan_ready bare_host) "111111111111"
     = Some Scenarios.plan_ready_job
  /\ exists w1 w2,
       approve.approve_plan Worlds.repr "111111111111" (Scenarios.plan_ready bare_host)
       = (Return (ApproveResponse.mk "0123456789ab" "approved"), w1)
       /\ execute_plan Worlds.repr "111111111111" w1
          = (Return ("0123456789ab",
                     mkTask "0123456789ab" "# Plan" "/srv/project" "sess-1"), w2)
       /\ option_map state (job_of w2 "0123456789ab") = Some EXECUTING.
Proof.
  pose proof (consistent_plan_ready bare_host) as H.
  split; [exact H|]. split; [reflexivity|].
  destruct (execution_follows_approval Worlds.repr (Scenarios.plan_ready bare_host)
              "111111111111" Scenarios.plan_ready_job H eq_refl eq_refl)
    as (_ & w1 & w2 & Happrove & _ & Hexecute & Hstate).
  exists w1, w2. auto.
Defined.

(* ================================================================= *)
(** ** Sequences of transitions *)

Module LifecycleFacts.
Import Lifecycle.

Lemma walk_accepted targets : forall s, walk s (accepted_of s targets).
Proof.
  induction targets as [|t targets IH]; intros s; simpl; [exact I|].
  destruct (edge_dec s t) as [Hedge|Hedge].
  - rewrite (validate_edge _ _ Hedge). simpl. auto.
  - rewrite (validate_not_edge _ _ Hedge). apply IH.
Qed.

Lemma last_cons {A} (l : list A) (t s : A) : last (t :: l) s = last l t.
Proof.
  revert t s. induction l as [|a l IH]; intros t s; [reflexivity|].
  change (last (t :: a :: l) s) with (last (a :: l) s).
  now rewrite (IH a s), (IH a t).
Qed.

(** A walk from a state before [PLAN_READY] that ends in [EXECUTING] or
    [COMPLETE] goes through [PLAN_READY], [APPROVED] and [EXECUTING], one
    right after the other. *)
Lemma walk_through_approval l : forall s,
  before_plan s = true ->
  walk s l ->
  last l s = EXECUTING \/ last l s = COMPLETE ->
  exists before after, l = before ++ PLAN_READY :: APPROVED :: EXECUTING :: after.
Proof.
  induction l as [|t l IH]; intros s Hs Hwalk Hlast.
  - simpl in Hlast. destruct Hlast as [-> | ->]; discriminate.
  - destruct Hwalk as (Hedge & Hwalk).
    assert (Hlast' : last l t = EXECUTING \/ last l t = COMPLETE)
      by now rewrite <- (last_cons l t s).
    destruct (before_plan t) eqn:Ht.
    + destruct (IH t Ht Hwalk Hlast') as (before & after & ->).
      now exists (t :: before), after.
    + assert (Hcases : t = PLAN_READY \/ t = FAILED).
      { destruct Hedge; try discriminate; auto. }
      destruct Hcases as [-> | ->].
      * destruct l as [|t1 l]; [destruct Hlast' as [H|H]; discriminate|].
        destruct Hwalk as (Hedge1 & Hwalk1). inversion Hedge1; subst.
        destruct l as [|t2 l]; [destruct Hlast' as [H|H]; discriminate|].
        destruct Hwalk1 as (Hedge2 & Hwalk2). inversion Hedge2; subst.
        now exists [], l.
      * destruct l as [|t1 l]; [destruct Hlast' as [H|H]; discriminate|].
        destruct Hwalk as (Hedge1 & _). inversion Hedge1.
Qed.

Section Calls.
Variable repr : string -> string.

Lemma attempts_run targets : forall w id job,
  job_of w id = Some job ->
  exists w' job',
    attempts repr id targets w = (Return (accepted_of (state job) targets), w')
    /\ job_of w' id = Some job'
    /\ state job' = last (accepted_of (state job) targets) (state job)
    /\ (job_id job', project_path job', models.session_id job', plan_id job',
        plan_markdown job', artifacts_dir job', events job', created_at job')
       = (job_id job, project_path job, models.session_id job, plan_id job,
          plan_markdown job, artifacts_dir job, events job, created_at job)
    /\ ticks w' = (ticks w + length (accepted_of (state job) targets))%nat
    /\ (forall other, other <> id -> job_of w' other = job_of w other)
    /\ (forall k, queue_of w' k = queue_of w k)
    /\ disk w' = disk w.
Proof.
  induction targets as [|t targets IH]; intros w id job Hjob; simpl.
  - exists w, job. rewrite Nat.add_0_r. repeat split; auto.
  - destruct (edge_dec (state job) t) as [Hedge|Hedge].
    + rewrite (validate_edge _ _ Hedge).
      set (job1 := moved w job t).
      set (w1 := after_transition w id job t).
      assert (Hjob1 : job_of w1 id = Some job1) by apply job_of_after_transition.
      destruct (IH w1 id job1 Hjob1)
        as (w' & job' & Hrun & Hjob' & Hstate & Hfields & Hticks & Hothers & Hq & Hdisk).
      exists w', job'. split.
      { erewrite bind_return;
          [|apply try_except_return; erewrite bind_return;
            [reflexivity|apply (transition_run repr _ _ _ _ Hjob Hedge)]].
        fold w1. now rewrite (bind_return _ _ _ _ _ Hrun). }
      split; [exact Hjob'|]. split; [rewrite last_cons; exact Hstate|].
      split; [exact Hfields|].
      split; [rewrite Hticks; simpl; lia|]. split; [|split].
      * intros other Hne. rewrite (Hothers other Hne).
        unfold w1, after_transition. rewrite job_of_tick.
        now apply job_of_with_job_other.
      * intros k. now rewrite Hq.
      * now rewrite Hdisk.
    + rewrite (validate_not_edge _ _ Hedge).
      destruct (IH w id job Hjob) as (w' & job' & Hrun & Hrest).
      exists w', job'. split; [|exact Hrest].
      assert (Hstep :
                try_except (bind (transition repr id t) (fun _ => ret true))
                  (fun exc =>
                     if is_InvalidTransitionError exc then ret false else raise exc) w
                = (Return false, w)).
      { unfold try_except.
        now rewrite (bind_raise _ _ _ _ _ (transition_rejected repr _ _ _ _ Hjob Hedge)). }
      rewrite (bind_return _ _ _ _ _ Hstep).
      now rewrite (bind_return _ _ _ _ _ Hrun).
Qed.

End Calls.
End LifecycleFacts.

Import Lifecycle LifecycleFacts.

(** X7.  Whatever transitions are tried on a registered job, one after
    the other, going on after each refusal: the ones applied are the
    ones the table accepts from the state the job is then in, so they
    form a walk along the edges of the table from the job's first
    state; the job ends in the last one applied; its other fields but
    [updated_at] are as before; the clock is read once for each
    transition applied; and no other job, no queue and nothing on the
    disk changes. *)
Theorem attempted_transitions_follow_the_table :
  forall (repr : string -> string) (w : World) (id : string) (job : Job)
         (targets : list JobState),
    job_of w id = Some job ->
    exists w' job',
      attempts repr id targets w = (Return (accepted_of (state job) targets), w')
      /\ walk (state job) (accepted_of (state job) targets)
      /\ job_of w' id = Some job'
      /\ state job' = last (accepted_of (state job) targets) (state job)
      /\ (job_id job', project_path job', models.session_id job', plan_id job',
          plan_markdown job', artifacts_dir job', events job', created_at job')
         = (job_id job, project_path job, models.session_id job, plan_id job,
            plan_markdown job, artifacts_dir job, events job, created_at job)
      /\ ticks w' = (ticks w + length (accepted_of (state job) targets))%nat
      /\ (forall other, other <> id -> job_of w' other = job_of w other)
      /\ (forall k, queue_of w' k = queue_of w k)
      /\ disk w' = disk w.
Proof.
  intros repr w id job targets Hjob.
  destruct (attempts_run repr targets w id job Hjob)
    as (w' & job' & Hrun & Hjob' & Hrest).
  exists w', job'. split; [exact Hrun|]. split; [apply walk_accepted|].
  split; [exact Hjob'|exact Hrest].
Qed.

Lemma first_job_attempts :
  job_of drafted "0123456789ab" = Some first_job
  /\ exists w' job',
       attempts Worlds.repr "0123456789ab"
                [EXECUTING; PLAN_RUNNING; APPROVED; PLAN_READY; DRAFT; APPROVED;
                 EXECUTING; PLAN_RUNNING]
                drafted
       = (Return [PLAN_RUNNING; PLAN_READY; APPROVED; EXECUTING], w')
       /\ job_of w' "0123456789ab" = Some job'
       /\ state job' = EXECUTING.
Proof.
  assert (Hjob : job_of drafted "0123456789ab" = Some first_job) by reflexivity.
  split; [exact Hjob|].
  destruct (attempted_transitions_follow_the_table Worlds.repr drafted
              "0123456789ab" first_job
              [EXECUTING; PLAN_RUNNING; APPROVED; PLAN_READY; DRAFT; APPROVED;
               EXECUTING; PLAN_RUNNING] Hjob)
    as (w' & job' & Hrun & _ & Hjob' & Hstate & _).
  exists w', job'. auto.
Defined.

(** X8.  No execution without approval: when a job that is in [DRAFT]
    is found [EXECUTING] or [COMPLETE] after any sequence of attempted
    transitions, the transitions applied went through [PLAN_READY],
    then [APPROVED], then [EXECUTING], one right after the other. *)
Theorem execution_only_after_approval :
  forall (repr : string -> string) (w w' : World) (id : string) (job job' : Job)
         (targets accepted : list JobState),
    job_of w id = Some job ->
    state job = DRAFT ->
    attempts repr id targets w = (Return accepted, w') ->
    job_of w' id = Some job' ->
    state job' = EXECUTING \/ state job' = COMPLETE ->
    exists before after,
      accepted = before ++ PLAN_READY :: APPROVED :: EXECUTING :: after.
Proof.
  intros repr w w' id job job' targets accepted Hjob Hdraft Hrun Hjob' Hstate.
  destruct (attempts_run repr targets w id job Hjob)
    as (w1 & job1 & Hrun1 & Hjob1 & Hstate1 & _).
  rewrite Hrun in Hrun1. injection Hrun1 as -> <-.
  assert (job1 = job') by congruence. subst job1.
  apply (walk_through_approval _ (state job)).
  - now rewrite Hdraft.
  - apply walk_accepted.
  - now rewrite <- Hstate1.
Qed.

Lemma first_job_executes_after_approval :
  job_of drafted "0123456789ab" = Some first_job
  /\ exists before after,
       [PLAN_RUNNING; PLAN_READY; APPROVED; EXECUTING]
       = before ++ PLAN_READY :: APPROVED :: EXECUTING :: after.
Proof.
  assert (Hjob : job_of drafted "0123456789ab" = Some first_job) by reflexivity.
  split; [exact Hjob|].
  pose proof (run_eq (attempts Worlds.repr "0123456789ab" Scenarios.tried drafted)
                     (Return [PLAN_RUNNING; PLAN_READY; APPROVED; EXECUTING])
                     eq_refl) as Hrun.
  assert (Hjob' : job_of (world_of (attempts Worlds.repr "0123456789ab"
                                             Scenarios.tried drafted))
                         "0123456789ab"
                  = Some Scenarios.tried_job) by (vm_compute; reflexivity).
  exact (execution_only_after_approval Worlds.repr drafted _ "0123456789ab"
           first_job Scenarios.tried_job Scenarios.tried _ Hjob eq_refl Hrun Hjob'
           (or_introl eq_refl)).
Defined.

(* ================================================================= *)
(** ** Artifacts *)





(* ================================================================= *)
(** ** The health check, the status poll and the event stream *)

(** X11.  The health check never fails and changes nothing.  It reports
    ["ok"] with the resolved command after ["agent @ "] exactly when
    [_find_agent_command] returns a command, and ["degraded"] with an
    empty version exactly when it raises; in the degraded case every
    buffered invocation raises the same [FileNotFoundError] before any
    process is run and every streamed one ends with it at once. *)
Theorem health_reports_agent_availability :
  forall (w : World),
    exists r,
      health.health_check w = (Return r, w)
      /\ health.status r
         = (if health.cursor_cli_available r then "ok" else "degraded")
      /\ (forall cmd,
            _find_agent_command w = (Return cmd, w) ->
            health.cursor_cli_available r = true
            /\ health.cursor_cli_version r = ("agent @ " ++ Py.join " " cmd)%string)
      /\ (forall msg,
            _find_agent_command w = (Raise (FileNotFoundError msg), w) ->
            health.cursor_cli_available r = false
            /\ health.cursor_cli_version r = ""
            /\ (forall strip json_loads validate prompt project_path0
                       timeout_seconds mode sid,
                  invoke_cursor strip json_loads validate prompt project_path0
                                timeout_seconds mode sid w
                  = (Raise (FileNotFoundError msg), w))
            /\ (forall json_loads json_dumps str_other prompt project_path0 sid,
                  invoke_cursor_streaming json_loads json_dumps str_other prompt
                                          project_path0 sid w
                  = (Return ([], Raised (FileNotFoundError msg)), w)))
      /\ (health.cursor_cli_available r = true
          \/ health.cursor_cli_available r = false
             /\ exists msg,
                  _find_agent_command w = (Raise (FileNotFoundError msg), w)).
Proof.
  intros w. unfold health.health_check, try_except, bind.
  rewrite find_agent_run. destruct (resolved w) as [cmd|] eqn:Hcmd.
  - eexists. split; [reflexivity|]. simpl. split; [reflexivity|].
    split; [|split; [|now left]].
    + intros cmd' [= <-]. auto.
    + intros msg H. discriminate.
  - eexists. split; [reflexivity|]. simpl. split; [reflexivity|].
    split; [|split].
    + intros cmd H. discriminate.
    + intros msg [= <-]. split; [reflexivity|]. split; [reflexivity|]. split.
      * intros. now apply invoke_cursor_unavailable.
      * intros. now apply streaming_unavailable.
    + right. split; [reflexivity|]. eexists. reflexivity.
Qed.

Module RouteFacts.
Import events events_routes.

Section Calls.
Variable repr : string -> string.

Lemma job_or_404_found w id job :
  job_of w id = Some job -> job_or_404 repr id w = (Return job, w).
Proof.
  intros Hjob. unfold job_or_404.
  now rewrite (try_except_return _ _ _ _ _ (get_job_found repr _ _ _ Hjob)).
Qed.

Lemma job_or_404_missing w id :
  job_of w id = None ->
  job_or_404 repr id w
  = (Raise (HTTPException 404 ("Job " ++ repr id ++ " not found")), w).
Proof.
  intros Hjob. unfold job_or_404.
  now rewrite (try_except_raise _ _ _ _ _ (get_job_missing repr _ _ Hjob)).
Qed.

Lemma get_job_status_run w id job :
  job_of w id = Some job ->
  get_job_status repr id w
  = (Return (mkJobStatusResponse
               (models.job_id job) (JobState_value (models.state job))
               (Z.of_nat (length (models.events job)))
               (last (map data (models.events job)) "")), w).
Proof.
  intros Hjob. unfold get_job_status.
  rewrite (bind_return _ _ _ _ _ (job_or_404_found _ _ _ Hjob)).
  unfold ret. do 3 f_equal.
  destruct (models.events job) as [|e l]; [reflexivity|].
  generalize e at 1 3. induction l as [|e' l IH]; intros e0; [reflexivity|].
  change (last (e0 :: e' :: l) e) with (last (e' :: l) e).
  change (last (map data (e0 :: e' :: l)) "")
    with (last (map data (e' :: l)) "").
  apply IH.
Qed.

Lemma event_generator_run w id q :
  queue_of w id = Some q ->
  _event_generator repr id w
  = (Return (fst (fst (pump q)), snd (pump q)),
     with_queue w id (snd (fst (pump q)))).
Proof.
  intros Hq. unfold _event_generator, get_events, bind, get_world, Py.contains.
  unfold queue_of in Hq. rewrite Hq. simpl. rewrite Hq.
  now destruct (pump q) as [[items remaining] stopped].
Qed.

End Calls.
End RouteFacts.

Import RouteFacts.

(** X12.  The status poll reads the registry and changes nothing.  For
    an id that is not registered it answers 404; for a registered job it
    returns the job's id, the value of its state, the number of its
    events and the payload of the last one (the empty string when there
    is none).  So a poll right after [add_event] counts one event more
    and shows its payload, and a poll right after a transition that is
    applied shows the new state. *)
Theorem status_poll_follows_registry :
  forall (repr : string -> string) (w : World) (id : string),
    (job_of w id = None ->
     events_routes.get_job_status repr id w
     = (Raise (HTTPException 404 ("Job " ++ repr id ++ " not found")), w))
    /\ (forall job,
          job_of w id = Some job ->
          events_routes.get_job_status repr id w
          = (Return (events_routes.mkJobStatusResponse
                       (job_id job) (JobState_value (state job))
                       (Z.of_nat (length (events job)))
                       (last (map data (events job)) "")), w))
    /\ (forall job q t d,
          job_of w id = Some job -> queue_of w id = Some q ->
          fst (bind (add_event repr id t d)
                    (fun _ => events_routes.get_job_status repr id) w)
          = Return (events_routes.mkJobStatusResponse
                      (job_id job) (JobState_value (state job))
                      (Z.of_nat (length (events job)) + 1) d))
    /\ (forall job target,
          job_of w id = Some job -> edge (state job) target ->
          fst (bind (transition repr id target)
                    (fun _ => events_routes.get_job_status repr id) w)
          = Return (events_routes.mkJobStatusResponse
                      (job_id job) (JobState_value target)
                      (Z.of_nat (length (events job)))
                      (last (map data (events job)) ""))).
Proof.
  intros repr w id. split; [|split; [|split]].
  - intros Hjob. unfold events_routes.get_job_status.
    now rewrite (bind_raise _ _ _ _ _ (job_or_404_missing repr _ _ Hjob)).
  - intros job Hjob. now apply get_job_status_run.
  - intros job q t d Hjob Hq.
    rewrite (bind_return _ _ _ _ _ (add_event_run repr _ _ _ _ t d Hjob Hq)).
    erewrite get_job_status_run;
      [|unfold after_add_event; rewrite job_of_with_queue; apply job_of_with_job].
    cbn [fst models.events append_event models.job_id models.state].
    rewrite length_app, map_app. cbn [map length].
    rewrite last_last. do 2 f_equal. lia.
  - intros job target Hjob Hedge.
    rewrite (bind_return _ _ _ _ _ (transition_run repr _ _ _ _ Hjob Hedge)).
    erewrite get_job_status_run; [|apply job_of_after_transition].
    reflexivity.
Qed.

Lemma status_of_ready_plan :
  job_of (Scenarios.plan_ready bare_host) "0123456789ab"
  = Some Scenarios.plan_ready_job
  /\ events_routes.get_job_status Worlds.repr "0123456789ab"
       (Scenarios.plan_ready bare_host)
     = (Return (events_routes.mkJobStatusResponse
                  "0123456789ab" "plan_ready" 1 "Plan generation completed"),
        Scenarios.plan_ready bare_host).
Proof.
  assert (Hjob : job_of (Scenarios.plan_ready bare_host) "0123456789ab"
                 = Some Scenarios.plan_ready_job) by reflexivity.
  split; [exact Hjob|].
  exact (proj1 (proj2 (status_poll_follows_registry Worlds.repr
                         (Scenarios.plan_ready bare_host) "0123456789ab"))
               Scenarios.plan_ready_job Hjob).
Defined.

(** What the stream recognises as the end: a [DONE] or an [ERROR]
    event, and no other. *)
Lemma terminal_done_or_error t :
  events.terminal t = true <-> t = DONE \/ t = ERROR.
Proof.
  destruct t; cbn; split; intros H; try discriminate; auto;
    destruct H; discriminate.
Qed.

Lemma not_terminal_step_or_log (l : list JobEvent) :
  forallb (fun x => negb (events.terminal (event_type x))) l = true ->
  forall x, In x l -> event_type x = STEP \/ event_type x = LOG.
Proof.
  intros Hall x Hx. rewrite forallb_forall in Hall. specialize (Hall x Hx).
  destruct (event_type x); auto; discriminate.
Qed.

(** X13.  A run of the event stream of a registered job yields the
    queued events in order, each as the pair of the name of its category
    ([step], [log], [done] or [error]) and its payload, up to and
    including the first [DONE] or [ERROR] event, and takes exactly those
    off the queue; events queued behind that one stay queued; with no
    [DONE] or [ERROR] event queued it yields them all and waits.  The
    jobs are untouched.  For an id that is not registered the stream
    answers 404 and changes nothing. *)
Theorem event_stream_stops_at_terminal_event :
  forall (repr : string -> string) (w : World) (id : string),
    (job_of w id = None ->
     events_routes.stream_events repr id w
     = (Raise (HTTPException 404 ("Job " ++ repr id ++ " not found")), w))
    /\ (forall job q,
          job_of w id = Some job -> queue_of w id = Some q ->
          exists consumed remaining stopped w',
            events_routes.stream_events repr id w
            = (Return (map (fun e =>
                              (match event_type e with
                               | STEP => "step" | LOG => "log"
                               | DONE => "done" | ERROR => "error"
                               end, data e)) consumed, stopped), w')
            /\ q = consumed ++ remaining
            /\ queue_of w' id = Some remaining
            /\ (forall k, job_of w' k = job_of w k)
            /\ (forall k, k <> id -> queue_of w' k = queue_of w k)
            /\ (stopped = true ->
                 exists before e,
                   consumed = before ++ [e]
                   /\ (event_type e = DONE \/ event_type e = ERROR)
                   /\ forall x, In x before ->
                                event_type x = STEP \/ event_type x = LOG)
            /\ (stopped = false ->
                 remaining = []
                 /\ forall x, In x consumed ->
                              event_type x = STEP \/ event_type x = LOG)).
Proof.
  intros repr w id. split.
  - intros Hjob. unfold events_routes.stream_events.
    now rewrite (bind_raise _ _ _ _ _ (job_or_404_missing repr _ _ Hjob)).
  - intros job q Hjob Hq.
    destruct (BoundaryFacts.pump_prefix q) as (consumed & Hsplit & Hitems & Hstop).
    exists consumed, (snd (fst (events.pump q))), (snd (events.pump q)),
           (with_queue w id (snd (fst (events.pump q)))).
    split; [|split; [exact Hsplit|split; [|split; [|split; [|split]]]]].
    + unfold events_routes.stream_events.
      rewrite (bind_return _ _ _ _ _ (job_or_404_found repr _ _ _ Hjob)).
      rewrite (event_generator_run repr _ _ _ Hq), Hitems.
      f_equal; f_equal; f_equal; apply map_ext; intros e;
        unfold events.rendered; now destruct (event_type e).
    + apply queue_of_with_queue.
    + intros k. apply job_of_with_queue.
    + intros k Hk. now apply queue_of_with_queue_other.
    + intros Hstopped. rewrite Hstopped in Hstop.
      destruct Hstop as (before & e & Hcons & Hterm & Hbefore).
      exists before, e. split; [exact Hcons|].
      split; [now apply terminal_done_or_error|].
      now apply not_terminal_step_or_log.
    + intros Hstopped. rewrite Hstopped in Hstop.
      destruct Hstop as (Hrem & Hall).
      split; [exact Hrem|now apply not_terminal_step_or_log].
Qed.

(** The stream of the first job once executed: the [DONE] event of the
    plan phase, still queued, comes first and ends the stream; the
    events of the execution stay queued behind it. *)
Lemma stream_of_executed_plan :
  job_of (Scenarios.executed bare_host) "0123456789ab"
  = Some Scenarios.executed_job
  /\ queue_of (Scenarios.executed bare_host) "0123456789ab"
     = Some [Scenarios.plan_done; Scenarios.step_started; Scenarios.run_done]
  /\ (exists consumed remaining stopped w',
        events_routes.stream_events Worlds.repr "0123456789ab"
          (Scenarios.executed bare_host)
        = (Return (map (fun e =>
                          (match event_type e with
                           | STEP => "step" | LOG => "log"
                           | DONE => "done" | ERROR => "error"
                           end, data e)) consumed, stopped), w')
        /\ [Scenarios.plan_done; Scenarios.step_started; Scenarios.run_done]
           = consumed ++ remaining
        /\ queue_of w' "0123456789ab" = Some remaining)
  /\ events_routes.stream_events Worlds.repr "0123456789ab"
       (Scenarios.executed bare_host)
     = (Return ([("done", "Plan generation completed")], true),
        with_queue (Scenarios.executed bare_host) "0123456789ab"
                   [Scenarios.step_started; Scenarios.run_done]).
Proof.
  assert (Hjob : job_of (Scenarios.executed bare_host) "0123456789ab"
                 = Some Scenarios.executed_job) by reflexivity.
  assert (Hq : queue_of (Scenarios.executed bare_host) "0123456789ab"
               = Some [Scenarios.plan_done; Scenarios.step_started;
                       Scenarios.run_done]) by reflexivity.
  split; [exact Hjob|]. split; [exact Hq|]. split; [|reflexivity].
  destruct (proj2 (event_stream_stops_at_terminal_event Worlds.repr
                     (Scenarios.executed bare_host) "0123456789ab")
                  Scenarios.executed_job
                  [Scenarios.plan_done; Scenarios.step_started; Scenarios.run_done]
                  Hjob Hq)
    as (consumed & remaining & stopped & w' & Hrun & Hsplit & Hqueue & _).
  exists consumed, remaining, stopped, w'. auto.
Defined.


(* ================================================================= *)
(** ** The ask and plan phases from request to response *)

Module PhaseRuns.




Section Calls.
Variable repr : string -> string.
Variable strip : string -> string.
Variable json_loads : string -> option Py.value.
Variable validate_AgentResult :
  Py.value -> Py.value -> Py.value -> Py.value -> outcome AgentResult.

Lemma invoke_cursor_spawn_failed w prompt project_path0 timeout_seconds mode sid
      base_cmd msg :
  resolved w = Some base_cmd ->
  subprocess_run (host w) (_build_args base_cmd mode sid prompt false)
                 project_path0 timeout_seconds = SpawnFailed msg ->
  invoke_cursor strip json_loads validate_AgentResult prompt project_path0
                timeout_seconds mode sid w
  = (Raise (OSError msg), w).
Proof.
  intros Hcmd Hrun. unfold invoke_cursor, bind. rewrite find_agent_run, Hcmd.
  unfold _run_blocking, bind, get_world. now rewrite Hrun.
Qed.


End Calls.

Section Ask.
Variable repr : string -> string.
Variable strip : string -> string.
Variable json_loads : string -> option Py.value.
Variable validate_AgentResult :
  Py.value -> Py.value -> Py.value -> Py.value -> outcome AgentResult.
Variable build_ask_prompt : AskRequest.t -> string.


End Ask.

Section Plan.
Variable repr : string -> string.
Variable strip : string -> string.
Variable json_loads : string -> option Py.value.
Variable validate_AgentResult :
  Py.value -> Py.value -> Py.value -> Py.value -> outcome AgentResult.
Variable build_plan_prompt : PlanRequest.t -> string.


End Plan.


End PhaseRuns.

Import PhaseRuns.





(** X16.  The failures of the ask phase.  With the directory of the job
    made, the job is failed and one [ERROR] event is logged and queued
    before the handler raises: a process that exceeds the timeout gives
    504 and ["Cursor agent timed out"]; a process that cannot be started
    gives 500 and ["Cursor CLI not found: "] followed by the text of the
    operating system's error, although the CLI was found; an agent that
    is not found, off Windows, gives 500 and the same prefix followed by
    the text of the [FileNotFoundError]. *)
Theorem ask_failures_fail_the_job :
  forall (repr strip : string -> string) (json_loads : string -> option Py.value)
         (validate_AgentResult :
            Py.value -> Py.value -> Py.value -> Py.value -> outcome AgentResult)
         (build_ask_prompt : AskRequest.t -> string)
         (w : World) (request : AskRequest.t) (fs' : FileSystem),
    mkdir (disk w) (next_dir w) = FsOk fs' ->
    (forall agent_path,
        found_on_path (which_agent (host w)) = Some agent_path ->
        subprocess_run (host w)
          (_build_args [agent_path] "ask" (AskRequest.session_id request)
                       (build_ask_prompt request) false)
          (AskRequest.project_path request) (cursor_timeout_seconds (host w))
        = TimeoutExpired ->
        exists w' job e,
          ask.ask repr strip json_loads validate_AgentResult build_ask_prompt
                  request w
          = (Raise (HTTPException 504 "Cursor agent timed out"), w')
          /\ job_of w' (next_id w) = Some job
          /\ state job = FAILED
          /\ events job = [e]
          /\ queue_of w' (next_id w) = Some [e]
          /\ label e = (ERROR, "Cursor agent timed out"))
    /\ (forall agent_path msg,
          found_on_path (which_agent (host w)) = Some agent_path ->
          subprocess_run (host w)
            (_build_args [agent_path] "ask" (AskRequest.session_id request)
                         (build_ask_prompt request) false)
            (AskRequest.project_path request) (cursor_timeout_seconds (host w))
          = SpawnFailed msg ->
          exists w' job e,
            ask.ask repr strip json_loads validate_AgentResult build_ask_prompt
                    request w
            = (Raise (HTTPException 500 ("Cursor CLI not found: " ++ msg)), w')
            /\ job_of w' (next_id w) = Some job
            /\ state job = FAILED
            /\ events job = [e]
            /\ queue_of w' (next_id w) = Some [e]
            /\ label e = (ERROR, ("Cursor CLI not found: " ++ msg)%string))
    /\ (found_on_path (which_agent (host w)) = None ->
        _WINDOWS (host w) = false ->
        exists w' job e,
          ask.ask repr strip json_loads validate_AgentResult build_ask_prompt
                  request w
          = (Raise (HTTPException 500
                      ("Cursor CLI not found: Cursor agent CLI not found. "
                         ++ "Install it with: curl -fsSL https://cursor.com/install | bash")),
             w')
          /\ job_of w' (next_id w) = Some job
          /\ state job = FAILED
          /\ events job = [e]
          /\ queue_of w' (next_id w) = Some [e]
          /\ label e
             = (ERROR,
                ("Cursor CLI not found: Cursor agent CLI not found. "
                   ++ "Install it with: curl -fsSL https://cursor.com/install | bash")%string)).
Proof.
  intros repr strip json_loads validate build w request fs' Hmk.
  split; [|split].
  - intros agent_path Hpath Hrun.
    destruct (ask_invocation_raises repr strip json_loads validate build w request
                fs'
                (TimeoutError ("Agent CLI timed out after "
                                 ++ Py.str_of_int (cursor_timeout_seconds (host w))
                                 ++ "s"))
                Hmk)
      as (w' & job & Hjob & Hask & Hstate & e & Hev & Hq & Hlabel).
    { intros w1 Hhost. apply invoke_cursor_timeout with (base_cmd := [agent_path]).
      - now apply (resolved_on_path w).
      - now rewrite Hhost. }
    exists w', job, e. auto 10.
  - intros agent_path msg Hpath Hrun.
    destruct (ask_invocation_raises repr strip json_loads validate build w request
                fs' (OSError msg) Hmk)
      as (w' & job & Hjob & Hask & Hstate & e & Hev & Hq & Hlabel).
    { intros w1 Hhost.
      apply invoke_cursor_spawn_failed with (base_cmd := [agent_path]).
      - now apply (resolved_on_path w).
      - now rewrite Hhost. }
    exists w', job, e. auto 10.
  - intros Hpath Hwin.
    destruct (ask_invocation_raises repr strip json_loads validate build w request
                fs'
                (FileNotFoundError ("Cursor agent CLI not found. " ++ install_hint false))
                Hmk)
      as (w' & job & Hjob & Hask & Hstate & e & Hev & Hq & Hlabel).
    { intros w1 Hhost.
      rewrite (invoke_cursor_unavailable _ _ _ w1)
        by now apply (unresolved_on_host w).
      now rewrite Hhost, Hwin. }
    exists w', job, e. auto 10.
Qed.

(** The first question on a host whose agent exceeds the timeout. *)
Lemma first_question_times_out :
  mkdir (disk (fresh slow_host distinct_uuids))
        (next_dir (fresh slow_host distinct_uuids))
  = FsOk [ ([""], Dir); ([""; "srv"], Dir); ([""; "srv"; "jobs"], Dir);
           ([""; "srv"; "jobs"; "0123456789ab"], Dir) ]
  /\ exists w' job e,
       ask.ask Worlds.repr strip_nothing (decoder []) strict_AgentResult
               prompt_templates.ask_prompt ask_request
               (fresh slow_host distinct_uuids)
       = (Raise (HTTPException 504 "Cursor agent timed out"), w')
       /\ job_of w' "0123456789ab" = Some job
       /\ state job = FAILED
       /\ events job = [e]
       /\ label e = (ERROR, "Cursor agent timed out").
Proof.
  split; [reflexivity|].
  destruct (proj1 (ask_failures_fail_the_job Worlds.repr strip_nothing (decoder [])
                     strict_AgentResult prompt_templates.ask_prompt
                     (fresh slow_host distinct_uuids) ask_request
                     [ ([""], Dir); ([""; "srv"], Dir); ([""; "srv"; "jobs"], Dir);
                       ([""; "srv"; "jobs"; "0123456789ab"], Dir) ]
                     eq_refl)
                  "/usr/local/bin/agent" eq_refl eq_refl)
    as (w' & job & e & Hrun & Hjob & Hstate & Hev & _ & Hlabel).
  exists w', job, e. auto 10.
Defined.

(** X17.  What the execution handler records of a failure that reaches
    it.  On a job that is executing and whose artifacts directory is in
    place: whenever the draining of the stream raises, the handler
    returns normally, the job is [FAILED], the events logged and queued
    meanwhile are followed by one [ERROR] event whose payload is the
    text of the exception, and [run.json] holds the rendering of the
    job as it then is: its ten fields in the order of the model, the
    state as ["failed"], every event with its category name, payload
    and timestamp, and both timestamps of the job. *)
Theorem execution_failure_is_persisted :
  forall (repr : string -> string) (isoformat : datetime -> string)
         (json_dumps_indent : Py.value -> string)
         (json_loads : string -> option Py.value)
         (json_dumps str_other : Py.value -> string)
         (build_execute_prompt : string -> string -> string)
         (w : World) (id : string) (job : Job) (q : Queue)
         (plan_markdown0 project_path0 sid : string) (exc : exn) (w1 : World),
    job_of w id = Some job ->
    queue_of w id = Some q ->
    state job = EXECUTING ->
    is_dir (disk w) (artifacts_dir job) = true ->
    is_dir (disk w) (artifacts_dir job ++ ["run.json"]) = false ->
    drain repr json_loads json_dumps str_other id
          (build_execute_prompt plan_markdown0 project_path0) project_path0 sid w
    = (Raise exc, w1) ->
    exists w' job' evs e,
      _run_execution repr isoformat json_dumps_indent json_loads json_dumps
                     str_other build_execute_prompt id plan_markdown0
                     project_path0 sid w
      = (Return tt, w')
      /\ job_of w' id = Some job'
      /\ state job' = FAILED
      /\ events job' = events job ++ evs ++ [e]
      /\ queue_of w' id = Some (q ++ evs ++ [e])
      /\ label e = (ERROR, str_exn repr exc)
      /\ read_text (disk w') (artifacts_dir job' ++ ["run.json"])
         = Some (json_dumps_indent
                   (Py.VDict
                      [ ("job_id", Py.VStr (job_id job'));
                        ("project_path", Py.VStr (project_path job'));
                        ("state", Py.VStr "failed");
                        ("session_id", Py.VStr (models.session_id job'));
                        ("plan_id", Py.VStr (plan_id job'));
                        ("plan_markdown", Py.VStr (plan_markdown job'));
                        ("artifacts_dir",
                         Py.VStr (Py.join (if _WINDOWS (host w') then "\" else "/")
                                          (artifacts_dir job')));
                        ("events",
                         Py.VList
                           (map (fun ev =>
                                   Py.VDict
                                     [ ("event_type",
                                        Py.VStr (match event_type ev with
                                                 | STEP => "step" | LOG => "log"
                                                 | DONE => "done" | ERROR => "error"
                                                 end));
                                       ("data", Py.VStr (data ev));
                                       ("timestamp",
                                        Py.VStr (isoformat (timestamp ev))) ])
                                (events job')));
                        ("created_at", Py.VStr (isoformat (created_at job')));
                        ("updated_at", Py.VStr (isoformat (updated_at job'))) ])).
Proof.
  intros repr isoformat json_dumps_indent json_loads json_dumps str_other
         build_execute_prompt w id job q plan_markdown0 project_path0 sid exc w1
         Hjob Hq Hstate Hdir Hfree Hdrain.
  destruct (proj1 (execution_failure_recorded_and_persisted repr isoformat
                     json_dumps_indent json_loads json_dumps str_other
                     build_execute_prompt w id job q plan_markdown0 project_path0
                     sid Hjob Hq Hstate (conj Hdir Hfree))
                  exc w1 Hdrain)
    as (w' & job' & evs & e & Hrun & Hjob' & Hstate' & Hev & Hq' & Hlabel & Hread).
  exists w', job', evs, e.
  do 6 (split; [assumption|]).
  unfold run_json, path_join in Hread. rewrite Hread.
  unfold model_dump, event_dump. rewrite Hstate'.
  reflexivity.
Qed.

(** An execution on a host without the agent CLI: the stream raises
    [FileNotFoundError] at its first step; the handler fails the job and
    writes [run.json], which in the short rendering reads as a failed
    job with a [step] and an [error] event. *)
Lemma missing_agent_is_persisted :
  job_of (executing bare_host) "0123456789ab" = Some executing_job
  /\ queue_of (executing bare_host) "0123456789ab" = Some []
  /\ (exists w' job' evs e,
        _run_execution Worlds.repr Worlds.isoformat summary_dumps (decoder [])
                       scenario_dumps scenario_str execute_prompt
                       "0123456789ab" "# Plan" "/srv/project" "sess-1"
                       (executing bare_host)
        = (Return tt, w')
        /\ job_of w' "0123456789ab" = Some job'
        /\ state job' = FAILED
        /\ events job' = evs ++ [e]
        /\ queue_of w' "0123456789ab" = Some (evs ++ [e])
        /\ label e = (ERROR, not_found_text))
  /\ read_text
       (disk (world_of
                (_run_execution Worlds.repr Worlds.isoformat summary_dumps
                                (decoder []) scenario_dumps scenario_str
                                execute_prompt "0123456789ab" "# Plan"
                                "/srv/project" "sess-1" (executing bare_host))))
       [""; "srv"; "jobs"; "0123456789ab"; "run.json"]
     = Some "failed:step,error".
Proof.
  assert (Hjob : job_of (executing bare_host) "0123456789ab" = Some executing_job)
    by reflexivity.
  assert (Hq : queue_of (executing bare_host) "0123456789ab" = Some [])
    by reflexivity.
  split; [exact Hjob|]. split; [exact Hq|]. split; [|reflexivity].
  destruct (execution_failure_is_persisted Worlds.repr Worlds.isoformat
              summary_dumps (decoder []) scenario_dumps scenario_str
              execute_prompt (executing bare_host) "0123456789ab" executing_job []
              "# Plan" "/srv/project" "sess-1"
              (FileNotFoundError not_found_text)
              (world_of (drain Worlds.repr (decoder []) scenario_dumps scenario_str
                               "0123456789ab" (execute_prompt "# Plan" "/srv/project")
                               "/srv/project" "sess-1" (executing bare_host)))
              Hjob Hq eq_refl eq_refl eq_refl)
    as (w' & job' & evs & e & Hrun & Hjob' & Hstate & Hevents & Hqueue & Hlabel & _).
  { now apply run_eq. }
  exists w', job', evs, e. auto 10.
Defined.
